(** * NexaWeb PYXM template engine: lexer, parser, compiler, cache

    A shallow embedding of [nexaweb/engine/pyxm_parser.py],
    [nexaweb/engine/pyxm_compiler.py] and [nexaweb/engine/template.py],
    with the properties of the engine stated and settled against it. *)

From stdpp Require Import gmap strings list.
From Stdlib Require Import ZArith Ascii Lia.

(** ** Python exceptions and outcomes

    Fallible operations return the value or the exception raised; stateful
    ones pair the outcome with the state the object is left in. *)

Inductive pyexn :=
| ValueError (msg : string)
| IndexError (msg : string)
| KeyError (key : string)
| SyntaxError (msg : string)
| NameError (name : string)
| TypeError (msg : string)
| AttributeError (msg : string)
| TemplateSyntaxError (msg : string).

Inductive outcome (A : Type) :=
| Ok (a : A)
| Raise (e : pyexn).
Arguments Ok {A} a.
Arguments Raise {A} e.

(** ** TemplateCache (pyxm_compiler.py, class TemplateCache) *)

Module TemplateCache.
Section Cache.
Context {V : Type}.

Record t := mk {
  max_size : Z;
  _cache : gmap string V;
  _access_order : list string
}.

(** [TemplateCache.__init__] *)
Definition init (max_size : Z) : t := mk max_size ∅ [].

(** Python's [list.remove(x)]: drops the first occurrence, raises
    ValueError when there is none. *)
Fixpoint list_remove (k : string) (l : list string) : option (list string) :=
  match l with
  | [] => None
  | x :: l' => if decide (x = k) then Some l' else cons x <$> list_remove k l'
  end.

(** [TemplateCache.get]: outcome and the cache afterwards. *)
Definition get (c : t) (key : string) : outcome (option V) * t :=
  match _cache c !! key with
  | Some v =>
      match list_remove key (_access_order c) with
      | None => (Raise (ValueError "list.remove(x): x not in list"), c)
      | Some l => (Ok (Some v), mk (max_size c) (_cache c) (l ++ [key]))
      end
  | None => (Ok None, c)
  end.

(** [TemplateCache.set]. *)
Definition set (c : t) (key : string) (template : V) : outcome unit * t :=
  let finish (c1 : t) :=
    (Ok tt, mk (max_size c1) (<[key := template]> (_cache c1))
               (_access_order c1 ++ [key])) in
  match _cache c !! key with
  | Some _ =>
      match list_remove key (_access_order c) with
      | None => (Raise (ValueError "list.remove(x): x not in list"), c)
      | Some l => finish (mk (max_size c) (_cache c) l)
      end
  | None =>
      if bool_decide (max_size c ≤ Z.of_nat (size (_cache c)))%Z then
        match _access_order c with
        | [] => (Raise (IndexError "pop from empty list"), c)
        | oldest :: rest =>
            match _cache c !! oldest with
            | None => (Raise (KeyError oldest), mk (max_size c) (_cache c) rest)
            | Some _ => finish (mk (max_size c) (delete oldest (_cache c)) rest)
            end
        end
      else finish c
  end.

(** [TemplateCache.clear]. *)
Definition clear (c : t) : t := mk (max_size c) ∅ [].

(** [__contains__] and [__len__]. *)
Definition contains (c : t) (key : string) : bool :=
  bool_decide (is_Some (_cache c !! key)).
Definition len (c : t) : Z := Z.of_nat (size (_cache c)).

(** Several [set] calls in a row, stopping at the first exception. *)
Fixpoint set_all (c : t) (kvs : list (string * V)) : outcome unit * t :=
  match kvs with
  | [] => (Ok tt, c)
  | (k, v) :: kvs' =>
      match set c k v with
      | (Ok _, c') => set_all c' kvs'
      | (Raise e, c') => (Raise e, c')
      end
  end.

(** The representation invariant: the access-order list holds exactly the
    keys of the dictionary, each once, and the dictionary is within
    capacity. *)
Definition inv (c : t) : Prop :=
  NoDup (_access_order c) ∧
  (∀ k, k ∈ _access_order c ↔ is_Some (_cache c !! k)) ∧
  (Z.of_nat (size (_cache c)) ≤ max_size c)%Z.

End Cache.
Arguments t : clear implicits.
End TemplateCache.

(** ** Python string operations used by the engine

    Source text is modelled as a [string] of 8-bit characters (code points
    below 256); on those, the classes below are the ones Python's [str]
    methods and the [re] module use. *)

Module PyStr.

Definition code (c : ascii) : nat := nat_of_ascii c.

Definition between (lo hi : nat) (c : ascii) : bool :=
  (lo <=? code c)%nat && (code c <=? hi)%nat.

(** [str.isspace], also the class [\s] of [re] on [str] patterns. *)
Definition isspace (c : ascii) : bool :=
  between 9 13 c || between 28 32 c || (code c =? 133)%nat || (code c =? 160)%nat.

(** [[a-zA-Z]], [[0-9]]. *)
Definition is_alpha (c : ascii) : bool := between 65 90 c || between 97 122 c.
Definition is_digit (c : ascii) : bool := between 48 57 c.

Definition eqb_ascii (a b : ascii) : bool := Ascii.eqb a b.

(** The double-quote and single-quote characters, and the backslash. *)
Definition dquote : ascii := "034"%char.
Definition squote : ascii := "039"%char.
Definition backslash : ascii := "092"%char.

(** [s[n:]], [s[:n]] and [s[i:j]] for non-negative indices. *)
Fixpoint drop (n : nat) (s : string) : string :=
  match n, s with
  | O, _ => s
  | S n', String _ s' => drop n' s'
  | S _, EmptyString => EmptyString
  end.

Fixpoint take (n : nat) (s : string) : string :=
  match n, s with
  | S n', String c s' => String c (take n' s')
  | _, _ => EmptyString
  end.

Definition slice (i j : nat) (s : string) : string := take (j - i) (drop i s).

(** [s.startswith(p)], [s.endswith(p)]. *)
Fixpoint startswith (p s : string) : bool :=
  match p, s with
  | EmptyString, _ => true
  | String a p', String b s' => eqb_ascii a b && startswith p' s'
  | String _ _, EmptyString => false
  end.

Definition endswith (p s : string) : bool :=
  (String.length p <=? String.length s)%nat &&
  String.eqb (drop (String.length s - String.length p) s) p.

(** [sub in s] and [s.index(sub)]: the first position where [sub] occurs. *)
Fixpoint find (sub s : string) : option nat :=
  if startswith sub s then Some O
  else match s with
       | EmptyString => None
       | String _ s' => S <$> find sub s'
       end.

Definition contains (sub s : string) : bool :=
  match find sub s with Some _ => true | None => false end.

(** [s.lstrip()], [s.rstrip()], [s.strip()]. *)
Fixpoint lstrip (s : string) : string :=
  match s with
  | String c s' => if isspace c then lstrip s' else s
  | EmptyString => EmptyString
  end.

Fixpoint rstrip (s : string) : string :=
  match s with
  | EmptyString => EmptyString
  | String c s' =>
      match rstrip s' with
      | EmptyString => if isspace c then EmptyString else String c EmptyString
      | r => String c r
      end
  end.

Definition strip (s : string) : string := rstrip (lstrip s).

(** [s.lower()]: below 256 the characters with a different lower-case
    form are A-Z and the Latin-1 capitals U+00C0-U+00DE without the
    multiplication sign U+00D7; each maps to the code point 32 above. *)
Definition lower_char (c : ascii) : ascii :=
  if between 65 90 c || between 192 214 c || between 216 222 c
  then ascii_of_nat (code c + 32) else c.

Fixpoint lower (s : string) : string :=
  match s with
  | EmptyString => EmptyString
  | String c s' => String (lower_char c) (lower s')
  end.

(** [s.split(sep)] for a one-character separator. *)
Fixpoint split (sep : ascii) (s : string) : list string :=
  match s with
  | EmptyString => [EmptyString]
  | String c s' =>
      if eqb_ascii c sep then EmptyString :: split sep s'
      else match split sep s' with
           | p :: ps => String c p :: ps
           | [] => [String c EmptyString]
           end
  end.

(** [sep.join(parts)]. *)
Fixpoint join (sep : string) (parts : list string) : string :=
  match parts with
  | [] => EmptyString
  | [p] => p
  | p :: ps => p +:+ sep +:+ join sep ps
  end.

(** A run of [n] spaces. *)
Fixpoint spaces (n : nat) : string :=
  match n with O => EmptyString | S n' => " " +:+ spaces n' end.

End PyStr.

(** ** Tokens (pyxm_parser.py, TokenType and Token) *)

Inductive TokenType :=
| TEXT | WHITESPACE | NEWLINE
| TAG_OPEN | TAG_CLOSE | TAG_SELF_CLOSE | TAG_END_OPEN | TAG_NAME
| ATTR_NAME | ATTR_VALUE | ATTR_EQUALS
| EXPR_OPEN | EXPR_CLOSE | EXPR_CONTENT
| STMT_OPEN | STMT_CLOSE | STMT_CONTENT
| COMMENT_OPEN | COMMENT_CLOSE | COMMENT_CONTENT
| PY_BLOCK_OPEN | PY_BLOCK_CLOSE | PY_CONTENT
| EVENT_BIND | ATTR_BIND | REF_BIND
| EOF.

Global Instance TokenType_eq_dec : EqDecision TokenType.
Proof. solve_decision. Defined.

Record Token := mkToken {
  tok_type : TokenType;
  tok_value : string;
  tok_line : nat;
  tok_column : nat
}.

(** [TokenType.name], used in messages. *)
Definition TokenType_name (t : TokenType) : string :=
  match t with
  | TEXT => "TEXT" | WHITESPACE => "WHITESPACE" | NEWLINE => "NEWLINE"
  | TAG_OPEN => "TAG_OPEN" | TAG_CLOSE => "TAG_CLOSE"
  | TAG_SELF_CLOSE => "TAG_SELF_CLOSE" | TAG_END_OPEN => "TAG_END_OPEN"
  | TAG_NAME => "TAG_NAME" | ATTR_NAME => "ATTR_NAME"
  | ATTR_VALUE => "ATTR_VALUE" | ATTR_EQUALS => "ATTR_EQUALS"
  | EXPR_OPEN => "EXPR_OPEN" | EXPR_CLOSE => "EXPR_CLOSE"
  | EXPR_CONTENT => "EXPR_CONTENT"
  | STMT_OPEN => "STMT_OPEN" | STMT_CLOSE => "STMT_CLOSE"
  | STMT_CONTENT => "STMT_CONTENT"
  | COMMENT_OPEN => "COMMENT_OPEN" | COMMENT_CLOSE => "COMMENT_CLOSE"
  | COMMENT_CONTENT => "COMMENT_CONTENT"
  | PY_BLOCK_OPEN => "PY_BLOCK_OPEN" | PY_BLOCK_CLOSE => "PY_BLOCK_CLOSE"
  | PY_CONTENT => "PY_CONTENT"
  | EVENT_BIND => "EVENT_BIND" | ATTR_BIND => "ATTR_BIND"
  | REF_BIND => "REF_BIND" | EOF => "EOF"
  end.

(** ** PyxmLexer (pyxm_parser.py) *)

Module PyxmLexer.

(** The instance attributes. *)
Record t := mk {
  source : string;
  pos : nat;
  line : nat;
  column : nat;
  tokens : list Token
}.

(** [PyxmLexer.__init__] *)
Definition init (source : string) : t := mk source 0 1 1 [].

Definition len_source (st : t) : nat := String.length (source st).

(** [self.source[self.pos:]], the text the patterns are matched on. *)
Definition rest (st : t) : string := PyStr.drop (pos st) (source st).

(** *** The regular expressions of [PATTERNS], each as the length of its
    match at the start of the given text ([None]: no match). *)

(** The longest prefix of characters satisfying [p]. *)
Fixpoint span (p : ascii → bool) (s : string) : nat :=
  match s with
  | String c s' => if p c then S (span p s') else O
  | EmptyString => O
  end.

(** The pattern whitespace: one or more whitespace characters. *)
Definition re_whitespace (s : string) : option nat :=
  match span PyStr.isspace s with O => None | n => Some n end.

Definition name_start (c : ascii) : bool :=
  PyStr.is_alpha c || PyStr.eqb_ascii c "_".
Definition name_char (c : ascii) : bool :=
  PyStr.is_alpha c || PyStr.is_digit c || PyStr.eqb_ascii c "_" || PyStr.eqb_ascii c "-".
Definition word_char (c : ascii) : bool :=
  PyStr.is_alpha c || PyStr.is_digit c || PyStr.eqb_ascii c "_".

(** The pattern tag_name: a letter or underscore, then letters, digits,
    underscores and hyphens. *)
Definition re_tag_name (s : string) : option nat :=
  match s with
  | String c s' => if name_start c then Some (S (span name_char s')) else None
  | EmptyString => None
  end.

(** The two attribute-value patterns: the quote character [q], any
    characters other than [q], then [q] again. *)
Definition re_attr_value (q : ascii) (s : string) : option nat :=
  match s with
  | String c s' =>
      if PyStr.eqb_ascii c q then
        let n := span (fun x => negb (PyStr.eqb_ascii x q)) s' in
        match PyStr.drop n s' with
        | String _ _ => Some (S (S n))
        | EmptyString => None
        end
      else None
  | EmptyString => None
  end.

(** The patterns event_bind, attr_bind and ref_bind: the sigil [p],
    then a letter, then characters of [tail] (letters, digits and the
    underscore; attr_bind also takes the hyphen). *)
Definition re_bind (p : ascii) (tail : ascii → bool) (s : string) : option nat :=
  match s with
  | String c (String d s') =>
      if PyStr.eqb_ascii c p && PyStr.is_alpha d
      then Some (S (S (span tail s'))) else None
  | _ => None
  end.
Definition re_event_bind := re_bind "@" word_char.
Definition re_attr_bind := re_bind ":" name_char.
Definition re_ref_bind := re_bind "#" word_char.

(** The patterns py_open and py_close, matched with [re.IGNORECASE]:
    [open] is the opening bracket, with or without the slash. *)
Definition re_py (open : string) (s : string) : option nat :=
  if PyStr.startswith open s then
    match PyStr.drop (String.length open) s with
    | String p (String y s') =>
        if PyStr.eqb_ascii (PyStr.lower_char p) "p" &&
           PyStr.eqb_ascii (PyStr.lower_char y) "y" then
          let n := span PyStr.isspace s' in
          if PyStr.startswith ">" (PyStr.drop n s')
          then Some (String.length open + 2 + n + 1)%nat else None
        else None
    | _ => None
    end
  else None.
Definition re_py_open := re_py "<".
Definition re_py_close := re_py "</".

Definition re_literal (lit : string) (s : string) : option nat :=
  if PyStr.startswith lit s then Some (String.length lit) else None.

(** *** Methods *)

(** One step of [_advance]'s loop. *)
Definition advance1 (st : t) : t :=
  if (pos st <? len_source st)%nat then
    match PyStr.drop (pos st) (source st) with
    | String c _ =>
        if PyStr.eqb_ascii c "010"
        then mk (source st) (S (pos st)) (S (line st)) 1 (tokens st)
        else mk (source st) (S (pos st)) (line st) (S (column st)) (tokens st)
    | EmptyString => st
    end
  else st.

(** [_advance(count)] *)
Definition _advance (count : nat) (st : t) : t := Nat.iter count advance1 st.

(** [_add_token] *)
Definition _add_token (type : TokenType) (value : string) (st : t) : t :=
  mk (source st) (pos st) (line st) (column st)
     (tokens st ++ [mkToken type value (line st) (column st)]).

(** [_match_pattern], for a pattern given by its matcher. *)
Definition _match_pattern (re : string → option nat) (st : t) : bool :=
  match re (rest st) with Some _ => true | None => false end.

(** [_consume_pattern]: the matched text, if any, and the lexer after it. *)
Definition _consume_pattern (re : string → option nat) (st : t)
  : option string * t :=
  match re (rest st) with
  | Some n => (Some (PyStr.take n (rest st)), _advance n st)
  | None => (None, st)
  end.

(** [self.source[self.pos:self.pos+2]] *)
Definition peek2 (st : t) : string := PyStr.slice (pos st) (pos st + 2) (source st).

(** The [while] loop of [_tokenize_expression]. Each round but the one
    that brings [depth] to zero moves [pos] forward, so
    [len(source) + 2] rounds are enough; [fuel] starts there. *)
Fixpoint expression_loop (fuel : nat) (depth : nat) (st : t) : t :=
  match fuel with
  | O => st
  | S fuel' =>
      if (pos st <? len_source st)%nat && (0 <? depth)%nat then
        if String.eqb (peek2 st) "{{" then
          expression_loop fuel' (S depth) (_advance 2 st)
        else if String.eqb (peek2 st) "}}" then
          if (0 <? depth - 1)%nat
          then expression_loop fuel' (depth - 1) (_advance 2 st)
          else expression_loop fuel' (depth - 1) st
        else expression_loop fuel' depth (_advance 1 st)
      else st
  end.

(** [_tokenize_expression] *)
Definition _tokenize_expression (st : t) : t :=
  let st := _add_token EXPR_OPEN "{{" st in
  let st := _advance 2 st in
  let content_start := pos st in
  let st := expression_loop (len_source st + 2) 1 st in
  let content := PyStr.strip (PyStr.slice content_start (pos st) (source st)) in
  let st := _add_token EXPR_CONTENT content st in
  let st := _add_token EXPR_CLOSE "}}" st in
  _advance 2 st.

(** The loop shared by [_tokenize_statement] and [_tokenize_comment]:
    move forward until [closer] is at [pos] or the text ends. *)
Fixpoint until_loop (fuel : nat) (closer : string) (st : t) : t :=
  match fuel with
  | O => st
  | S fuel' =>
      if (pos st <? len_source st)%nat then
        if String.eqb (peek2 st) closer then st
        else until_loop fuel' closer (_advance 1 st)
      else st
  end.

(** [_tokenize_statement] *)
Definition _tokenize_statement (st : t) : t :=
  let st := _add_token STMT_OPEN "{%" st in
  let st := _advance 2 st in
  let content_start := pos st in
  let st := until_loop (len_source st + 1) "%}" st in
  let content := PyStr.strip (PyStr.slice content_start (pos st) (source st)) in
  let st := _add_token STMT_CONTENT content st in
  let st := _add_token STMT_CLOSE "%}" st in
  _advance 2 st.

(** [_tokenize_comment] *)
Definition _tokenize_comment (st : t) : t :=
  let st := _add_token COMMENT_OPEN "{#" st in
  let st := _advance 2 st in
  let content_start := pos st in
  let st := until_loop (len_source st + 1) "#}" st in
  let content := PyStr.slice content_start (pos st) (source st) in
  let st := _add_token COMMENT_CONTENT content st in
  let st := _add_token COMMENT_CLOSE "#}" st in
  _advance 2 st.

(** The loop of [_tokenize_python_block]. *)
Fixpoint py_loop (fuel : nat) (st : t) : t :=
  match fuel with
  | O => st
  | S fuel' =>
      if (pos st <? len_source st)%nat then
        if _match_pattern re_py_close st then st
        else py_loop fuel' (_advance 1 st)
      else st
  end.

(** [_tokenize_python_block] *)
Definition _tokenize_python_block (st : t) : t :=
  let st :=
    match re_py_open (rest st) with
    | Some n => _advance n (_add_token PY_BLOCK_OPEN (PyStr.take n (rest st)) st)
    | None => st
    end in
  let content_start := pos st in
  let st := py_loop (len_source st + 1) st in
  let content := PyStr.slice content_start (pos st) (source st) in
  let st := _add_token PY_CONTENT content st in
  match re_py_close (rest st) with
  | Some n => _advance n (_add_token PY_BLOCK_CLOSE (PyStr.take n (rest st)) st)
  | None => st
  end.

(** [value[1:-1]] *)
Definition unquote (value : string) : string :=
  PyStr.slice 1 (String.length value - 1) value.

(** [_tokenize_attr_value] *)
Definition _tokenize_attr_value (st : t) : t :=
  let st := (_consume_pattern re_whitespace st).2 in
  match _consume_pattern (re_attr_value PyStr.dquote) st with
  | (Some value, st') => _add_token ATTR_VALUE (unquote value) st'
  | (None, _) =>
      match _consume_pattern (re_attr_value "'") st with
      | (Some value, st') => _add_token ATTR_VALUE (unquote value) st'
      | (None, _) => st
      end
  end.

(** The group of a binding match: the matched text without its sigil. *)
Definition group1 (n : nat) (st : t) : string := PyStr.slice 1 n (rest st).

(** The attribute loop of [_tokenize_tag]. Every round that does not
    leave the loop consumes at least one character. *)
Fixpoint tag_loop (fuel : nat) (st : t) : t :=
  match fuel with
  | O => st
  | S fuel' =>
      if (pos st <? len_source st)%nat then
        let st := (_consume_pattern re_whitespace st).2 in
        if _match_pattern (re_literal "/>") st then
          _advance 2 (_add_token TAG_SELF_CLOSE "/>" st)
        else if _match_pattern (re_literal ">") st then
          _advance 1 (_add_token TAG_CLOSE ">" st)
        else
          match re_event_bind (rest st) with
          | Some n =>
              tag_loop fuel'
                (_tokenize_attr_value
                   (_advance n (_add_token EVENT_BIND (group1 n st) st)))
          | None =>
          match re_attr_bind (rest st) with
          | Some n =>
              tag_loop fuel'
                (_tokenize_attr_value
                   (_advance n (_add_token ATTR_BIND (group1 n st) st)))
          | None =>
          match re_ref_bind (rest st) with
          | Some n =>
              tag_loop fuel' (_advance n (_add_token REF_BIND (group1 n st) st))
          | None =>
          match _consume_pattern re_tag_name st with
          | (Some attr_name, st) =>
              let st := _add_token ATTR_NAME attr_name st in
              let st := (_consume_pattern re_whitespace st).2 in
              if _match_pattern (re_literal "=") st then
                tag_loop fuel'
                  (_tokenize_attr_value (_advance 1 (_add_token ATTR_EQUALS "=" st)))
              else tag_loop fuel' st
          | (None, st) => st
          end end end end
      else st
  end.

(** [_tokenize_tag] *)
Definition _tokenize_tag (st : t) : t :=
  let st := (_consume_pattern re_whitespace st).2 in
  let st :=
    match _consume_pattern re_tag_name st with
    | (Some name, st') => _add_token TAG_NAME name st'
    | (None, st') => st'
    end in
  tag_loop (len_source st + 1) st.

(** The loop of [_tokenize_text]. *)
Fixpoint text_loop (fuel : nat) (st : t) : t :=
  match fuel with
  | O => st
  | S fuel' =>
      if (pos st <? len_source st)%nat then
        if PyStr.startswith "<" (rest st)
           || String.eqb (peek2 st) "{{" || String.eqb (peek2 st) "{%"
           || String.eqb (peek2 st) "{#"
        then st
        else text_loop fuel' (_advance 1 st)
      else st
  end.

(** [_tokenize_text] *)
Definition _tokenize_text (st : t) : t :=
  let start := pos st in
  let st := text_loop (len_source st + 1) st in
  if (start <? pos st)%nat
  then _add_token TEXT (PyStr.slice start (pos st) (source st)) st
  else st.

(** [_next_token] *)
Definition _next_token (st : t) : t :=
  if _match_pattern (re_literal "{{") st then _tokenize_expression st
  else if _match_pattern (re_literal "{%") st then _tokenize_statement st
  else if _match_pattern (re_literal "{#") st then _tokenize_comment st
  else if _match_pattern re_py_open st then _tokenize_python_block st
  else if _match_pattern (re_literal "</") st then
    _tokenize_tag (_add_token TAG_END_OPEN "</" st)
  else if _match_pattern (re_literal "<") st then
    _tokenize_tag (_add_token TAG_OPEN "<" st)
  else _tokenize_text st.

(** The loop of [tokenize]: nothing in it bounds the number of rounds,
    so the model takes [fuel] and answers [None] when it runs out. *)
Fixpoint tokenize_loop (fuel : nat) (st : t) : option t :=
  if (pos st <? len_source st)%nat then
    match fuel with
    | O => None
    | S fuel' => tokenize_loop fuel' (_next_token st)
    end
  else Some st.

(** [tokenize] *)
Definition tokenize (fuel : nat) (st : t) : option (list Token) :=
  match tokenize_loop fuel st with
  | Some st' => Some (tokens (_add_token EOF "" st'))
  | None => None
  end.

End PyxmLexer.

(** ** AST (pyxm_parser.py, NodeType, PyxmNode, PyxmAST) *)

Module NodeType.
Inductive t :=
| ROOT | ELEMENT | TEXT | EXPRESSION | IF | ELIF | ELSE | FOR
| COMPONENT | SLOT | BLOCK | PYTHON | COMMENT | FRAGMENT | RAW.

Global Instance eq_dec : EqDecision t.
Proof. solve_decision. Defined.

(** [NodeType.name] *)
Definition name (x : t) : string :=
  match x with
  | ROOT => "ROOT" | ELEMENT => "ELEMENT" | TEXT => "TEXT"
  | EXPRESSION => "EXPRESSION" | IF => "IF" | ELIF => "ELIF"
  | ELSE => "ELSE" | FOR => "FOR" | COMPONENT => "COMPONENT"
  | SLOT => "SLOT" | BLOCK => "BLOCK" | PYTHON => "PYTHON"
  | COMMENT => "COMMENT" | FRAGMENT => "FRAGMENT" | RAW => "RAW"
  end.
End NodeType.

(** A Python [dict] with string keys: the items in insertion order.
    Assigning to a key that is present replaces its value in place. *)
Module PyDict.
Definition t (V : Type) : Type := list (string * V).

Fixpoint get {V} (k : string) (d : t V) : option V :=
  match d with
  | [] => None
  | (k', v) :: d' => if String.eqb k' k then Some v else get k d'
  end.

Fixpoint set {V} (k : string) (v : V) (d : t V) : t V :=
  match d with
  | [] => [(k, v)]
  | (k', v') :: d' =>
      if String.eqb k' k then (k, v) :: d' else (k', v') :: set k v d'
  end.

(** [d.update(other)] *)
Definition update {V} (d other : t V) : t V :=
  fold_left (fun acc kv => set kv.1 kv.2 acc) other d.

Definition keys {V} (d : t V) : list string := d.*1.
End PyDict.

(** The values an entry of [attributes] takes: the text of the attribute
    or [True] for a bare name. *)
Inductive attr_value :=
| AttrStr (s : string)
| AttrTrue.

Module PyxmNode.
Inductive t := mk {
  type : NodeType.t;
  tag : option string;
  attributes : PyDict.t attr_value;
  bindings : PyDict.t string;
  events : PyDict.t string;
  refs : list string;
  children : list t;
  content : option string;
  condition : option string;
  iterator : option string;
  line : nat;
  column : nat;
  is_self_closing : bool;
  is_static : bool
}.

(** The dataclass defaults: [PyxmNode(type=ty)]. *)
Definition new (ty : NodeType.t) : t :=
  mk ty None [] [] [] [] [] None None None 0 0 false false.

Definition with_type (x : NodeType.t) (n : t) : t :=
  mk x (tag n) (attributes n) (bindings n) (events n) (refs n) (children n)
     (content n) (condition n) (iterator n) (line n) (column n)
     (is_self_closing n) (is_static n).
Definition with_tag (x : option string) (n : t) : t :=
  mk (type n) x (attributes n) (bindings n) (events n) (refs n) (children n)
     (content n) (condition n) (iterator n) (line n) (column n)
     (is_self_closing n) (is_static n).
Definition with_attributes (x : PyDict.t attr_value) (n : t) : t :=
  mk (type n) (tag n) x (bindings n) (events n) (refs n) (children n)
     (content n) (condition n) (iterator n) (line n) (column n)
     (is_self_closing n) (is_static n).
Definition with_bindings (x : PyDict.t string) (n : t) : t :=
  mk (type n) (tag n) (attributes n) x (events n) (refs n) (children n)
     (content n) (condition n) (iterator n) (line n) (column n)
     (is_self_closing n) (is_static n).
Definition with_events (x : PyDict.t string) (n : t) : t :=
  mk (type n) (tag n) (attributes n) (bindings n) x (refs n) (children n)
     (content n) (condition n) (iterator n) (line n) (column n)
     (is_self_closing n) (is_static n).
Definition with_refs (x : list string) (n : t) : t :=
  mk (type n) (tag n) (attributes n) (bindings n) (events n) x (children n)
     (content n) (condition n) (iterator n) (line n) (column n)
     (is_self_closing n) (is_static n).
Definition with_children (x : list t) (n : t) : t :=
  mk (type n) (tag n) (attributes n) (bindings n) (events n) (refs n) x
     (content n) (condition n) (iterator n) (line n) (column n)
     (is_self_closing n) (is_static n).
Definition with_content (x : option string) (n : t) : t :=
  mk (type n) (tag n) (attributes n) (bindings n) (events n) (refs n)
     (children n) x (condition n) (iterator n) (line n) (column n)
     (is_self_closing n) (is_static n).
Definition with_condition (x : option string) (n : t) : t :=
  mk (type n) (tag n) (attributes n) (bindings n) (events n) (refs n)
     (children n) (content n) x (iterator n) (line n) (column n)
     (is_self_closing n) (is_static n).
Definition with_iterator (x : option string) (n : t) : t :=
  mk (type n) (tag n) (attributes n) (bindings n) (events n) (refs n)
     (children n) (content n) (condition n) x (line n) (column n)
     (is_self_closing n) (is_static n).
Definition with_pos (l c : nat) (n : t) : t :=
  mk (type n) (tag n) (attributes n) (bindings n) (events n) (refs n)
     (children n) (content n) (condition n) (iterator n) l c
     (is_self_closing n) (is_static n).
Definition with_is_self_closing (x : bool) (n : t) : t :=
  mk (type n) (tag n) (attributes n) (bindings n) (events n) (refs n)
     (children n) (content n) (condition n) (iterator n) (line n) (column n)
     x (is_static n).
Definition with_is_static (x : bool) (n : t) : t :=
  mk (type n) (tag n) (attributes n) (bindings n) (events n) (refs n)
     (children n) (content n) (condition n) (iterator n) (line n) (column n)
     (is_self_closing n) x.

(** [add_child] *)
Definition add_child (child : t) (n : t) : t :=
  with_children (children n ++ [child]) n.

(** [find_by_type]: the node itself, if it has the type, then the
    matches under each child, in order. *)
Fixpoint find_by_type (node_type : NodeType.t) (n : t) : list t :=
  (if decide (type n = node_type) then [n] else [])
  ++ (fix go (cs : list t) : list t :=
        match cs with
        | [] => []
        | c :: cs' => find_by_type node_type c ++ go cs'
        end) (children n).
End PyxmNode.

Module PyxmAST.
Record t := mk {
  root : PyxmNode.t;
  python_blocks : list string;
  imports : list string;
  components : PyDict.t PyxmNode.t;
  slots : PyDict.t PyxmNode.t
}.
End PyxmAST.

(** [str(n)] for a non-negative integer. *)
Fixpoint nat_digits (fuel n : nat) (acc : string) : string :=
  match fuel with
  | O => acc
  | S fuel' =>
      let acc' := String (ascii_of_nat (48 + n mod 10)) acc in
      if (n <? 10)%nat then acc' else nat_digits fuel' (n / 10) acc'
  end.
Definition str_of_nat (n : nat) : string := nat_digits (S n) n "".

(** ** PyxmParser (pyxm_parser.py) *)

Module PyxmParser.

(** The instance attributes. *)
Record t := mk {
  tokens : list Token;
  pos : nat;
  ast : option PyxmAST.t
}.

(** [PyxmParser.__init__] *)
Definition init : t := mk [] 0 None.

(** What a method call comes to: it returns, leaving the parser in a
    new state, it raises, or (in the model only) it is cut off because
    the rounds of its loops and calls exceed the fuel given. *)
Inductive result (A : Type) :=
| Done (a : A) (st : t)
| Fail (e : pyexn)
| OutOfFuel.
Arguments Done {A} a st.
Arguments Fail {A} e.
Arguments OutOfFuel {A}.

Definition M (A : Type) : Type := t → result A.

Definition ret {A} (a : A) : M A := fun st => Done a st.
Definition bind {A B} (m : M A) (k : A → M B) : M B :=
  fun st =>
    match m st with
    | Done a st' => k a st'
    | Fail e => Fail e
    | OutOfFuel => OutOfFuel
    end.
Definition raise {A} (e : pyexn) : M A := fun _ => Fail e.
Definition timeout {A} : M A := fun _ => OutOfFuel.

Notation "'let*' x ':=' m 'in' k" := (bind m (fun x => k))
  (at level 200, x name, m at level 100, k at level 200,
   right associativity).
Notation "'do' m 'in' k" := (bind m (fun _ => k))
  (at level 200, m at level 100, k at level 200, right associativity).

Definition eof_token : Token := mkToken EOF "" 0 0.

(** [_current], [_peek] *)
Definition current_of (st : t) : Token :=
  match tokens st !! pos st with Some tk => tk | None => eof_token end.
Definition peek_of (offset : nat) (st : t) : Token :=
  match tokens st !! (pos st + offset)%nat with
  | Some tk => tk
  | None => eof_token
  end.
Definition _current : M Token := fun st => Done (current_of st) st.
Definition _peek : M Token := fun st => Done (peek_of 1 st) st.

(** [_advance] *)
Definition _advance : M Token :=
  fun st => Done (current_of st) (mk (tokens st) (S (pos st)) (ast st)).

(** [_is_at_end] *)
Definition is_at_end_of (st : t) : bool :=
  bool_decide (tok_type (current_of st) = EOF).
Definition _is_at_end : M bool := fun st => Done (is_at_end_of st) st.

(** [_expect] *)
Definition _expect (type : TokenType) : M Token :=
  let* cur := _current in
  if decide (tok_type cur = type) then _advance
  else raise (SyntaxError
    ("Expected " +:+ TokenType_name type +:+ ", got "
     +:+ TokenType_name (tok_type cur) +:+ " at line "
     +:+ str_of_nat (tok_line cur) +:+ ":" +:+ str_of_nat (tok_column cur))).

(** [_parse_text] *)
Definition _parse_text : M PyxmNode.t :=
  let* token := _advance in
  ret (PyxmNode.with_is_static true
         (PyxmNode.with_pos (tok_line token) (tok_column token)
            (PyxmNode.with_content (Some (tok_value token))
               (PyxmNode.new NodeType.TEXT)))).

(** [_parse_expression] *)
Definition _parse_expression : M PyxmNode.t :=
  do _expect EXPR_OPEN in
  let* content_token := _expect EXPR_CONTENT in
  do _expect EXPR_CLOSE in
  ret (PyxmNode.with_pos (tok_line content_token) (tok_column content_token)
         (PyxmNode.with_content (Some (tok_value content_token))
            (PyxmNode.new NodeType.EXPRESSION))).

(** [_parse_comment] *)
Definition _parse_comment : M PyxmNode.t :=
  do _expect COMMENT_OPEN in
  let* content_token := _expect COMMENT_CONTENT in
  do _expect COMMENT_CLOSE in
  ret (PyxmNode.with_pos (tok_line content_token) 0
         (PyxmNode.with_content (Some (tok_value content_token))
            (PyxmNode.new NodeType.COMMENT))).

(** [_parse_python_block] *)
Definition _parse_python_block : M PyxmNode.t :=
  do _expect PY_BLOCK_OPEN in
  let* content_token := _expect PY_CONTENT in
  do _expect PY_BLOCK_CLOSE in
  ret (PyxmNode.with_pos (tok_line content_token) 0
         (PyxmNode.with_content (Some (tok_value content_token))
            (PyxmNode.new NodeType.PYTHON))).

(** [_is_end_tag] *)
Definition is_end_tag_of (name : string) (st : t) : bool :=
  bool_decide (tok_type (current_of st) = STMT_OPEN)
  && bool_decide (tok_type (peek_of 1 st) = STMT_CONTENT)
  && String.eqb (PyStr.strip (tok_value (peek_of 1 st))) name.
Definition _is_end_tag (name : string) : M bool :=
  fun st => Done (is_end_tag_of name st) st.

(** [_is_elif] *)
Definition _is_elif : M bool :=
  fun st =>
    Done (bool_decide (tok_type (current_of st) = STMT_OPEN)
          && bool_decide (tok_type (peek_of 1 st) = STMT_CONTENT)
          && PyStr.startswith "elif " (PyStr.strip (tok_value (peek_of 1 st))))
         st.

(** [_consume_elif] *)
Definition _consume_elif : M string :=
  do _expect STMT_OPEN in
  let* tk := _expect STMT_CONTENT in
  do _expect STMT_CLOSE in
  ret (PyStr.strip (PyStr.drop 5 (PyStr.strip (tok_value tk)))).

(** [_consume_end_tag] *)
Definition _consume_end_tag (name : string) : M unit :=
  do _expect STMT_OPEN in
  let* content := _expect STMT_CONTENT in
  if String.eqb (PyStr.strip (tok_value content)) name then
    do _expect STMT_CLOSE in ret tt
  else raise (SyntaxError ("Expected " +:+ name +:+ ", got " +:+ tok_value content)).

(** [content.split()]: the maximal runs of non-whitespace characters. *)
Fixpoint split_ws_go (cur : string) (s : string) : list string :=
  match s with
  | EmptyString => if String.eqb cur "" then [] else [cur]
  | String c s' =>
      if PyStr.isspace c then
        if String.eqb cur "" then split_ws_go "" s'
        else cur :: split_ws_go "" s'
      else split_ws_go (cur +:+ String c "") s'
  end.
Definition split_ws (s : string) : list string := split_ws_go "" s.

(** [_parse_slot_block] *)
Definition _parse_slot_block (content : string) : M PyxmNode.t :=
  let name := match split_ws content with
              | _ :: name :: _ => name
              | _ => "default"
              end in
  ret (PyxmNode.with_tag (Some name) (PyxmNode.new NodeType.SLOT)).

(** The loop of [_parse_raw_block]. Each round that stays in the loop
    moves [pos] forward and the loop stops at the EOF token, so it runs
    at most once per token; [n] starts at the number of tokens. *)
Fixpoint raw_loop (n : nat) (content_parts : list string) : M (list string) :=
  match n with
  | O => ret content_parts
  | S n' =>
      let* at_end := _is_at_end in
      if at_end then ret content_parts else
      let* is_end := _is_end_tag "endraw" in
      if is_end then do _consume_end_tag "endraw" in ret content_parts
      else let* token := _advance in raw_loop n' (content_parts ++ [tok_value token])
  end.

(** [_parse_raw_block] *)
Definition _parse_raw_block : M PyxmNode.t :=
  fun st =>
    (let* content_parts := raw_loop (S (length (tokens st))) [] in
     ret (PyxmNode.with_content (Some (PyStr.join "" content_parts))
            (PyxmNode.new NodeType.RAW))) st.

(** [_parse_attribute] *)
Definition _parse_attribute (node : PyxmNode.t) : M PyxmNode.t :=
  let* tk := _advance in
  let name := tok_value tk in
  let set v := PyxmNode.with_attributes
                 (PyDict.set name v (PyxmNode.attributes node)) node in
  let* cur := _current in
  if decide (tok_type cur = ATTR_EQUALS) then
    do _advance in
    let* cur := _current in
    if decide (tok_type cur = ATTR_VALUE) then
      let* v := _advance in ret (set (AttrStr (tok_value v)))
    else ret (set AttrTrue)
  else ret (set AttrTrue).

(** [_parse_event_binding] *)
Definition _parse_event_binding (node : PyxmNode.t) : M PyxmNode.t :=
  let* tk := _advance in
  let event_name := tok_value tk in
  let* cur := _current in
  if decide (tok_type cur = ATTR_EQUALS) then
    do _advance in
    let* cur := _current in
    if decide (tok_type cur = ATTR_VALUE) then
      let* handler := _advance in
      ret (PyxmNode.with_events
             (PyDict.set event_name (tok_value handler) (PyxmNode.events node))
             node)
    else ret node
  else ret node.

(** [_parse_attr_binding] *)
Definition _parse_attr_binding (node : PyxmNode.t) : M PyxmNode.t :=
  let* tk := _advance in
  let attr_name := tok_value tk in
  let* cur := _current in
  if decide (tok_type cur = ATTR_EQUALS) then
    do _advance in
    let* cur := _current in
    if decide (tok_type cur = ATTR_VALUE) then
      let* expression := _advance in
      ret (PyxmNode.with_bindings
             (PyDict.set attr_name (tok_value expression)
                (PyxmNode.bindings node))
             node)
    else ret node
  else ret node.

(** [_parse_ref_binding] *)
Definition _parse_ref_binding (node : PyxmNode.t) : M PyxmNode.t :=
  let* tk := _advance in
  ret (PyxmNode.with_refs (PyxmNode.refs node ++ [tok_value tk]) node).

(** The attribute loop of [_parse_element]: each round that stays in
    the loop consumes a token, so [n] starts at the number of tokens. *)
Fixpoint attribute_loop (n : nat) (node : PyxmNode.t) : M PyxmNode.t :=
  match n with
  | O => ret node
  | S n' =>
      let* cur := _current in
      match tok_type cur with
      | TAG_CLOSE | TAG_SELF_CLOSE | EOF => ret node
      | ATTR_NAME => let* node := _parse_attribute node in attribute_loop n' node
      | EVENT_BIND => let* node := _parse_event_binding node in attribute_loop n' node
      | ATTR_BIND => let* node := _parse_attr_binding node in attribute_loop n' node
      | REF_BIND => let* node := _parse_ref_binding node in attribute_loop n' node
      | _ => ret node
      end
  end.

(** [_is_static_node] *)
Definition _is_static_node (node : PyxmNode.t) : bool :=
  match PyxmNode.bindings node, PyxmNode.events node with
  | [], [] =>
      forallb
        (fun child =>
           match PyxmNode.type child with
           | NodeType.EXPRESSION | NodeType.IF | NodeType.FOR => false
           | NodeType.ELEMENT => PyxmNode.is_static child
           | _ => true
           end)
        (PyxmNode.children node)
  | _, _ => false
  end.

Definition VOID_ELEMENTS : list string :=
  ["area"; "base"; "br"; "col"; "embed"; "hr"; "img"; "input";
   "link"; "meta"; "param"; "source"; "track"; "wbr"].

Definition in_list (x : string) (l : list string) : bool :=
  existsb (String.eqb x) l.

(** The statements of [_parse_statement] that belong to an enclosing
    block. *)
Definition parent_keywords : list string :=
  ["endif"; "endfor"; "endcomponent"; "endblock"; "endraw"; "else"; "elif"].

(** The recursive-descent methods. Each call and each round of a loop
    takes one unit of fuel. *)
Fixpoint _parse_node (fuel : nat) : M (option PyxmNode.t) :=
  match fuel with
  | O => timeout
  | S fuel' =>
      let* token := _current in
      match tok_type token with
      | TEXT => let* n := _parse_text in ret (Some n)
      | EXPR_OPEN => let* n := _parse_expression in ret (Some n)
      | STMT_OPEN => _parse_statement fuel'
      | COMMENT_OPEN => let* n := _parse_comment in ret (Some n)
      | PY_BLOCK_OPEN => let* n := _parse_python_block in ret (Some n)
      | TAG_OPEN => let* n := _parse_element fuel' in ret (Some n)
      | TAG_END_OPEN => ret None
      | _ => do _advance in ret None
      end
  end

with _parse_statement (fuel : nat) : M (option PyxmNode.t) :=
  match fuel with
  | O => timeout
  | S fuel' =>
      do _expect STMT_OPEN in
      let* content_token := _expect STMT_CONTENT in
      do _expect STMT_CLOSE in
      let content := PyStr.strip (tok_value content_token) in
      if PyStr.startswith "if " content then
        let* n := _parse_if_block fuel' (PyStr.strip (PyStr.drop 3 content)) in
        ret (Some n)
      else if PyStr.startswith "for " content then
        let* n := _parse_block fuel' "endfor"
              (PyxmNode.with_iterator
                 (Some (PyStr.strip (PyStr.drop 4 content)))
                 (PyxmNode.new NodeType.FOR)) in
        ret (Some n)
      else if PyStr.startswith "component " content then
        let* n := _parse_block fuel' "endcomponent"
              (PyxmNode.with_tag
                 (Some (PyStr.strip (PyStr.drop 10 content)))
                 (PyxmNode.new NodeType.COMPONENT)) in
        ret (Some n)
      else if PyStr.startswith "block " content then
        let* n := _parse_block fuel' "endblock"
              (PyxmNode.with_tag
                 (Some (PyStr.strip (PyStr.drop 6 content)))
                 (PyxmNode.new NodeType.BLOCK)) in
        ret (Some n)
      else if PyStr.startswith "slot" content then
        let* n := _parse_slot_block content in ret (Some n)
      else if PyStr.startswith "raw" content then
        let* n := _parse_raw_block in ret (Some n)
      else if in_list content parent_keywords then
        fun st => Done None (mk (tokens st) (pos st - 3) (ast st))
      else
        ret (Some (PyxmNode.with_pos (tok_line content_token) 0
                     (PyxmNode.with_content
                        (Some ("Unknown statement: " +:+ content))
                        (PyxmNode.new NodeType.COMMENT))))
  end

(** [_parse_if_block]: the loop, on the node built so far. *)
with if_loop (fuel : nat) (node : PyxmNode.t) : M PyxmNode.t :=
  match fuel with
  | O => timeout
  | S fuel' =>
      let* at_end := _is_at_end in
      if at_end then ret node else
      let* is_endif := _is_end_tag "endif" in
      if is_endif then do _consume_end_tag "endif" in ret node else
      let* is_else := _is_end_tag "else" in
      if is_else then
        do _consume_end_tag "else" in
        let* else_node := _parse_children_until fuel'
                      (PyxmNode.new NodeType.ELSE) ["endif"] in
        do _consume_end_tag "endif" in
        ret (PyxmNode.add_child else_node node)
      else
      let* is_elif := _is_elif in
      if is_elif then
        let* elif_condition := _consume_elif in
        let* elif_node := _parse_if_block fuel' elif_condition in
        ret (PyxmNode.add_child
               (PyxmNode.with_type NodeType.ELIF elif_node) node)
      else
        let* child := _parse_node fuel' in
        match child with
        | Some c => if_loop fuel' (PyxmNode.add_child c node)
        | None => if_loop fuel' node
        end
  end

with _parse_if_block (fuel : nat) (condition : string) : M PyxmNode.t :=
  match fuel with
  | O => timeout
  | S fuel' =>
      if_loop fuel' (PyxmNode.with_condition (Some condition)
                       (PyxmNode.new NodeType.IF))
  end

(** [_parse_children_until] *)
with _parse_children_until (fuel : nat) (node : PyxmNode.t)
       (end_tags : list string) : M PyxmNode.t :=
  match fuel with
  | O => timeout
  | S fuel' =>
      fun st =>
        if is_at_end_of st then Done node st
        else if existsb (fun tag => is_end_tag_of tag st) end_tags
        then Done node st
        else
          (let* child := _parse_node fuel' in
           match child with
           | Some c =>
               _parse_children_until fuel' (PyxmNode.add_child c node) end_tags
           | None => _parse_children_until fuel' node end_tags
           end) st
  end

(** The common shape of [_parse_for_block], [_parse_component_block]
    and [_parse_block_block]: children up to the end keyword, then the
    end keyword. *)
with _parse_block (fuel : nat) (end_tag : string) (node : PyxmNode.t)
  : M PyxmNode.t :=
  match fuel with
  | O => timeout
  | S fuel' =>
      let* node := _parse_children_until fuel' node [end_tag] in
      do _consume_end_tag end_tag in
      ret node
  end

(** [_parse_element] *)
with _parse_element (fuel : nat) : M PyxmNode.t :=
  match fuel with
  | O => timeout
  | S fuel' =>
      do _expect TAG_OPEN in
      let* tag_token := _expect TAG_NAME in
      let tag_name := PyStr.lower (tok_value tag_token) in
      let node := PyxmNode.with_pos (tok_line tag_token) (tok_column tag_token)
                    (PyxmNode.with_tag (Some tag_name)
                       (PyxmNode.new NodeType.ELEMENT)) in
      let* node := (fun st => attribute_loop (S (length (tokens st))) node st) in
      let* cur := _current in
      if decide (tok_type cur = TAG_SELF_CLOSE) then
        do _advance in ret (PyxmNode.with_is_self_closing true node)
      else
        do _expect TAG_CLOSE in
        if in_list tag_name VOID_ELEMENTS then
          ret (PyxmNode.with_is_self_closing true node)
        else
          let* node := element_loop fuel' tag_name node in
          ret (PyxmNode.with_is_static (_is_static_node node) node)
  end

(** The children loop of [_parse_element]. *)
with element_loop (fuel : nat) (tag_name : string) (node : PyxmNode.t)
  : M PyxmNode.t :=
  match fuel with
  | O => timeout
  | S fuel' =>
      let* at_end := _is_at_end in
      if at_end then ret node else
      let* cur := _current in
      if decide (tok_type cur = TAG_END_OPEN) then
        do _advance in
        let* close_tag := _expect TAG_NAME in
        do _expect TAG_CLOSE in
        if String.eqb (PyStr.lower (tok_value close_tag)) tag_name then ret node
        else raise (SyntaxError
               ("Mismatched tags: expected </" +:+ tag_name +:+ ">, got </"
                +:+ tok_value close_tag +:+ ">"))
      else
        let* child := _parse_node fuel' in
        match child with
        | Some c => element_loop fuel' tag_name (PyxmNode.add_child c node)
        | None => element_loop fuel' tag_name node
        end
  end.

(** The loop of [parse], on the root and the Python blocks so far. *)
Fixpoint parse_loop (fuel : nat) (root : PyxmNode.t)
    (python_blocks : list string) : M (PyxmNode.t * list string) :=
  match fuel with
  | O => timeout
  | S fuel' =>
      let* at_end := _is_at_end in
      if at_end then ret (root, python_blocks) else
      let* node := _parse_node fuel' in
      match node with
      | Some n =>
          if decide (PyxmNode.type n = NodeType.PYTHON) then
            parse_loop fuel' root
              (python_blocks ++ [default "" (PyxmNode.content n)])
          else parse_loop fuel' (PyxmNode.add_child n root) python_blocks
      | None => parse_loop fuel' root python_blocks
      end
  end.

(** [_analyze_ast], as a function of the tree built by [parse]. *)
Definition is_import (line : string) : bool :=
  PyStr.startswith "import " line || PyStr.startswith "from " line.

Definition index_by_tag (nodes : list PyxmNode.t) : PyDict.t PyxmNode.t :=
  fold_left
    (fun acc node =>
       match PyxmNode.tag node with
       | Some tg => if String.eqb tg "" then acc else PyDict.set tg node acc
       | None => acc
       end)
    nodes [].

Definition _analyze_ast (root : PyxmNode.t) (python_blocks : list string)
  : PyxmAST.t :=
  PyxmAST.mk root python_blocks
    (concat
       (map (fun block =>
               filter (fun l => is_import l = true)
                 (map PyStr.strip (PyStr.split "010" block)))
            python_blocks))
    (index_by_tag (PyxmNode.find_by_type NodeType.COMPONENT root))
    (index_by_tag (PyxmNode.find_by_type NodeType.SLOT root)).

(** [parse]: the tokens of [source] replace whatever the instance held;
    a lexer that does not finish within the fuel cuts the call off. *)
Definition parse (fuel : nat) (source : string) : M PyxmAST.t :=
  fun self =>
    match PyxmLexer.tokenize fuel (PyxmLexer.init source) with
    | None => OutOfFuel
    | Some toks =>
        match parse_loop fuel (PyxmNode.new NodeType.ROOT) []
                (mk toks 0 (ast self)) with
        | Done (root, python_blocks) st =>
            let a := _analyze_ast root python_blocks in
            Done a (mk (tokens st) (pos st) (Some a))
        | Fail e => Fail e
        | OutOfFuel => OutOfFuel
        end
    end.

End PyxmParser.

(** ** Python's [repr] and [html.escape] *)

Module PyRepr.

Definition hex_digit (n : nat) : ascii :=
  if (n <? 10)%nat then ascii_of_nat (48 + n) else ascii_of_nat (87 + n).

(** [str.isprintable] on one character below 256. *)
Definition isprintable (c : ascii) : bool :=
  negb (PyStr.between 0 31 c || PyStr.between 127 160 c
        || (PyStr.code c =? 173)%nat).

Definition has_char (c : ascii) (s : string) : bool :=
  existsb (PyStr.eqb_ascii c) (String.list_ascii_of_string s).

(** The quote [repr] wraps a string in: the double quote when the string
    holds a single quote and no double quote, the single quote
    otherwise. *)
Definition quote_for (s : string) : ascii :=
  if has_char PyStr.squote s && negb (has_char PyStr.dquote s)
  then PyStr.dquote else PyStr.squote.

Definition repr_char (q c : ascii) : string :=
  if PyStr.eqb_ascii c PyStr.backslash then String PyStr.backslash (String PyStr.backslash "")
  else if PyStr.eqb_ascii c q then String PyStr.backslash (String c "")
  else if PyStr.eqb_ascii c "010" then String PyStr.backslash "n"
  else if PyStr.eqb_ascii c "013" then String PyStr.backslash "r"
  else if PyStr.eqb_ascii c "009" then String PyStr.backslash "t"
  else if isprintable c then String c ""
  else String PyStr.backslash
         (String "x" (String (hex_digit (PyStr.code c / 16))
                        (String (hex_digit (PyStr.code c mod 16)) ""))).

Fixpoint repr_body (q : ascii) (s : string) : string :=
  match s with
  | EmptyString => EmptyString
  | String c s' => repr_char q c +:+ repr_body q s'
  end.

(** [repr(s)] for a string. *)
Definition repr_str (s : string) : string :=
  let q := quote_for s in
  String q (repr_body q s +:+ String q "").

(** [repr] of [None] or a string. *)
Definition repr_opt (o : option string) : string :=
  match o with Some s => repr_str s | None => "None" end.

(** [repr] of an attribute value. *)
Definition repr_attr (v : attr_value) : string :=
  match v with AttrStr s => repr_str s | AttrTrue => "True" end.

(** [repr] of a dictionary with string keys, given the [repr] of its
    values, and of a list given the [repr]s of its items. *)
Definition repr_dict {V} (repr_v : V → string) (d : PyDict.t V) : string :=
  "{" +:+ PyStr.join ", "
            (map (fun kv => repr_str kv.1 +:+ ": " +:+ repr_v kv.2) d)
      +:+ "}".
Definition repr_list (items : list string) : string :=
  "[" +:+ PyStr.join ", " items +:+ "]".

(** [html.escape(s, quote=True)] *)
Definition escape_char (c : ascii) : string :=
  if PyStr.eqb_ascii c "&" then "&amp;"
  else if PyStr.eqb_ascii c "<" then "&lt;"
  else if PyStr.eqb_ascii c ">" then "&gt;"
  else if PyStr.eqb_ascii c PyStr.dquote then "&quot;"
  else if PyStr.eqb_ascii c PyStr.squote then "&#x27;"
  else String c "".

Fixpoint html_escape (s : string) : string :=
  match s with
  | EmptyString => EmptyString
  | String c s' => escape_char c +:+ html_escape s'
  end.

End PyRepr.

(** [PyxmNode.to_dict] followed by [str]: the text [compile] hashes. The
    dictionary has the keys type, tag, attributes, bindings, events,
    content, condition, iterator and children, in that order. *)
Fixpoint to_dict_str (n : PyxmNode.t) : string :=
  "{'type': " +:+ PyRepr.repr_str (NodeType.name (PyxmNode.type n))
  +:+ ", 'tag': " +:+ PyRepr.repr_opt (PyxmNode.tag n)
  +:+ ", 'attributes': " +:+ PyRepr.repr_dict PyRepr.repr_attr (PyxmNode.attributes n)
  +:+ ", 'bindings': " +:+ PyRepr.repr_dict PyRepr.repr_str (PyxmNode.bindings n)
  +:+ ", 'events': " +:+ PyRepr.repr_dict PyRepr.repr_str (PyxmNode.events n)
  +:+ ", 'content': " +:+ PyRepr.repr_opt (PyxmNode.content n)
  +:+ ", 'condition': " +:+ PyRepr.repr_opt (PyxmNode.condition n)
  +:+ ", 'iterator': " +:+ PyRepr.repr_opt (PyxmNode.iterator n)
  +:+ ", 'children': "
  +:+ PyRepr.repr_list
        ((fix go (cs : list PyxmNode.t) : list string :=
            match cs with
            | [] => []
            | c :: cs' => to_dict_str c :: go cs'
            end) (PyxmNode.children n))
  +:+ "}".

(** ** hashlib.md5

    The digest function the engine calls: RFC 1321 on a list of bytes,
    with 32-bit words as [Z] and their wrap-around written out. *)

Module MD5.
Local Open Scope Z_scope.

Definition mask32 : Z := 0xFFFFFFFF.
Definition add32 (a b : Z) : Z := Z.land (a + b) mask32.
Definition not32 (a : Z) : Z := Z.lxor a mask32.
Definition rotl32 (x : Z) (n : Z) : Z :=
  Z.land (Z.lor (Z.shiftl x n) (Z.shiftr x (32 - n))) mask32.

(** [floor(2^32 * abs(sin(i + 1)))] for [i] from 0 to 63. *)
Definition K : list Z :=
  [0xd76aa478; 0xe8c7b756; 0x242070db; 0xc1bdceee;
   0xf57c0faf; 0x4787c62a; 0xa8304613; 0xfd469501;
   0x698098d8; 0x8b44f7af; 0xffff5bb1; 0x895cd7be;
   0x6b901122; 0xfd987193; 0xa679438e; 0x49b40821;
   0xf61e2562; 0xc040b340; 0x265e5a51; 0xe9b6c7aa;
   0xd62f105d; 0x02441453; 0xd8a1e681; 0xe7d3fbc8;
   0x21e1cde6; 0xc33707d6; 0xf4d50d87; 0x455a14ed;
   0xa9e3e905; 0xfcefa3f8; 0x676f02d9; 0x8d2a4c8a;
   0xfffa3942; 0x8771f681; 0x6d9d6122; 0xfde5380c;
   0xa4beea44; 0x4bdecfa9; 0xf6bb4b60; 0xbebfbc70;
   0x289b7ec6; 0xeaa127fa; 0xd4ef3085; 0x04881d05;
   0xd9d4d039; 0xe6db99e5; 0x1fa27cf8; 0xc4ac5665;
   0xf4292244; 0x432aff97; 0xab9423a7; 0xfc93a039;
   0x655b59c3; 0x8f0ccc92; 0xffeff47d; 0x85845dd1;
   0x6fa87e4f; 0xfe2ce6e0; 0xa3014314; 0x4e0811a1;
   0xf7537e82; 0xbd3af235; 0x2ad7d2bb; 0xeb86d391].

(** The per-round shift amounts. *)
Definition S : list Z :=
  [7; 12; 17; 22; 7; 12; 17; 22; 7; 12; 17; 22; 7; 12; 17; 22;
   5; 9; 14; 20; 5; 9; 14; 20; 5; 9; 14; 20; 5; 9; 14; 20;
   4; 11; 16; 23; 4; 11; 16; 23; 4; 11; 16; 23; 4; 11; 16; 23;
   6; 10; 15; 21; 6; 10; 15; 21; 6; 10; 15; 21; 6; 10; 15; 21].

Definition nthZ (l : list Z) (i : nat) : Z := nth i l 0.

(** The four chaining words. *)
Record state := mkState { A : Z; B : Z; C : Z; D : Z }.

Definition init : state :=
  mkState 0x67452301 0xefcdab89 0x98badcfe 0x10325476.

(** One of the 64 operations on the block [M] of 16 words. *)
Definition step (M : list Z) (st : state) (i : nat) : state :=
  let '(f, g) :=
    if (i <? 16)%nat then
      (Z.lor (Z.land (B st) (C st)) (Z.land (not32 (B st)) (D st)), i)
    else if (i <? 32)%nat then
      (Z.lor (Z.land (D st) (B st)) (Z.land (not32 (D st)) (C st)),
       ((5 * i + 1) mod 16)%nat)
    else if (i <? 48)%nat then
      (Z.lxor (B st) (Z.lxor (C st) (D st)), ((3 * i + 5) mod 16)%nat)
    else
      (Z.lxor (C st) (Z.lor (B st) (not32 (D st))), ((7 * i) mod 16)%nat) in
  let f := add32 (add32 (add32 f (A st)) (nthZ K i)) (nthZ M g) in
  mkState (D st) (add32 (B st) (rotl32 f (nthZ S i))) (B st) (C st).

(** The 64 operations and the addition of the result to the chain. *)
Definition process_block (st : state) (M : list Z) : state :=
  let st' := fold_left (step M) (seq 0 64) st in
  mkState (add32 (A st) (A st')) (add32 (B st) (B st'))
          (add32 (C st) (C st')) (add32 (D st) (D st')).

(** Little-endian words of a byte list, four bytes each. *)
Fixpoint words (bytes : list Z) : list Z :=
  match bytes with
  | b0 :: b1 :: b2 :: b3 :: rest =>
      (b0 + Z.shiftl b1 8 + Z.shiftl b2 16 + Z.shiftl b3 24) :: words rest
  | _ => []
  end.

(** Blocks of 16 words; [n] bounds their number. *)
Fixpoint blocks (n : nat) (ws : list Z) : list (list Z) :=
  match n, ws with
  | Datatypes.S n', _ :: _ => firstn 16 ws :: blocks n' (skipn 16 ws)
  | _, _ => []
  end.

(** The eight little-endian bytes of the message length in bits. *)
Definition length_bytes (bits : Z) : list Z :=
  map (fun i => Z.land (Z.shiftr bits (8 * Z.of_nat i)) 0xFF) (seq 0 8).

(** The message, a one bit, zero bits up to 56 bytes modulo 64, then the
    length. *)
Definition pad (msg : list Z) : list Z :=
  let len := Z.of_nat (length msg) in
  let zeros := Z.to_nat ((55 - len) mod 64) in
  msg ++ [0x80] ++ repeat 0 zeros
      ++ length_bytes (Z.land (8 * len) 0xFFFFFFFFFFFFFFFF).

Definition final_state (msg : list Z) : state :=
  let ws := words (pad msg) in
  fold_left process_block (blocks (length ws) ws) init.

Definition hex_digit (n : Z) : ascii :=
  if n <? 10 then ascii_of_nat (Z.to_nat (48 + n))
  else ascii_of_nat (Z.to_nat (87 + n)).

(** Two hexadecimal digits of a byte, in front of [k]. *)
Definition hex_byte (b : Z) (k : string) : string :=
  String (hex_digit (Z.land (Z.shiftr b 4) 0xF))
    (String (hex_digit (Z.land b 0xF)) k).

(** The four bytes of a word, least significant first, in front of [k]. *)
Definition hex_word (w : Z) (k : string) : string :=
  hex_byte (Z.land w 0xFF)
    (hex_byte (Z.land (Z.shiftr w 8) 0xFF)
       (hex_byte (Z.land (Z.shiftr w 16) 0xFF)
          (hex_byte (Z.land (Z.shiftr w 24) 0xFF) k))).

(** [hashlib.md5(msg).hexdigest()] *)
Definition hexdigest (msg : list Z) : string :=
  let st := final_state msg in
  hex_word (A st) (hex_word (B st) (hex_word (C st) (hex_word (D st) ""))).

(** [str.encode()]: UTF-8, for characters below 256. *)
Definition utf8_char (c : ascii) : list Z :=
  let n := Z.of_nat (nat_of_ascii c) in
  if n <? 128 then [n]
  else [Z.lor 0xC0 (Z.shiftr n 6); Z.lor 0x80 (Z.land n 0x3F)].

Fixpoint encode (s : string) : list Z :=
  match s with
  | EmptyString => []
  | String c s' => utf8_char c ++ encode s'
  end.

(** [hashlib.md5(s.encode()).hexdigest()] *)
Definition md5_hex (s : string) : string := hexdigest (encode s).

End MD5.

(** ** CompilerContext (pyxm_compiler.py) *)

Module CompilerContext.
Record t := mk {
  indent_level : Z;
  output_parts : list string;
  temp_var_counter : nat;
  loop_depth : nat
}.

(** [CompilerContext.__init__]; [static_parts], [expressions] and
    [seen_expressions] start empty and nothing writes to them. *)
Definition init : t := mk 0 [] 0 0.

(** [indent]: four spaces, [indent_level] times (none when negative). *)
Definition indent (c : t) : string := PyStr.spaces (4 * Z.to_nat (indent_level c)).

(** [emit] *)
Definition emit (code : string) (c : t) : t :=
  mk (indent_level c) (output_parts c ++ [indent c +:+ code])
     (temp_var_counter c) (loop_depth c).

(** [new_temp_var]: the name and the context with the counter moved. *)
Definition new_temp_var (prefix : string) (c : t) : string * t :=
  let n := S (temp_var_counter c) in
  (prefix +:+ str_of_nat n,
   mk (indent_level c) (output_parts c) n (loop_depth c)).

(** [enter_scope], [exit_scope] *)
Definition enter_scope (c : t) : t :=
  mk (indent_level c + 1) (output_parts c) (temp_var_counter c) (loop_depth c).
Definition exit_scope (c : t) : t :=
  mk (indent_level c - 1) (output_parts c) (temp_var_counter c) (loop_depth c).

Definition with_loop_depth (d : nat) (c : t) : t :=
  mk (indent_level c) (output_parts c) (temp_var_counter c) d.

(** [get_code] *)
Definition get_code (c : t) : string := PyStr.join (String "010" "") (output_parts c).
End CompilerContext.

(** ** PyxmCompiler (pyxm_compiler.py) *)

Module PyxmCompiler.
Import CompilerContext.

Definition VOID_ELEMENTS : list string :=
  ["area"; "base"; "br"; "col"; "embed"; "hr"; "img"; "input";
   "link"; "meta"; "param"; "source"; "track"; "wbr"].

Definition dq : string := String PyStr.dquote "".
Definition bs : string := String PyStr.backslash "".

(** [_compile_filters]: one step of the loop over [parts[1:]]. *)
Definition apply_filter (result filter_expr : string) : string :=
  match PyStr.find "(" filter_expr with
  | Some i =>
      let filter_name := PyStr.take i filter_expr in
      let args := PyStr.drop i filter_expr in
      "_filters['" +:+ filter_name +:+ "'](" +:+ result +:+ ", "
      +:+ PyStr.slice 1 (String.length args - 1) args +:+ ")"
  | None => "_filters['" +:+ filter_expr +:+ "'](" +:+ result +:+ ")"
  end.

(** [_compile_filters] *)
Definition _compile_filters (expr : string) : string :=
  match map PyStr.strip (PyStr.split "|" expr) with
  | [] => EmptyString
  | first :: filters => fold_left apply_filter filters first
  end.

(** The test of [_compile_expression] on the expression text it is
    about to emit. *)
Definition is_safe (expr : string) : bool :=
  PyStr.endswith "|safe" expr || PyStr.contains "safe(" expr.

(** [_compile_text] *)
Definition _compile_text (node : PyxmNode.t) (c : t) : t :=
  match PyxmNode.content node with
  | Some s =>
      if String.eqb s "" then c
      else emit ("_append(" +:+ PyRepr.repr_str s +:+ ")") c
  | None => c
  end.

(** [_compile_expression] *)
Definition _compile_expression (node : PyxmNode.t) (c : t) : t :=
  match PyxmNode.content node with
  | Some s =>
      if String.eqb s "" then c else
      let expr := PyStr.strip s in
      let expr := if PyStr.contains "|" expr then _compile_filters expr else expr in
      if is_safe expr then emit ("_append(str(" +:+ expr +:+ "))") c
      else emit ("_append(_escape(str(" +:+ expr +:+ ")))") c
  | None => c
  end.

(** [_compile_raw] *)
Definition _compile_raw (node : PyxmNode.t) (c : t) : t :=
  match PyxmNode.content node with
  | Some s =>
      if String.eqb s "" then c
      else emit ("_append(" +:+ PyRepr.repr_str s +:+ ")") c
  | None => c
  end.

(** [str(None)] or the tag: what an f-string prints for [node.tag]. *)
Definition tag_text (node : PyxmNode.t) : string :=
  default "None" (PyxmNode.tag node).

(** The part of [_compile_element] before the children: the opening
    tag with its attributes, bindings, events and refs. *)
Definition element_open (node : PyxmNode.t) (c : t) : t :=
  let c := emit ("_append('<" +:+ tag_text node +:+ "')") c in
  let c :=
    fold_left
      (fun c kv =>
         match kv.2 with
         | AttrTrue => emit ("_append(' " +:+ kv.1 +:+ "')") c
         | AttrStr value =>
             emit ("_append(' " +:+ kv.1 +:+ "=" +:+ dq
                   +:+ PyRepr.html_escape value +:+ dq +:+ "')") c
         end)
      (PyxmNode.attributes node) c in
  let c :=
    fold_left
      (fun c kv =>
         let '(var, c) := new_temp_var "_attr" c in
         let c := emit (var +:+ " = " +:+ kv.2) c in
         let c := emit ("if " +:+ var +:+ " is not None:") c in
         let c := enter_scope c in
         let name :=
           if String.eqb kv.1 "class" && PyStr.contains "{" kv.2 then "class"
           else if String.eqb kv.1 "style" && PyStr.contains "{" kv.2 then "style"
           else kv.1 in
         let c := emit ("_append(' " +:+ name +:+ "=" +:+ dq +:+ "' + _escape(str("
                        +:+ var +:+ ")) + '" +:+ dq +:+ "')") c in
         exit_scope c)
      (PyxmNode.bindings node) c in
  let c :=
    fold_left
      (fun c kv =>
         emit ("_append(' data-nexa-on-" +:+ kv.1 +:+ "=" +:+ dq +:+ kv.2
               +:+ dq +:+ "')") c)
      (PyxmNode.events node) c in
  fold_left
    (fun c ref =>
       emit ("_append(' data-nexa-ref=" +:+ dq +:+ ref +:+ dq +:+ "')") c)
    (PyxmNode.refs node) c.

(** The properties part of [_compile_component]. *)
Definition component_props (node : PyxmNode.t) (props_var : string) (c : t) : t :=
  let c := emit (props_var +:+ " = {}") c in
  let c :=
    fold_left
      (fun c kv =>
         emit (props_var +:+ "['" +:+ kv.1 +:+ "'] = " +:+ PyRepr.repr_attr kv.2) c)
      (PyxmNode.attributes node) c in
  fold_left
    (fun c kv => emit (props_var +:+ "['" +:+ kv.1 +:+ "'] = " +:+ kv.2) c)
    (PyxmNode.bindings node) c.

Definition is_chain_node (n : PyxmNode.t) : bool :=
  match PyxmNode.type n with
  | NodeType.ELIF | NodeType.ELSE => true
  | _ => false
  end.

(** [_compile_node], with [_compile_element], [_compile_if],
    [_compile_for], [_compile_component], [_compile_slot] and
    [_compile_block], which call back into it, written in its branches. *)
Fixpoint _compile_node (node : PyxmNode.t) (c : t) {struct node} : t :=
  let compile_all (nodes : list PyxmNode.t) (c : t) : t :=
    (fix go (ns : list PyxmNode.t) (c : t) : t :=
       match ns with
       | [] => c
       | n :: ns' => go ns' (_compile_node n c)
       end) nodes c in
  match PyxmNode.type node with
  | NodeType.ROOT => compile_all (PyxmNode.children node) c
  | NodeType.TEXT => _compile_text node c
  | NodeType.EXPRESSION => _compile_expression node c
  | NodeType.ELEMENT =>
      let c := element_open node c in
      if PyxmNode.is_self_closing node
         || PyxmParser.in_list (tag_text node) VOID_ELEMENTS
      then emit "_append(' />')" c
      else
        let c := emit "_append('>')" c in
        let c := compile_all (PyxmNode.children node) c in
        emit ("_append('</" +:+ tag_text node +:+ ">')") c
  | NodeType.IF =>
      let c := emit ("if " +:+ default "None" (PyxmNode.condition node) +:+ ":") c in
      let c := enter_scope c in
      let c :=
        (fix go (ns : list PyxmNode.t) (c : t) : t :=
           match ns with
           | [] => c
           | child :: ns' =>
               go ns'
                 (match PyxmNode.type child with
                  | NodeType.ELIF =>
                      let c := exit_scope c in
                      let c := emit ("elif "
                                     +:+ default "None" (PyxmNode.condition child)
                                     +:+ ":") c in
                      let c := enter_scope c in
                      (fix go2 (es : list PyxmNode.t) (c : t) : t :=
                         match es with
                         | [] => c
                         | elif_child :: es' =>
                             go2 es'
                               (if is_chain_node elif_child then c
                                else _compile_node elif_child c)
                         end) (PyxmNode.children child) c
                  | NodeType.ELSE =>
                      let c := exit_scope c in
                      let c := emit "else:" c in
                      let c := enter_scope c in
                      (fix go2 (es : list PyxmNode.t) (c : t) : t :=
                         match es with
                         | [] => c
                         | else_child :: es' => go2 es' (_compile_node else_child c)
                         end) (PyxmNode.children child) c
                  | _ => _compile_node child c
                  end)
           end) (PyxmNode.children node) c in
      exit_scope c
  | NodeType.FOR =>
      let c := with_loop_depth (S (loop_depth c)) c in
      let c := emit ("for " +:+ default "None" (PyxmNode.iterator node) +:+ ":") c in
      let c := enter_scope c in
      let loop_var := "_loop" +:+ str_of_nat (loop_depth c) in
      let c := emit (loop_var +:+ " = {'index': 0, 'first': True, 'last': False}") c in
      let c := compile_all (PyxmNode.children node) c in
      let c := emit (loop_var +:+ "['index'] += 1") c in
      let c := emit (loop_var +:+ "['first'] = False") c in
      let c := exit_scope c in
      with_loop_depth (loop_depth c - 1) c
  | NodeType.COMPONENT =>
      let component_name := tag_text node in
      let c := emit ("if '" +:+ component_name +:+ "' in _ctx.get('_components', {}):") c in
      let c := enter_scope c in
      let '(props_var, c) := new_temp_var "_props" c in
      let c := component_props node props_var c in
      let c := emit ("_component = _ctx['_components']['" +:+ component_name +:+ "']") c in
      let c := emit ("_component_result = await _component.render(" +:+ props_var +:+ ")") c in
      let c := emit "_append(_component_result)" c in
      let c := exit_scope c in
      let c := emit "else:" c in
      let c := enter_scope c in
      let c := compile_all (PyxmNode.children node) c in
      exit_scope c
  | NodeType.SLOT =>
      let slot_name :=
        match PyxmNode.tag node with
        | Some s => if String.eqb s "" then "default" else s
        | None => "default"
        end in
      let c := emit ("if '" +:+ slot_name +:+ "' in _ctx.get('_slots', {}):") c in
      let c := enter_scope c in
      let c := emit ("_append(_ctx['_slots']['" +:+ slot_name +:+ "'])") c in
      let c := exit_scope c in
      match PyxmNode.children node with
      | [] => c
      | cs =>
          let c := emit "else:" c in
          let c := enter_scope c in
          let c := compile_all cs c in
          exit_scope c
      end
  | NodeType.BLOCK =>
      let block_name := tag_text node in
      let c := emit ("if '" +:+ block_name +:+ "' in _ctx.get('_blocks', {}):") c in
      let c := enter_scope c in
      let c := emit ("_append(_ctx['_blocks']['" +:+ block_name +:+ "'])") c in
      let c := exit_scope c in
      let c := emit "else:" c in
      let c := enter_scope c in
      let c := compile_all (PyxmNode.children node) c in
      exit_scope c
  | NodeType.RAW => _compile_raw node c
  | _ => c
  end.

(** [_emit_python_block] *)
Definition _emit_python_block (block : string) (c : t) : t :=
  let c :=
    fold_left
      (fun c line =>
         let stripped := PyStr.strip line in
         if String.eqb stripped "" || PyStr.startswith "import " stripped
            || PyStr.startswith "from " stripped
         then c else emit line c)
      (PyStr.split "010" (PyStr.strip block)) c in
  emit "" c.

(** [_collect_bindings] and [_collect_events]: the dictionary updated
    with the node's own entries, then with those of each child. *)
Fixpoint collect (field : PyxmNode.t → PyDict.t string) (n : PyxmNode.t)
    (acc : PyDict.t string) {struct n} : PyDict.t string :=
  (fix go (cs : list PyxmNode.t) (acc : PyDict.t string) : PyDict.t string :=
     match cs with
     | [] => acc
     | c :: cs' => go cs' (collect field c acc)
     end) (PyxmNode.children n) (PyDict.update acc (field n)).
Definition _collect_bindings (node : PyxmNode.t) : PyDict.t string :=
  collect PyxmNode.bindings node [].
Definition _collect_events (node : PyxmNode.t) : PyDict.t string :=
  collect PyxmNode.events node [].

(** The code [compile] generates for an AST. *)
Definition render_code_of (ast : PyxmAST.t) : string :=
  let c := init in
  let c := emit "async def _render(_ctx):" c in
  let c := enter_scope c in
  let c := emit "_output = []" c in
  let c := emit "_append = _output.append" c in
  let c := emit "_escape = __builtins_escape__" c in
  let c := emit "" c in
  let c := fold_left (fun c block => _emit_python_block block c)
             (PyxmAST.python_blocks ast) c in
  let c := _compile_node (PyxmAST.root ast) c in
  let c := emit "" c in
  let c := emit "return ''.join(_output)" c in
  let c := exit_scope c in
  get_code c.

End PyxmCompiler.

(** ** CompiledTemplate and [PyxmCompiler.compile] *)

Module CompiledTemplate.
(** The render function is the one [exec] defines from [render_code];
    [static_parts] and [expressions] are always empty. *)
Record t := mk {
  name : string;
  source_hash : string;
  render_code : string;
  bindings : PyDict.t string;
  events : PyDict.t string;
  components : list string;
  is_async : bool
}.
End CompiledTemplate.

Module Compile.

(** The attributes of a [PyxmCompiler] instance that [compile] touches. *)
Record compiler := mkCompiler {
  context : option CompilerContext.t
}.

(** [PyxmCompiler.__init__] *)
Definition new_compiler : compiler := mkCompiler None.

(** [source_hash]: the first twelve hexadecimal digits of the MD5 of
    the text of [ast.root.to_dict()]. *)
Definition source_hash_of (ast : PyxmAST.t) : string :=
  PyStr.take 12 (MD5.md5_hex (to_dict_str (PyxmAST.root ast))).

(** The compiler context [compile] ends with. *)
Definition final_context (ast : PyxmAST.t) : CompilerContext.t :=
  let c := CompilerContext.init in
  let c := CompilerContext.emit "async def _render(_ctx):" c in
  let c := CompilerContext.enter_scope c in
  let c := CompilerContext.emit "_output = []" c in
  let c := CompilerContext.emit "_append = _output.append" c in
  let c := CompilerContext.emit "_escape = __builtins_escape__" c in
  let c := CompilerContext.emit "" c in
  let c := fold_left (fun c block => PyxmCompiler._emit_python_block block c)
             (PyxmAST.python_blocks ast) c in
  let c := PyxmCompiler._compile_node (PyxmAST.root ast) c in
  let c := CompilerContext.emit "" c in
  let c := CompilerContext.emit "return ''.join(_output)" c in
  CompilerContext.exit_scope c.

(** [PyxmCompiler.compile]. [py_exec] stands for the host's [exec] of
    the generated code in [_compile_render_function]: the exception it
    raises on that text, if any. *)
Definition compile (py_exec : string → option pyexn) (self : compiler)
    (ast : PyxmAST.t) (name : string)
  : outcome CompiledTemplate.t * compiler :=
  let c := final_context ast in
  let self' := mkCompiler (Some c) in
  let render_code := CompilerContext.get_code c in
  match py_exec render_code with
  | Some e => (Raise e, self')
  | None =>
      (Ok (CompiledTemplate.mk name (source_hash_of ast) render_code
             (PyxmCompiler._collect_bindings (PyxmAST.root ast))
             (PyxmCompiler._collect_events (PyxmAST.root ast))
             (PyDict.keys (PyxmAST.components ast))
             true),
       self')
  end.

End Compile.

(** ** Template (template.py) *)

Module Template.

Record t := mk {
  source : string;
  name : string;
  _ast : option PyxmAST.t;
  _compiled : option CompiledTemplate.t
}.

(** [_get_cache_key] *)
Definition _get_cache_key (self : t) : string :=
  name self +:+ ":" +:+ MD5.md5_hex (source self).

(** [str(e)] for the exceptions the parser and the host raise. *)
Definition exn_text (e : pyexn) : string :=
  match e with
  | ValueError m | IndexError m | SyntaxError m | TypeError m
  | AttributeError m | TemplateSyntaxError m => m
  | KeyError k => PyRepr.repr_str k
  | NameError n => "name '" +:+ n +:+ "' is not defined"
  end.

(** What a call of [_compile] comes to, with the shared cache it
    leaves. *)
Inductive result :=
| Returned (self : t) (cache : TemplateCache.t CompiledTemplate.t)
| Raised (e : pyexn) (cache : TemplateCache.t CompiledTemplate.t)
| OutOfFuel.

(** [_compile], on the cache [get_template_cache()] returns. *)
Definition _compile (fuel : nat) (py_exec : string → option pyexn)
    (self : t) (cache : TemplateCache.t CompiledTemplate.t) : result :=
  let cache_key := _get_cache_key self in
  match TemplateCache.get cache cache_key with
  | (Raise e, cache) => Raised e cache
  | (Ok (Some cached), cache) =>
      Returned (mk (source self) (name self) (_ast self) (Some cached)) cache
  | (Ok None, cache) =>
      match PyxmParser.parse fuel (source self) PyxmParser.init with
      | PyxmParser.OutOfFuel => OutOfFuel
      | PyxmParser.Fail (SyntaxError m) =>
          Raised (TemplateSyntaxError
                    ("Syntax error in " +:+ name self +:+ ": " +:+ m)) cache
      | PyxmParser.Fail e => Raised e cache
      | PyxmParser.Done ast _ =>
          match Compile.compile py_exec Compile.new_compiler ast (name self) with
          | (Raise e, _) =>
              Raised (TemplateSyntaxError
                        ("Compilation error in " +:+ name self +:+ ": "
                         +:+ exn_text e)) cache
          | (Ok compiled, _) =>
              match TemplateCache.set cache cache_key compiled with
              | (Raise e, cache) => Raised e cache
              | (Ok _, cache) =>
                  Returned (mk (source self) (name self) (Some ast)
                              (Some compiled)) cache
              end
          end
      end
  end.

(** [Template(source, name)] with [auto_compile]. *)
Definition new (fuel : nat) (py_exec : string → option pyexn)
    (source name : string) (cache : TemplateCache.t CompiledTemplate.t)
  : result :=
  _compile fuel py_exec (mk source name None None) cache.

End Template.

(** ** One run of the pipeline

    A parser instance and a compiler instance, in whatever state earlier
    calls left them, applied to a source text: [None] when the run is cut
    off, else the compiled template or the exception raised. *)
Definition compile_source (fuel : nat) (py_exec : string → option pyexn)
    (parser : PyxmParser.t) (compiler : Compile.compiler)
    (source name : string) : option (outcome CompiledTemplate.t) :=
  match PyxmParser.parse fuel source parser with
  | PyxmParser.OutOfFuel => None
  | PyxmParser.Fail e => Some (Raise e)
  | PyxmParser.Done ast _ =>
      Some (Compile.compile py_exec compiler ast name).1
  end.

(** ** Cut-off runs and finished runs

    [r1] is below [r2] when [r1] is the cut-off run or the two are the same
    outcome: what more fuel can do to a run. *)
Definition le_result {A} (r1 r2 : PyxmParser.result A) : Prop :=
  r1 = PyxmParser.OutOfFuel ∨ r1 = r2.

Definition le_M {A} (m1 m2 : PyxmParser.M A) : Prop :=
  ∀ st, le_result (m1 st) (m2 st).

(** The recursive-descent methods with fuel [f] are below those with
    fuel [g]. *)
Definition parser_le (f g : nat) : Prop :=
  le_M (PyxmParser._parse_node f) (PyxmParser._parse_node g) ∧
  le_M (PyxmParser._parse_statement f) (PyxmParser._parse_statement g) ∧
  (∀ node, le_M (PyxmParser.if_loop f node) (PyxmParser.if_loop g node)) ∧
  (∀ cond, le_M (PyxmParser._parse_if_block f cond)
                (PyxmParser._parse_if_block g cond)) ∧
  (∀ node tags, le_M (PyxmParser._parse_children_until f node tags)
                     (PyxmParser._parse_children_until g node tags)) ∧
  (∀ tag node, le_M (PyxmParser._parse_block f tag node)
                    (PyxmParser._parse_block g tag node)) ∧
  le_M (PyxmParser._parse_element f) (PyxmParser._parse_element g) ∧
  (∀ tag node, le_M (PyxmParser.element_loop f tag node)
                    (PyxmParser.element_loop g tag node)).

(** ** Runs from two parser instances

    Two instances are alike when they hold the same tokens and position,
    whatever [ast] each holds from earlier calls; two outcomes are alike
    when they are the same run ending in like instances. *)
Definition sim (s1 s2 : PyxmParser.t) : Prop :=
  PyxmParser.tokens s1 = PyxmParser.tokens s2 ∧
  PyxmParser.pos s1 = PyxmParser.pos s2.

Definition sim_result {A} (r1 r2 : PyxmParser.result A) : Prop :=
  match r1, r2 with
  | PyxmParser.Done a s1, PyxmParser.Done b s2 => a = b ∧ sim s1 s2
  | PyxmParser.Fail e1, PyxmParser.Fail e2 => e1 = e2
  | PyxmParser.OutOfFuel, PyxmParser.OutOfFuel => True
  | _, _ => False
  end.

Definition sim_M {A} (m1 m2 : PyxmParser.M A) : Prop :=
  ∀ s1 s2, sim s1 s2 → sim_result (m1 s1) (m2 s2).

Definition parser_sim (f : nat) : Prop :=
  sim_M (PyxmParser._parse_node f) (PyxmParser._parse_node f) ∧
  sim_M (PyxmParser._parse_statement f) (PyxmParser._parse_statement f) ∧
  (∀ node, sim_M (PyxmParser.if_loop f node) (PyxmParser.if_loop f node)) ∧
  (∀ cond, sim_M (PyxmParser._parse_if_block f cond)
                 (PyxmParser._parse_if_block f cond)) ∧
  (∀ node tags, sim_M (PyxmParser._parse_children_until f node tags)
                      (PyxmParser._parse_children_until f node tags)) ∧
  (∀ tag node, sim_M (PyxmParser._parse_block f tag node)
                     (PyxmParser._parse_block f tag node)) ∧
  sim_M (PyxmParser._parse_element f) (PyxmParser._parse_element f) ∧
  (∀ tag node, sim_M (PyxmParser.element_loop f tag node)
                     (PyxmParser.element_loop f tag node)).

(** ** More of PyxmNode and PyxmAST (pyxm_parser.py) *)

Module PyxmTree.

(** The truth value of a list. *)
Definition truthy {A} (l : list A) : bool :=
  match l with [] => false | _ :: _ => true end.

(** [PyxmNode.find_by_tag] *)
Fixpoint find_by_tag (tag : string) (n : PyxmNode.t) : list PyxmNode.t :=
  (if decide (PyxmNode.tag n = Some tag) then [n] else [])
  ++ (fix go (cs : list PyxmNode.t) : list PyxmNode.t :=
        match cs with
        | [] => []
        | c :: cs' => find_by_tag tag c ++ go cs'
        end) (PyxmNode.children n).

(** The local [collect] of [PyxmAST._all_nodes]: the node, then the
    nodes under each child, in order. *)
Fixpoint collect (n : PyxmNode.t) : list PyxmNode.t :=
  n :: (fix go (cs : list PyxmNode.t) : list PyxmNode.t :=
          match cs with
          | [] => []
          | c :: cs' => collect c ++ go cs'
          end) (PyxmNode.children n).

(** [PyxmAST._all_nodes] *)
Definition _all_nodes (ast : PyxmAST.t) : list PyxmNode.t :=
  collect (PyxmAST.root ast).

(** [PyxmAST.get_expressions], [PyxmAST.get_components] *)
Definition get_expressions (ast : PyxmAST.t) : list PyxmNode.t :=
  PyxmNode.find_by_type NodeType.EXPRESSION (PyxmAST.root ast).
Definition get_components (ast : PyxmAST.t) : list PyxmNode.t :=
  PyxmNode.find_by_type NodeType.COMPONENT (PyxmAST.root ast).

(** [PyxmAST.has_dynamic_content] *)
Definition has_dynamic_content (ast : PyxmAST.t) : bool :=
  truthy (get_expressions ast)
  || truthy (PyxmNode.find_by_type NodeType.IF (PyxmAST.root ast))
  || truthy (PyxmNode.find_by_type NodeType.FOR (PyxmAST.root ast))
  || existsb (fun node => truthy (PyxmNode.bindings node)) (_all_nodes ast).

End PyxmTree.

(** ** What a stretch of the compiler does to its context

    [c] is [c0] moved [d] indentation levels in and [e] loops deeper, with
    the counter of temporaries no lower and with parts appended to the
    output, each of them indented at least as deep as [c0]. *)
Definition ctx_after (d : Z) (e : nat) (c0 c : CompilerContext.t) : Prop :=
  CompilerContext.indent_level c = (CompilerContext.indent_level c0 + d)%Z ∧
  CompilerContext.loop_depth c = (CompilerContext.loop_depth c0 + e)%nat ∧
  (CompilerContext.temp_var_counter c0 ≤ CompilerContext.temp_var_counter c)%nat ∧
  ∃ lines,
    CompilerContext.output_parts c = CompilerContext.output_parts c0 ++ lines ∧
    Forall (λ l, PyStr.startswith (CompilerContext.indent c0) l = true) lines.

(** [node'] is [node] with children appended, and nothing else changed:
    what the loops of the parser do to the node they fill. *)
Definition children_appended (node node' : PyxmNode.t) : Prop :=
  ∃ cs, node' = PyxmNode.with_children (PyxmNode.children node ++ cs) node.

(** ** Inputs the properties below are checked on *)

(** The tokens of the source [{% endif %}]. *)
Definition endif_tokens : list Token :=
  [mkToken STMT_OPEN "{%" 1 1; mkToken STMT_CONTENT "endif" 1 10;
   mkToken STMT_CLOSE "%}" 1 10; mkToken EOF "" 1 12].

(** The tokens of an element [<div></span>] whose opening tag is on
    line 3. *)
Definition mismatch_tokens : list Token :=
  [mkToken TAG_OPEN "<" 3 1; mkToken TAG_NAME "div" 3 2;
   mkToken TAG_CLOSE ">" 3 5; mkToken TAG_END_OPEN "</" 3 6;
   mkToken TAG_NAME "span" 3 8; mkToken TAG_CLOSE ">" 3 12;
   mkToken EOF "" 3 13].

(** The tokens of an element [<div :class="cls" @click="go"></div>]. *)
Definition bound_element_tokens : list Token :=
  [mkToken TAG_OPEN "<" 1 1; mkToken TAG_NAME "div" 1 2;
   mkToken ATTR_BIND "class" 1 6; mkToken ATTR_EQUALS "=" 1 12;
   mkToken ATTR_VALUE "cls" 1 13; mkToken EVENT_BIND "click" 1 19;
   mkToken ATTR_EQUALS "=" 1 25; mkToken ATTR_VALUE "go" 1 26;
   mkToken TAG_CLOSE ">" 1 30; mkToken TAG_END_OPEN "</" 1 31;
   mkToken TAG_NAME "div" 1 33; mkToken TAG_CLOSE ">" 1 36;
   mkToken EOF "" 1 37].

(** The text between the braces of the expression [{{ "<b>" | safe }}]. *)
Definition safe_filter_body : string :=
  " " +:+ String PyStr.dquote ("<b>" +:+ String PyStr.dquote " | safe ").

(** A loop that prints its metadata, and a chain of [if], [elif] and
    [else] whose two conditions are false. *)
Definition for_loop_source : string :=
  "{% for x in [1,2,3] %}{{ loop.first }}-{{ loop.last }}{% endfor %}".

Definition if_chain_source : string :=
  "{% if False %}A{% elif False %}B{% else %}C{% endif %}".

(** * Properties *)

(** ** TemplateCache *)

Section CacheFacts.
Context {V : Type}.
Import TemplateCache.
Implicit Types (c : TemplateCache.t V) (k key : string) (l : list string).

Lemma list_remove_None k l : list_remove k l = None ↔ k ∉ l.
Proof.
  induction l as [|x l IH]; simpl.
  - split; [intros _; apply not_elem_of_nil | done].
  - destruct (decide (x = k)) as [->|Hne].
    + split; [done | intros Hn; exfalso; apply Hn; left].
    + rewrite not_elem_of_cons. destruct (list_remove k l); simpl.
      * split; [done | intros [_ Hn]; apply IH in Hn; done].
      * split; [intros _; split; [congruence | by apply IH] | done].
Qed.

Lemma list_remove_Some k l l' :
  NoDup l → list_remove k l = Some l' →
  NoDup l' ∧ (k ∉ l') ∧ (∀ x, x ∈ l' ↔ x ∈ l ∧ x ≠ k) ∧
  length l = S (length l').
Proof.
  revert l'. induction l as [|x l IH]; intros l' Hnd; simpl; [done|].
  apply NoDup_cons in Hnd as [Hx Hnd].
  destruct (decide (x = k)) as [->|Hne].
  - intros [= <-]. split_and!; try done.
    intros y. rewrite elem_of_cons. split.
    + intros Hin. split; [by right | intros ->; done].
    + intros [[->|Hin] Hk]; done.
  - destruct (list_remove k l) as [l0|] eqn:E; simpl; [|done].
    intros [= <-]. destruct (IH l0 Hnd eq_refl) as (Hnd0 & Hk0 & Hiff & Hlen).
    split_and!.
    + apply NoDup_cons. split; [|done]. rewrite Hiff. tauto.
    + rewrite not_elem_of_cons. split; [congruence | done].
    + intros y. rewrite !elem_of_cons, Hiff. split.
      * intros [->|[? ?]]; [split; [by left | done] | split; [by right | done]].
      * intros [[->|?] ?]; [by left | by right].
    + simpl. lia.
Qed.

Lemma list_remove_app_l k l1 l2 l1' :
  list_remove k l1 = Some l1' → list_remove k (l1 ++ l2) = Some (l1' ++ l2).
Proof.
  revert l1'. induction l1 as [|x l1 IH]; intros l1'; simpl; [done|].
  destruct (decide (x = k)); [by intros [= <-]|].
  destruct (list_remove k l1) as [l0|]; simpl; [|done].
  intros [= <-]. by rewrite (IH l0 eq_refl).
Qed.

Lemma inv_length c : inv c → length (_access_order c) = size (_cache c).
Proof.
  intros (Hnd & Hkeys & _).
  rewrite <- size_dom, <- (size_list_to_set (C := gset string)) by done.
  f_equal. apply set_eq. intros k.
  rewrite elem_of_list_to_set, elem_of_dom. apply Hkeys.
Qed.

Lemma inv_init n : (0 ≤ n)%Z → inv (V := V) (init n).
Proof.
  intros Hn. split; [constructor|]. split; [|simpl; by rewrite map_size_empty].
  intros k. simpl. rewrite lookup_empty.
  split; [by intros ?%elem_of_nil | by intros [? ?]].
Qed.

Lemma inv_finish c key (v : V) :
  NoDup (_access_order c) → key ∉ _access_order c →
  (∀ k, k ∈ _access_order c ↔ is_Some (_cache c !! k) ∧ k ≠ key) →
  (Z.of_nat (size (<[key := v]> (_cache c))) ≤ max_size c)%Z →
  inv (mk (max_size c) (<[key := v]> (_cache c)) (_access_order c ++ [key])).
Proof.
  intros Hnd Hk Hkeys Hsz. split; [|split; [|done]]; simpl.
  - apply NoDup_app. split; [done|]. split; [|apply NoDup_singleton].
    intros x Hx ->%list_elem_of_singleton. done.
  - intros k. rewrite elem_of_app, list_elem_of_singleton, Hkeys.
    destruct (decide (k = key)) as [->|Hne].
    + rewrite lookup_insert_eq. split; [eauto | intros _; by right].
    + rewrite lookup_insert_ne by done. split; [intros [[? _]|?]; done | eauto].
Qed.

Lemma get_inv c key : inv c → inv (get c key).2.
Proof.
  intros Hinv. unfold get. destruct (_cache c !! key) as [v|] eqn:E; [|done].
  destruct (list_remove key (_access_order c)) as [l|] eqn:R; [|done].
  pose proof Hinv as (Hnd & Hkeys & Hsz).
  destruct (list_remove_Some _ _ _ Hnd R) as (Hnd' & Hk' & Hiff & _).
  simpl. rewrite <- (insert_id (_cache c) key v E) at 1.
  apply (inv_finish (mk (max_size c) (_cache c) l) key v); simpl; try done.
  - intros k. rewrite Hiff, Hkeys. done.
  - rewrite insert_id by done. done.
Qed.

Lemma set_inv c key (v : V) : inv c → inv (set c key v).2.
Proof.
  intros Hinv. pose proof (inv_length c Hinv) as Hlen.
  pose proof Hinv as (Hnd & Hkeys & Hsz). unfold set.
  destruct (_cache c !! key) as [v0|] eqn:E.
  - destruct (list_remove key (_access_order c)) as [l|] eqn:R; [|done].
    destruct (list_remove_Some _ _ _ Hnd R) as (Hnd' & Hk' & Hiff & _).
    apply (inv_finish (mk (max_size c) (_cache c) l) key v); simpl; try done.
    + intros k. rewrite Hiff, Hkeys. done.
    + rewrite map_size_insert_Some by eauto. done.
  - case_bool_decide as Hfull.
    + destruct (_access_order c) as [|oldest rest] eqn:Eo; [done|].
      assert (is_Some (_cache c !! oldest)) as [vo Ho] by (apply Hkeys; left).
      rewrite Ho. apply NoDup_cons in Hnd as [Hold Hnd].
      assert (key ≠ oldest) as Hne by (intros ->; congruence).
      apply (inv_finish (mk (max_size c) (delete oldest (_cache c)) rest) key v);
        simpl; try done.
      * intros Hin. assert (is_Some (_cache c !! key)) as [? ?]
          by (apply Hkeys; by right). congruence.
      * intros k. destruct (decide (k = oldest)) as [->|Hko].
        -- rewrite lookup_delete_eq. split; [done | intros [[? ?] _]; done].
        -- rewrite lookup_delete_ne by done. rewrite <- Hkeys, elem_of_cons.
           split; [intros Hin; split; [by right|] | intros [[?|?] _]; done].
           intros ->. assert (is_Some (_cache c !! key)) as [? ?]
             by (apply Hkeys; by right). congruence.
      * rewrite map_size_insert_None by (rewrite lookup_delete_ne; done).
        rewrite map_size_delete_Some by eauto.
        simpl in Hlen. lia.
    + apply (inv_finish c key v); try done.
      * intros Hin. apply Hkeys in Hin as [? ?]. congruence.
      * intros k. rewrite Hkeys. split; [|tauto].
        intros [x Hx]. split; [eauto | intros ->; congruence].
      * rewrite map_size_insert_None by done. lia.
Qed.

Lemma clear_inv c : inv c → inv (clear c).
Proof. intros (_ & _ & Hsz). apply inv_init. simpl. lia. Qed.

Lemma get_hit c key (v : V) :
  inv c → _cache c !! key = Some v →
  ∃ l, list_remove key (_access_order c) = Some l ∧
       get c key = (Ok (Some v), mk (max_size c) (_cache c) (l ++ [key])).
Proof.
  intros (Hnd & Hkeys & _) E. unfold get. rewrite E.
  destruct (list_remove key (_access_order c)) as [l|] eqn:R; [eauto|].
  apply list_remove_None in R. exfalso. apply R, Hkeys. eauto.
Qed.

Lemma get_miss c key : _cache c !! key = None → get c key = (Ok None, c).
Proof. intros E. unfold get. by rewrite E. Qed.

Lemma set_evicts c key (v : V) :
  inv c → (1 ≤ max_size c)%Z → _cache c !! key = None →
  Z.of_nat (size (_cache c)) = max_size c →
  ∃ oldest rest, _access_order c = oldest :: rest ∧
    set c key v = (Ok tt, mk (max_size c) (<[key := v]> (delete oldest (_cache c)))
                             (rest ++ [key])).
Proof.
  intros Hinv Hpos E Hfull. pose proof (inv_length c Hinv) as Hlen.
  destruct Hinv as (Hnd & Hkeys & Hsz). unfold set. rewrite E.
  rewrite bool_decide_eq_true_2 by lia.
  destruct (_access_order c) as [|oldest rest] eqn:Eo; [simpl in Hlen; lia|].
  assert (is_Some (_cache c !! oldest)) as [vo Ho] by (apply Hkeys; left).
  rewrite Ho. eauto.
Qed.

Lemma set_max_size c key (v : V) : max_size (set c key v).2 = max_size c.
Proof.
  unfold set. repeat (case_match; simpl; try done).
Qed.

Lemma set_all_app c (kvs1 kvs2 : list (string * V)) :
  set_all c (kvs1 ++ kvs2) =
  match set_all c kvs1 with
  | (Ok _, c') => set_all c' kvs2
  | (Raise e, c') => (Raise e, c')
  end.
Proof.
  revert c. induction kvs1 as [|[k v] kvs1 IH]; intros c; simpl; [done|].
  destruct (set c k v) as [[[]|e] c']; [apply IH | done].
Qed.

(** After storing distinct keys, no more than the capacity, the access
    order ends with them, in the order stored, and all are cached. *)
Lemma set_all_run c (kvs : list (string * V)) :
  inv c → (1 ≤ max_size c)%Z → NoDup kvs.*1 →
  (Z.of_nat (length kvs) ≤ max_size c)%Z →
  ∃ c' pre, set_all c kvs = (Ok tt, c') ∧ inv c' ∧ max_size c' = max_size c ∧
    _access_order c' = pre ++ kvs.*1 ∧
    ∀ k v, (k, v) ∈ kvs → _cache c' !! k = Some v.
Proof.
  intros Hinv Hpos. induction kvs as [|[k v] kvs IH] using rev_ind; intros Hnd Hlen.
  { exists c, (_access_order c). simpl. rewrite app_nil_r.
    split_and!; try done. intros ?? ?%elem_of_nil. done. }
  rewrite fmap_app in Hnd. simpl in Hnd.
  apply NoDup_app in Hnd as (Hnd & Hk & _).
  assert (k ∉ kvs.*1) as Hknew.
  { intros Hin. apply (Hk k Hin). by apply list_elem_of_singleton. }
  rewrite length_app in Hlen. simpl in Hlen.
  destruct IH as (c1 & pre & Hrun & Hinv1 & Hmax & Hord & Hall); [done|lia|].
  rewrite set_all_app, Hrun. simpl.
  pose proof (set_inv c1 k v Hinv1) as Hinv2.
  pose proof (set_max_size c1 k v) as Hmax2.
  pose proof (inv_length c1 Hinv1) as Hlen1.
  pose proof Hinv1 as (Hnd1 & Hkeys1 & Hsz1).
  assert (∀ k' v', (k', v') ∈ kvs → k' ≠ k) as Hne.
  { intros k' v' Hin ->. apply Hknew. apply list_elem_of_fmap. by exists (k, v'). }
  unfold set in *. destruct (_cache c1 !! k) as [v0|] eqn:E.
  - assert (k ∈ pre) as Hpre.
    { assert (k ∈ _access_order c1) as Hin by (apply Hkeys1; eauto).
      rewrite Hord, elem_of_app in Hin. destruct Hin; done. }
    destruct (list_remove k pre) as [pre'|] eqn:R;
      [|apply list_remove_None in R; done].
    rewrite Hord in *. rewrite (list_remove_app_l _ _ _ _ R) in *.
    eexists _, pre'. split; [done|]. simpl in *. split_and!; try done.
    + by rewrite fmap_app, app_assoc.
    + intros k' v' [Hin|Hin%list_elem_of_singleton]%elem_of_app.
      * rewrite lookup_insert_ne by (symmetry; eauto). eauto.
      * injection Hin as -> ->. apply lookup_insert_eq.
  - case_bool_decide as Hfull.
    + destruct pre as [|o pre'].
      { rewrite Hord, length_app, length_fmap in Hlen1. simpl in Hlen1. lia. }
      rewrite Hord in *. simpl in *.
      assert (is_Some (_cache c1 !! o)) as [vo Ho] by (apply Hkeys1; left).
      rewrite Ho in *. eexists _, pre'. split; [done|]. simpl in *.
      split_and!; try done.
      * by rewrite fmap_app, app_assoc.
      * apply NoDup_cons in Hnd1 as [Ho1 _].
        intros k' v' [Hin|Hin%list_elem_of_singleton]%elem_of_app.
        -- rewrite lookup_insert_ne by (symmetry; eauto).
           rewrite lookup_delete_ne; [eauto|].
           intros ->. apply Ho1. apply elem_of_app. right.
           apply list_elem_of_fmap. by exists (k', v').
        -- injection Hin as -> ->. apply lookup_insert_eq.
    + eexists _, pre. split; [done|]. simpl in *. split_and!; try done.
      * by rewrite Hord, fmap_app, app_assoc.
      * intros k' v' [Hin|Hin%list_elem_of_singleton]%elem_of_app.
        -- rewrite lookup_insert_ne by (symmetry; eauto). eauto.
        -- injection Hin as -> ->. apply lookup_insert_eq.
Qed.

End CacheFacts.

(** C10: every TemplateCache operation ([get], [set], [clear]) leaves the
    cache in a state where [_access_order] holds exactly the keys of
    [_cache], each exactly once, and the number of entries does not exceed
    [max_size], given that the state before satisfied the same invariant;
    this covers the states left behind by a call that raises. *)
Theorem cache_operations_preserve_inv {V : Type} (c : TemplateCache.t V) :
  TemplateCache.inv c →
  (∀ key, TemplateCache.inv (TemplateCache.get c key).2) ∧
  (∀ key v, TemplateCache.inv (TemplateCache.set c key v).2) ∧
  TemplateCache.inv (TemplateCache.clear c).
Proof.
  intros Hinv. split_and!;
    [intros; by apply get_inv | intros; by apply set_inv | by apply clear_inv].
Qed.

Lemma cache_operations_preserve_inv_witness :
  let c := (TemplateCache.set (TemplateCache.init 2) "a:1" 7%nat).2 in
  TemplateCache.inv c ∧
  ((∀ key, TemplateCache.inv (TemplateCache.get c key).2) ∧
   (∀ key v, TemplateCache.inv (TemplateCache.set c key v).2) ∧
   TemplateCache.inv (TemplateCache.clear c)).
Proof.
  intros c.
  assert (TemplateCache.inv c) as Hc by (apply set_inv, inv_init; lia).
  split; [exact Hc | exact (cache_operations_preserve_inv c Hc)].
Defined.

(** C6 (amended): TemplateCache is a fixed-capacity LRU when its
    capacity is at least one. On a cache of capacity [N >= 1] satisfying
    the invariant: (1) a [get] that hits returns the
    entry and moves its key to the most-recently-used end of the access
    order, keeping the other keys in order; (2) a [set] of a key that is
    not cached, on a full cache, evicts the key at the least-recently-used
    end before inserting; (3) after [N+1] [set]s of distinct keys, a [get] of the first
    of them misses and a [get] of each of the [N] later ones hits. *)
Theorem cache_is_lru {V : Type} (c : TemplateCache.t V) (N : nat) :
  TemplateCache.inv c → TemplateCache.max_size c = Z.of_nat N → (1 ≤ N)%nat →
  (∀ key v, TemplateCache._cache c !! key = Some v →
     ∃ l, TemplateCache.list_remove key (TemplateCache._access_order c) = Some l ∧
          TemplateCache.get c key =
            (Ok (Some v),
             TemplateCache.mk (Z.of_nat N) (TemplateCache._cache c) (l ++ [key]))) ∧
  (∀ key v, TemplateCache._cache c !! key = None →
     size (TemplateCache._cache c) = N →
     ∃ oldest rest, TemplateCache._access_order c = oldest :: rest ∧
       TemplateCache.set c key v =
         (Ok tt, TemplateCache.mk (Z.of_nat N)
                   (<[key := v]> (delete oldest (TemplateCache._cache c)))
                   (rest ++ [key]))) ∧
  (∀ k1 v1 (kvs : list (string * V)),
     NoDup (k1 :: kvs.*1) → length kvs = N →
     ∃ c', TemplateCache.set_all c ((k1, v1) :: kvs) = (Ok tt, c') ∧
       (TemplateCache.get c' k1).1 = Ok None ∧
       ∀ k v, (k, v) ∈ kvs → (TemplateCache.get c' k).1 = Ok (Some v)).
Proof.
  intros Hinv Hmax Hpos. split_and!.
  - intros key v E. rewrite <- Hmax. by apply get_hit.
  - intros key v E Hsz. rewrite <- Hmax. apply set_evicts; try done; lia.
  - intros k1 v1 kvs Hnd Hlen.
    destruct (exists_last (l := (k1, v1) :: kvs)) as (kvs0 & [kl vl] & Hsplit);
      [done|].
    assert (length kvs0 = N) as Hlen0.
    { apply (f_equal length) in Hsplit. rewrite length_app in Hsplit.
      simpl in Hsplit. lia. }
    assert (NoDup (kvs0.*1 ++ [kl])) as Hnd0.
    { change (k1 :: kvs.*1) with (((k1, v1) :: kvs).*1) in Hnd.
      by rewrite Hsplit, fmap_app in Hnd. }
    apply NoDup_app in Hnd0 as (Hnd0 & Hkl & _).
    assert (kl ∉ kvs0.*1) as Hklnew.
    { intros Hin. apply (Hkl kl Hin). by apply list_elem_of_singleton. }
    destruct (set_all_run c kvs0) as (c1 & pre & Hrun & Hinv1 & Hmax1 & Hord & Hall);
      [done | lia | done | lia |].
    pose proof (inv_length c1 Hinv1) as Hlen1.
    pose proof Hinv1 as (Hnd1 & Hkeys1 & Hsz1).
    assert (pre = []) as ->.
    { rewrite Hord, length_app, length_fmap in Hlen1.
      destruct pre; [done | simpl in Hlen1; lia]. }
    simpl in Hord.
    assert (TemplateCache._cache c1 !! kl = None) as Hnone.
    { destruct (TemplateCache._cache c1 !! kl) eqn:E; [|done].
      exfalso. apply Hklnew. rewrite <- Hord. apply Hkeys1. eauto. }
    destruct (set_evicts c1 kl vl) as (oldest & rest & Hord1 & Hset);
      [done | lia | done | rewrite Hord, length_fmap in Hlen1; lia |].
    rewrite Hsplit, set_all_app, Hrun. simpl. rewrite Hset. eexists. split; [done|].
    destruct kvs0 as [|[k0 v0] mid]; [simpl in Hlen0; lia|].
    simpl in Hsplit. injection Hsplit as Hk Hv Hkvs. subst k0 v0.
    rewrite Hord in Hord1. simpl in Hord1. injection Hord1 as <- <-.
    assert (k1 ≠ kl) as Hk1l by (intros ->; apply Hklnew; left).
    split.
    + rewrite get_miss; [done|]. simpl.
      rewrite lookup_insert_ne by done. apply lookup_delete_eq.
    + intros k v Hin. rewrite Hkvs in Hin.
      pose proof (set_inv c1 kl vl Hinv1) as Hinv2. rewrite Hset in Hinv2.
      simpl in Hinv2.
      match goal with |- (TemplateCache.get ?c2 _).1 = _ =>
        destruct (get_hit c2 k v Hinv2) as (l & _ & ->); [|done] end.
      simpl. apply elem_of_app in Hin as [Hin|Hin%list_elem_of_singleton].
      * assert (k ≠ kl) as Hne.
        { intros ->. apply Hklnew. simpl. right.
          apply list_elem_of_fmap. by exists (kl, v). }
        rewrite lookup_insert_ne by done.
        assert (k ≠ k1) as Hne1.
        { intros ->. simpl in Hnd0. apply NoDup_cons in Hnd0 as [Hn _].
          apply Hn. apply list_elem_of_fmap. by exists (k1, v). }
        rewrite lookup_delete_ne by done. apply Hall. by right.
      * injection Hin as -> ->. apply lookup_insert_eq.
Qed.

Lemma cache_is_lru_witness :
  let c := TemplateCache.init (V := nat) 2 in
  TemplateCache.inv c ∧ TemplateCache.max_size c = Z.of_nat 2 ∧ (1 ≤ 2)%nat ∧
  ∃ c', TemplateCache.set_all c [("a:1", 1%nat); ("b:2", 2%nat); ("c:3", 3%nat)]
          = (Ok tt, c') ∧
        (TemplateCache.get c' "a:1").1 = Ok None ∧
        ∀ k v, (k, v) ∈ [("b:2", 2%nat); ("c:3", 3%nat)] →
               (TemplateCache.get c' k).1 = Ok (Some v).
Proof.
  intros c.
  assert (TemplateCache.inv c) as Hc by (apply inv_init; lia).
  split; [exact Hc|]. split; [reflexivity|]. split; [lia|].
  refine (proj2 (proj2 (cache_is_lru c 2 Hc eq_refl _)) "a:1" 1%nat
            [("b:2", 2%nat); ("c:3", 3%nat)] _ eq_refl); [lia|].
  simpl. apply NoDup_ListNoDup.
  repeat (constructor; [simpl; intuition discriminate|]). constructor.
Defined.

(** C6 as stated fails on two caches that are at capacity. A cache built
    with capacity 0 is empty and full at once: [set] raises IndexError
    from the pop on the empty access list, evicts nothing and inserts
    nothing. On a cache of capacity 2 holding [a:1] and [b:2], a [set] of
    the cached key [b:2] evicts nothing: the least recently used entry
    [a:1] is still there afterwards. *)
Lemma cache_at_capacity_does_not_always_evict :
  (let c0 := TemplateCache.init (V := nat) 0 in
   TemplateCache.inv c0 ∧
   TemplateCache.len c0 = TemplateCache.max_size c0 ∧
   TemplateCache.set c0 "a:1" 1%nat
   = (Raise (IndexError "pop from empty list"), c0) ∧
   TemplateCache.contains c0 "a:1" = false) ∧
  (let c2 := (TemplateCache.set_all (TemplateCache.init 2)
                [("a:1", 1%nat); ("b:2", 2%nat)]).2 in
   TemplateCache.inv c2 ∧
   TemplateCache.len c2 = TemplateCache.max_size c2 ∧
   TemplateCache._access_order c2 = ["a:1"; "b:2"] ∧
   ∃ c', TemplateCache.set c2 "b:2" 9%nat = (Ok tt, c') ∧
         (TemplateCache.get c' "a:1").1 = Ok (Some 1%nat)).
Proof.
  split.
  - intros c0. split; [apply inv_init; lia|]. by vm_compute.
  - intros c2. split.
    + subst c2. cbn [TemplateCache.set_all].
      assert (TemplateCache.inv (TemplateCache.init (V := nat) 2)) as H0
        by (apply inv_init; lia).
      pose proof (set_inv _ "a:1" 1%nat H0) as H1.
      pose proof (set_inv _ "b:2" 2%nat H1) as H2.
      exact H2.
    + split; [by vm_compute|]. split; [by vm_compute|].
      eexists. split; [by vm_compute|]. by vm_compute.
Qed.

(** ** Lexer and parser: runs that never finish *)

Section Divergence.
Import PyxmParser.

Lemma tokenize_endif fuel :
  PyxmLexer.tokenize (S fuel) (PyxmLexer.init "{% endif %}") = Some endif_tokens.
Proof. destruct fuel; reflexivity. Qed.

(** At the dangling end keyword the statement parser gives no node and
    puts the position back where it was. *)
Lemma parse_statement_endif fuel a :
  _parse_statement (S fuel) (mk endif_tokens 0 a) = Done None (mk endif_tokens 0 a).
Proof. reflexivity. Qed.

Lemma parse_node_endif fuel a :
  _parse_node fuel (mk endif_tokens 0 a) = OutOfFuel ∨
  _parse_node fuel (mk endif_tokens 0 a) = Done None (mk endif_tokens 0 a).
Proof.
  destruct fuel as [|[|fuel]]; [by left | by left | right; reflexivity].
Qed.

Lemma parse_loop_endif fuel root blocks a :
  parse_loop fuel root blocks (mk endif_tokens 0 a) = OutOfFuel.
Proof.
  revert root blocks. induction fuel as [|fuel IH]; intros root blocks; [done|].
  cbn [parse_loop]. unfold bind at 1. cbn [_is_at_end is_at_end_of].
  change (is_at_end_of (mk endif_tokens 0 a)) with false. cbv iota.
  unfold bind. destruct (parse_node_endif fuel a) as [-> | ->]; [done|].
  apply IH.
Qed.

End Divergence.

(** C5 (the code departs from the claim): on the source [{% endif %}]
    [PyxmParser.parse] does not terminate. The statement sub-parser
    consumes the three tokens, rewinds the position by three and returns
    no node, so the loop of [parse] meets the same token for ever: the
    call is cut off whatever the fuel, for every state of the parser
    instance. *)
Theorem parse_dangling_endif_never_returns (fuel : nat) (self : PyxmParser.t) :
  PyxmParser.parse fuel "{% endif %}" self = PyxmParser.OutOfFuel.
Proof.
  unfold PyxmParser.parse. destruct fuel as [|fuel]; [done|].
  rewrite tokenize_endif. rewrite parse_loop_endif. done.
Qed.

(** ** Lexer: a tag is never passed *)

Lemma str_drop_cons_lt n s c r : PyStr.drop n s = String c r → (n < String.length s)%nat.
Proof.
  revert s. induction n as [|n IH]; intros [|a s] H; simpl in *; try discriminate; try lia.
  apply IH in H. lia.
Qed.

Lemma startswith_lt_inv r :
  PyStr.startswith "<" r = true → ∃ r', r = String "<"%char r'.
Proof.
  destruct r as [|c r']; cbn [PyStr.startswith]; [discriminate|].
  rewrite andb_true_r. unfold PyStr.eqb_ascii. intros H.
  apply Ascii.eqb_eq in H. subst. by eexists.
Qed.

Lemma consume_pattern_None re st :
  re (PyxmLexer.rest st) = None → PyxmLexer._consume_pattern re st = (None, st).
Proof. intros H. unfold PyxmLexer._consume_pattern. by rewrite H. Qed.

Lemma match_pattern_None re st :
  re (PyxmLexer.rest st) = None → PyxmLexer._match_pattern re st = false.
Proof. intros H. unfold PyxmLexer._match_pattern. by rewrite H. Qed.

(** At a [<] the tag tokenizer matches nothing and leaves the lexer as
    it found it. *)
Lemma tokenize_tag_at_lt st r' :
  PyxmLexer.rest st = String "<"%char r' → PyxmLexer._tokenize_tag st = st.
Proof.
  intros Hr.
  assert (Hlen : (PyxmLexer.pos st <? PyxmLexer.len_source st)%nat = true)
    by (apply Nat.ltb_lt; exact (str_drop_cons_lt _ _ _ _ Hr)).
  unfold PyxmLexer._tokenize_tag.
  rewrite (consume_pattern_None PyxmLexer.re_whitespace st) by (by rewrite Hr).
  cbn [snd]. cbv zeta.
  rewrite (consume_pattern_None PyxmLexer.re_tag_name st) by (by rewrite Hr).
  rewrite Nat.add_1_r. cbn [PyxmLexer.tag_loop]. rewrite Hlen.
  rewrite (consume_pattern_None PyxmLexer.re_whitespace st) by (by rewrite Hr).
  cbn [snd]. cbv zeta.
  rewrite (match_pattern_None (PyxmLexer.re_literal "/>") st) by (by rewrite Hr).
  rewrite (match_pattern_None (PyxmLexer.re_literal ">") st) by (by rewrite Hr).
  rewrite (consume_pattern_None PyxmLexer.re_tag_name st) by (by rewrite Hr).
  rewrite Hr. by destruct r'.
Qed.

Lemma next_token_at_lt (st : PyxmLexer.t) :
  PyStr.startswith "<" (PyxmLexer.rest st) = true →
  PyxmLexer.re_py_open (PyxmLexer.rest st) = None →
  PyxmLexer._next_token st
  = PyxmLexer._add_token
      (if PyStr.startswith "</" (PyxmLexer.rest st) then TAG_END_OPEN else TAG_OPEN)
      (if PyStr.startswith "</" (PyxmLexer.rest st) then "</" else "<") st.
Proof.
  intros Hlt Hpy. destruct (startswith_lt_inv _ Hlt) as [r' Hr].
  unfold PyxmLexer._next_token.
  rewrite (match_pattern_None (PyxmLexer.re_literal "{{") st) by (by rewrite Hr).
  rewrite (match_pattern_None (PyxmLexer.re_literal "{%") st) by (by rewrite Hr).
  rewrite (match_pattern_None (PyxmLexer.re_literal "{#") st) by (by rewrite Hr).
  rewrite (match_pattern_None PyxmLexer.re_py_open st Hpy).
  unfold PyxmLexer._match_pattern, PyxmLexer.re_literal.
  destruct (PyStr.startswith "</" (PyxmLexer.rest st)).
  - by rewrite (tokenize_tag_at_lt _ r').
  - rewrite Hlt. by rewrite (tokenize_tag_at_lt _ r').
Qed.

Lemma tokenize_loop_stuck (fuel : nat) (st : PyxmLexer.t) :
  PyStr.startswith "<" (PyxmLexer.rest st) = true →
  PyxmLexer.re_py_open (PyxmLexer.rest st) = None →
  PyxmLexer.tokenize_loop fuel st = None.
Proof.
  revert st. induction fuel as [|fuel IH]; intros st Hlt Hpy;
    destruct (startswith_lt_inv _ Hlt) as [r' Hr];
    assert (Hlen : (PyxmLexer.pos st <? PyxmLexer.len_source st)%nat = true)
      by (apply Nat.ltb_lt; exact (str_drop_cons_lt _ _ _ _ Hr));
    cbn [PyxmLexer.tokenize_loop]; rewrite Hlen; [done|].
  rewrite (next_token_at_lt st Hlt Hpy).
  apply IH; assumption.
Qed.

(** C7 (the code departs from the claim): a source made of an opening
    tag, any content and a closing tag, [<open>inner</close>], is never
    parsed, whether or not the two names match: the lexer adds TAG_OPEN
    at the first [<] without moving past it, [_tokenize_tag] finds no
    name there and returns, and the loop of [tokenize] meets the same
    [<] again. So [tokenize] and [parse] are cut off whatever the fuel,
    for every state of the parser instance, and the SyntaxError for
    mismatched tags is never raised on a source text. *)
Theorem mismatched_tags_source_never_parses (fuel : nat)
    (open inner close : string) (self : PyxmParser.t) :
  let source := "<" +:+ open +:+ ">" +:+ inner +:+ "</" +:+ close +:+ ">" in
  PyxmLexer.re_py_open source = None →
  PyxmLexer.tokenize fuel (PyxmLexer.init source) = None ∧
  PyxmParser.parse fuel source self = PyxmParser.OutOfFuel.
Proof.
  intros source Hpy.
  assert (Hlex : PyxmLexer.tokenize fuel (PyxmLexer.init source) = None).
  { unfold PyxmLexer.tokenize.
    by rewrite (tokenize_loop_stuck fuel (PyxmLexer.init source) eq_refl Hpy). }
  split; [exact Hlex|]. unfold PyxmParser.parse. by rewrite Hlex.
Qed.

Lemma mismatched_tags_source_never_parses_witness :
  PyxmLexer.tokenize 1000 (PyxmLexer.init "<div></span>") = None ∧
  PyxmParser.parse 1000 "<div></span>" PyxmParser.init = PyxmParser.OutOfFuel.
Proof.
  exact (mismatched_tags_source_never_parses 1000 "div" "" "span" PyxmParser.init
           eq_refl).
Defined.

(** ** Parser: steps of the token cursor *)

Section ParserSteps.
Import PyxmParser.

Lemma bind_Done {A B} (m : M A) (k : A → M B) st a st' :
  m st = Done a st' → bind m k st = k a st'.
Proof. intros H. unfold bind. by rewrite H. Qed.

Lemma current_of_lookup st tk :
  tokens st !! pos st = Some tk → current_of st = tk.
Proof. intros H. unfold current_of. by rewrite H. Qed.

Lemma expect_Done ty st tk :
  tokens st !! pos st = Some tk → tok_type tk = ty →
  _expect ty st = Done tk (mk (tokens st) (S (pos st)) (ast st)).
Proof.
  intros H Hty. unfold _expect, bind, _current, _advance.
  rewrite (current_of_lookup _ _ H).
  destruct (decide (tok_type tk = ty)); [|done].
  by rewrite (current_of_lookup _ _ H).
Qed.

Lemma advance_Done st tk :
  tokens st !! pos st = Some tk →
  _advance st = Done tk (mk (tokens st) (S (pos st)) (ast st)).
Proof. intros H. unfold _advance. by rewrite (current_of_lookup _ _ H). Qed.

Lemma is_at_end_false st tk :
  tokens st !! pos st = Some tk → tok_type tk ≠ EOF →
  _is_at_end st = Done false st.
Proof.
  intros H Hne. unfold _is_at_end, is_at_end_of.
  rewrite (current_of_lookup _ _ H). by rewrite bool_decide_eq_false_2.
Qed.

Lemma current_Done st tk :
  tokens st !! pos st = Some tk → _current st = Done tk st.
Proof. intros H. unfold _current. by rewrite (current_of_lookup _ _ H). Qed.
End ParserSteps.

(** ** More fuel never changes a finished run *)

Section FuelMonotone.
Import PyxmParser.

Lemma le_result_refl {A} (r : result A) : le_result r r.
Proof. by right. Qed.

Lemma le_M_refl {A} (m : M A) : le_M m m.
Proof. intros st. apply le_result_refl. Qed.

Lemma le_M_bind {A B} (m1 m2 : M A) (k1 k2 : A → M B) :
  le_M m1 m2 → (∀ a, le_M (k1 a) (k2 a)) → le_M (bind m1 k1) (bind m2 k2).
Proof.
  intros Hm Hk st. unfold bind. destruct (Hm st) as [-> | ->]; [by left|].
  destruct (m2 st); [apply Hk | by right | by right].
Qed.

Lemma le_M_timeout {A} (m : M A) : le_M timeout m.
Proof. intros st. by left. Qed.

Ltac mono H :=
  repeat first
    [ apply le_M_refl
    | apply le_M_bind; [|intro]
    | apply H
    | match goal with
      | |- le_M (if ?b then _ else _) (if ?b then _ else _) => destruct b
      | |- le_M (match ?o with _ => _ end) (match ?o with _ => _ end) =>
          destruct o
      end ].

Lemma parser_le_step f g : parser_le f g → parser_le (S f) (S g).
Proof.
  intros (Hnode & Hstmt & Hif & Hifb & Hchild & Hblock & Helem & Heloop).
  unfold parser_le. split_and!; intros.
  - cbn [_parse_node]. mono Hstmt. mono Helem.
  - cbn [_parse_statement]. mono Hifb; mono Hblock.
  - cbn [if_loop]. mono Hchild; mono Hifb; mono Hnode; mono Hif.
  - cbn [_parse_if_block]. apply Hif.
  - cbn [_parse_children_until]. intros st.
    destruct (is_at_end_of st); [apply le_result_refl|].
    destruct (existsb _ tags); [apply le_result_refl|].
    revert st. mono Hnode; mono Hchild.
  - cbn [_parse_block]. mono Hchild.
  - cbn [_parse_element]. mono Heloop.
  - cbn [element_loop]. mono Hnode; mono Heloop.
Qed.

Lemma parser_le_0 g : parser_le 0 g.
Proof. unfold parser_le. split_and!; intros; apply le_M_timeout. Qed.

Lemma parser_mono f g : (f ≤ g)%nat → parser_le f g.
Proof.
  revert g. induction f as [|f IH]; intros g Hle; [apply parser_le_0|].
  destruct g as [|g]; [lia|]. apply parser_le_step, IH. lia.
Qed.

Lemma parse_loop_mono f g root blocks :
  (f ≤ g)%nat → le_M (parse_loop f root blocks) (parse_loop g root blocks).
Proof.
  revert g root blocks. induction f as [|f IH]; intros g root blocks Hle;
    [apply le_M_timeout|].
  destruct g as [|g]; [lia|].
  pose proof (parser_mono f g ltac:(lia)) as (Hnode & _).
  assert (∀ r b, le_M (parse_loop f r b) (parse_loop g r b)) as Hloop
    by (intros; apply IH; lia).
  cbn [parse_loop]. mono Hnode; mono Hloop.
Qed.

Lemma tokenize_loop_mono f g st st' :
  (f ≤ g)%nat → PyxmLexer.tokenize_loop f st = Some st' →
  PyxmLexer.tokenize_loop g st = Some st'.
Proof.
  revert g st. induction f as [|f IH]; intros g st Hle.
  - cbn [PyxmLexer.tokenize_loop]. destruct g; cbn [PyxmLexer.tokenize_loop];
      destruct (PyxmLexer.pos st <? PyxmLexer.len_source st)%nat; done.
  - destruct g as [|g]; [lia|]. cbn [PyxmLexer.tokenize_loop].
    destruct (PyxmLexer.pos st <? PyxmLexer.len_source st)%nat; [|done].
    apply IH. lia.
Qed.

Lemma parse_mono f g source self :
  (f ≤ g)%nat → le_result (parse f source self) (parse g source self).
Proof.
  intros Hle. unfold parse, PyxmLexer.tokenize.
  destruct (PyxmLexer.tokenize_loop f _) as [st'|] eqn:E; [|by left].
  rewrite (tokenize_loop_mono f g _ _ Hle E).
  destruct (parse_loop_mono f g (PyxmNode.new NodeType.ROOT) [] Hle
              (mk (PyxmLexer.tokens (PyxmLexer._add_token EOF "" st')) 0 (ast self)))
    as [-> | ->]; [by left | by right].
Qed.

End FuelMonotone.

(** ** The parser methods never read [ast] *)

Section InstanceIndependence.
Import PyxmParser.

Lemma sim_current s1 s2 : sim s1 s2 → current_of s1 = current_of s2.
Proof. intros [Ht Hp]. unfold current_of. by rewrite Ht, Hp. Qed.

Lemma sim_peek n s1 s2 : sim s1 s2 → peek_of n s1 = peek_of n s2.
Proof. intros [Ht Hp]. unfold peek_of. by rewrite Ht, Hp. Qed.

Lemma sim_is_at_end s1 s2 : sim s1 s2 → is_at_end_of s1 = is_at_end_of s2.
Proof. intros H. unfold is_at_end_of. by rewrite (sim_current _ _ H). Qed.

Lemma sim_is_end_tag name s1 s2 :
  sim s1 s2 → is_end_tag_of name s1 = is_end_tag_of name s2.
Proof.
  intros H. unfold is_end_tag_of.
  by rewrite (sim_current _ _ H), (sim_peek _ _ _ H).
Qed.

Lemma sim_M_bind {A B} (m1 m2 : M A) (k1 k2 : A → M B) :
  sim_M m1 m2 → (∀ a, sim_M (k1 a) (k2 a)) → sim_M (bind m1 k1) (bind m2 k2).
Proof.
  intros Hm Hk s1 s2 Hs. unfold bind. specialize (Hm s1 s2 Hs).
  destruct (m1 s1), (m2 s2); try done.
  destruct Hm as [-> Hs']. by apply Hk.
Qed.

Lemma sim_M_ret {A} (a : A) : sim_M (ret a) (ret a).
Proof. intros s1 s2 Hs. by split. Qed.

Lemma sim_M_raise {A} e : sim_M (raise (A := A) e) (raise e).
Proof. by intros s1 s2 Hs. Qed.

Lemma sim_M_timeout {A} : sim_M (timeout (A := A)) timeout.
Proof. by intros s1 s2 Hs. Qed.

Lemma sim_M_current : sim_M _current _current.
Proof. intros s1 s2 Hs. split; [by apply sim_current | done]. Qed.

Lemma sim_M_advance : sim_M _advance _advance.
Proof.
  intros s1 s2 Hs. split; [by apply sim_current|].
  destruct Hs as [Ht Hp]. split; simpl; congruence.
Qed.

Lemma sim_M_is_at_end : sim_M _is_at_end _is_at_end.
Proof. intros s1 s2 Hs. split; [by apply sim_is_at_end | done]. Qed.

Lemma sim_M_is_end_tag name : sim_M (_is_end_tag name) (_is_end_tag name).
Proof. intros s1 s2 Hs. split; [by apply sim_is_end_tag | done]. Qed.

Lemma sim_M_is_elif : sim_M _is_elif _is_elif.
Proof.
  intros s1 s2 Hs. unfold _is_elif.
  rewrite (sim_current _ _ Hs), (sim_peek _ _ _ Hs). by split.
Qed.

Ltac sim_go H :=
  repeat first
    [ apply sim_M_bind; [|intro]
    | apply sim_M_ret | apply sim_M_raise | apply sim_M_timeout
    | apply sim_M_current | apply sim_M_advance | apply sim_M_is_at_end
    | apply sim_M_is_end_tag | apply sim_M_is_elif
    | apply H
    | match goal with
      | |- sim_M (if ?b then _ else _) (if ?b then _ else _) => destruct b
      | |- sim_M (match ?o with _ => _ end) (match ?o with _ => _ end) =>
          destruct o
      end ].

Lemma sim_M_expect ty : sim_M (_expect ty) (_expect ty).
Proof. unfold _expect. sim_go sim_M_current. Qed.

Lemma sim_M_consume_end_tag name :
  sim_M (_consume_end_tag name) (_consume_end_tag name).
Proof. unfold _consume_end_tag. sim_go sim_M_expect. Qed.

Lemma sim_M_consume_elif : sim_M _consume_elif _consume_elif.
Proof. unfold _consume_elif. sim_go sim_M_expect. Qed.

Lemma sim_M_leaf :
  sim_M _parse_text _parse_text ∧ sim_M _parse_expression _parse_expression ∧
  sim_M _parse_comment _parse_comment ∧
  sim_M _parse_python_block _parse_python_block ∧
  (∀ c, sim_M (_parse_slot_block c) (_parse_slot_block c)).
Proof.
  split_and!; intros;
    unfold _parse_text, _parse_expression, _parse_comment,
      _parse_python_block, _parse_slot_block; sim_go sim_M_expect.
Qed.

Lemma sim_M_raw_loop n parts : sim_M (raw_loop n parts) (raw_loop n parts).
Proof.
  revert parts. induction n as [|n IH]; intros parts; cbn [raw_loop];
    [apply sim_M_ret|].
  sim_go sim_M_consume_end_tag. apply IH.
Qed.

Lemma sim_M_parse_raw_block : sim_M _parse_raw_block _parse_raw_block.
Proof.
  intros s1 s2 Hs. unfold _parse_raw_block.
  pose proof Hs as [Ht Hp]. rewrite Ht.
  refine (sim_M_bind _ _ _ _ _ _ s1 s2 Hs);
    [apply sim_M_raw_loop | intro; apply sim_M_ret].
Qed.

Lemma sim_M_attr node :
  sim_M (_parse_attribute node) (_parse_attribute node) ∧
  sim_M (_parse_event_binding node) (_parse_event_binding node) ∧
  sim_M (_parse_attr_binding node) (_parse_attr_binding node) ∧
  sim_M (_parse_ref_binding node) (_parse_ref_binding node).
Proof.
  split_and!;
    unfold _parse_attribute, _parse_event_binding, _parse_attr_binding,
      _parse_ref_binding; sim_go sim_M_current.
Qed.

Lemma sim_M_attribute_loop n node :
  sim_M (attribute_loop n node) (attribute_loop n node).
Proof.
  revert node. induction n as [|n IH]; intros node; cbn [attribute_loop];
    [apply sim_M_ret|].
  apply sim_M_bind; [apply sim_M_current|]. intros cur.
  destruct (tok_type cur); try apply sim_M_ret;
    (apply sim_M_bind; [apply sim_M_attr | intro; apply IH]).
Qed.

Lemma parser_sim_all f : parser_sim f.
Proof.
  induction f as [|f (Hnode & Hstmt & Hif & Hifb & Hchild & Hblock & Helem & Heloop)].
  { unfold parser_sim. split_and!; intros; apply sim_M_timeout. }
  destruct sim_M_leaf as (Htext & Hexpr & Hcomment & Hpy & Hslot).
  unfold parser_sim. split_and!; intros.
  - cbn [_parse_node]. apply sim_M_bind; [apply sim_M_current|]. intros token.
    destruct (tok_type token);
      sim_go Hstmt; try apply Htext; try apply Hexpr; try apply Hcomment;
      try apply Hpy; try apply Helem; sim_go Hstmt.
  - cbn [_parse_statement].
    apply sim_M_bind; [apply sim_M_expect|]; intros _.
    apply sim_M_bind; [apply sim_M_expect|]; intros content_token.
    apply sim_M_bind; [apply sim_M_expect|]; intros _.
    cbv zeta.
    repeat match goal with
      | |- sim_M (if ?b then _ else _) (if ?b then _ else _) => destruct b
      end;
      try (apply sim_M_bind; [|intro; apply sim_M_ret]);
      try apply Hifb; try apply Hblock; try apply Hslot;
      try apply sim_M_parse_raw_block; try apply sim_M_ret.
    intros s1 s2 [Ht Hp]. split; [done|]. split; simpl; congruence.
  - cbn [if_loop].
    sim_go sim_M_consume_end_tag; try apply Hchild; try apply sim_M_consume_elif;
      try apply Hifb; try apply Hnode; sim_go Hif.
  - cbn [_parse_if_block]. apply Hif.
  - cbn [_parse_children_until]. intros s1 s2 Hs.
    rewrite (sim_is_at_end _ _ Hs).
    destruct (is_at_end_of s2); [by split|].
    assert (existsb (λ tag, is_end_tag_of tag s1) tags
            = existsb (λ tag, is_end_tag_of tag s2) tags) as ->.
    { induction tags as [|tg tags IH]; [done|]. simpl.
      by rewrite (sim_is_end_tag _ _ _ Hs), IH. }
    destruct (existsb _ tags); [by split|].
    refine (sim_M_bind _ _ _ _ _ _ s1 s2 Hs); [apply Hnode|].
    intros [c|]; apply Hchild.
  - cbn [_parse_block]. sim_go Hchild.
  - cbn [_parse_element].
    apply sim_M_bind; [apply sim_M_expect|]; intros _.
    apply sim_M_bind; [apply sim_M_expect|]; intros tag_token.
    cbv zeta. apply sim_M_bind.
    { intros s1 s2 Hs. pose proof Hs as [-> _].
      by apply sim_M_attribute_loop. }
    intros node. sim_go sim_M_expect. apply Heloop.
  - cbn [element_loop]. sim_go sim_M_expect; try apply Hnode; sim_go Heloop.
Qed.

Lemma sim_M_parse_loop f root blocks :
  sim_M (parse_loop f root blocks) (parse_loop f root blocks).
Proof.
  revert root blocks. induction f as [|f IH]; intros root blocks;
    [apply sim_M_timeout|].
  destruct (parser_sim_all f) as (Hnode & _).
  cbn [parse_loop]. sim_go Hnode; apply IH.
Qed.

(** What [parse] returns, or raises, is the same from any two states of
    the parser instance. *)
Lemma parse_any_instance f source (p1 p2 : t) :
  match parse f source p1, parse f source p2 with
  | Done a1 _, Done a2 _ => a1 = a2
  | Fail e1, Fail e2 => e1 = e2
  | OutOfFuel, OutOfFuel => True
  | _, _ => False
  end.
Proof.
  unfold parse. destruct (PyxmLexer.tokenize f _) as [toks|]; [|done].
  pose proof (sim_M_parse_loop f (PyxmNode.new NodeType.ROOT) []
                (mk toks 0 (ast p1)) (mk toks 0 (ast p2))
                ltac:(by split)) as H.
  destruct (parse_loop f _ _ (mk toks 0 (ast p1))) as [[r1 b1] s1| |],
           (parse_loop f _ _ (mk toks 0 (ast p2))) as [[r2 b2] s2| |];
    try done.
  destruct H as [[= -> ->] _]. done.
Qed.

End InstanceIndependence.

(** ** Compiling the same text twice *)

Lemma compile_source_Ok fuel py_exec p c source name t :
  compile_source fuel py_exec p c source name = Some (Ok t) →
  ∃ ast st, PyxmParser.parse fuel source p = PyxmParser.Done ast st ∧
    py_exec (CompilerContext.get_code (Compile.final_context ast)) = None ∧
    t = CompiledTemplate.mk name (Compile.source_hash_of ast)
          (CompilerContext.get_code (Compile.final_context ast))
          (PyxmCompiler._collect_bindings (PyxmAST.root ast))
          (PyxmCompiler._collect_events (PyxmAST.root ast))
          (PyDict.keys (PyxmAST.components ast)) true.
Proof.
  unfold compile_source, Compile.compile.
  destruct (PyxmParser.parse fuel source p) as [ast st| |]; [|done|done].
  destruct (py_exec _) eqn:E; [done|]. simpl. intros [= <-]. eauto.
Qed.

Lemma parse_second_run f1 f2 source p1 p2 ast s1 :
  PyxmParser.parse f1 source p1 = PyxmParser.Done ast s1 →
  (f1 ≤ f2 → ∃ s2, PyxmParser.parse f2 source p2 = PyxmParser.Done ast s2) ∧
  (PyxmParser.parse f2 source p2 = PyxmParser.OutOfFuel ∨
   ∃ s2, PyxmParser.parse f2 source p2 = PyxmParser.Done ast s2).
Proof.
  intros H1.
  assert (Hup : ∀ g, (f1 ≤ g)%nat →
            ∃ s2, PyxmParser.parse g source p2 = PyxmParser.Done ast s2).
  { intros g Hle.
    destruct (parse_mono f1 g source p1 Hle) as [H|H]; [congruence|].
    rewrite H1 in H. pose proof (parse_any_instance g source p1 p2) as Hi.
    rewrite <- H in Hi.
    destruct (PyxmParser.parse g source p2) as [a2 s2| |]; try done.
    subst a2. by exists s2. }
  split; [apply Hup|].
  destruct (Nat.le_ge_cases f1 f2) as [Hle|Hle]; [right; by apply Hup|].
  destruct (parse_mono f2 f1 source p2 Hle) as [H|H]; [by left|].
  right. destruct (Hup f1 (Nat.le_refl _)) as [s2 Hs2]. rewrite H. by exists s2.
Qed.

Lemma parse_loop_second_run f1 f2 toks a1 a2 root blocks s1 :
  PyxmParser.parse_loop f1 (PyxmNode.new NodeType.ROOT) []
    (PyxmParser.mk toks 0 a1) = PyxmParser.Done (root, blocks) s1 →
  (f1 ≤ f2)%nat →
  ∃ s2, PyxmParser.parse_loop f2 (PyxmNode.new NodeType.ROOT) []
          (PyxmParser.mk toks 0 a2) = PyxmParser.Done (root, blocks) s2.
Proof.
  intros H1 Hle.
  destruct (parse_loop_mono f1 f2 (PyxmNode.new NodeType.ROOT) [] Hle
              (PyxmParser.mk toks 0 a1)) as [H|H]; [congruence|].
  rewrite H1 in H.
  pose proof (sim_M_parse_loop f2 (PyxmNode.new NodeType.ROOT) []
                (PyxmParser.mk toks 0 a1) (PyxmParser.mk toks 0 a2)
                ltac:(by split)) as Hs.
  rewrite <- H in Hs.
  destruct (PyxmParser.parse_loop f2 _ _ (PyxmParser.mk toks 0 a2))
    as [[r2 b2] s2| |]; try done.
  destruct Hs as [[= <- <-] _]. by exists s2.
Qed.

Lemma compile_Ok py_exec c ast name t :
  (Compile.compile py_exec c ast name).1 = Ok t →
  py_exec (CompilerContext.get_code (Compile.final_context ast)) = None ∧
  t = CompiledTemplate.mk name (Compile.source_hash_of ast)
        (CompilerContext.get_code (Compile.final_context ast))
        (PyxmCompiler._collect_bindings (PyxmAST.root ast))
        (PyxmCompiler._collect_events (PyxmAST.root ast))
        (PyDict.keys (PyxmAST.components ast)) true.
Proof.
  unfold Compile.compile. destruct (py_exec _) eqn:E; [done|].
  simpl. intros [= <-]. done.
Qed.

Lemma compile_Ok_intro py_exec c ast name :
  py_exec (CompilerContext.get_code (Compile.final_context ast)) = None →
  (Compile.compile py_exec c ast name).1
  = Ok (CompiledTemplate.mk name (Compile.source_hash_of ast)
          (CompilerContext.get_code (Compile.final_context ast))
          (PyxmCompiler._collect_bindings (PyxmAST.root ast))
          (PyxmCompiler._collect_events (PyxmAST.root ast))
          (PyDict.keys (PyxmAST.components ast)) true).
Proof. intros E. unfold Compile.compile. by rewrite E. Qed.

(** C9: two independent runs of the parser and the compiler on the same
    input, from whatever states the two parser instances and the two
    compiler instances are in and under whatever template names.
    (1) On a source text: when the first run returns a compiled template,
    the second run returns one too as soon as its fuel is not less (with
    less fuel it returns that template or is cut off, never anything
    else), and the two have the same [source_hash], the same [bindings]
    and the same [events]. (2) The same from the token list on, for every
    token list, those with elements, bindings and events included: when
    the loop of [parse] returns a tree and [compile] a template, the
    second parser and compiler return the same tree and a template with
    the same [source_hash], [bindings] and [events], the two maps being
    the ones collected from the tree. *)
Theorem compile_twice_same_metadata
    (f1 f2 : nat) (py_exec : string → option pyexn)
    (p1 p2 : PyxmParser.t) (c1 c2 : Compile.compiler)
    (name1 name2 : string) :
  (∀ (source : string) (t1 : CompiledTemplate.t),
     compile_source f1 py_exec p1 c1 source name1 = Some (Ok t1) →
     ∃ t2 : CompiledTemplate.t,
       ((f1 ≤ f2)%nat →
        compile_source f2 py_exec p2 c2 source name2 = Some (Ok t2)) ∧
       (compile_source f2 py_exec p2 c2 source name2 = None ∨
        compile_source f2 py_exec p2 c2 source name2 = Some (Ok t2)) ∧
       CompiledTemplate.source_hash t1 = CompiledTemplate.source_hash t2 ∧
       CompiledTemplate.bindings t1 = CompiledTemplate.bindings t2 ∧
       CompiledTemplate.events t1 = CompiledTemplate.events t2) ∧
  (∀ (toks : list Token) (root : PyxmNode.t) (blocks : list string)
     (s1 : PyxmParser.t) (t1 : CompiledTemplate.t),
     PyxmParser.parse_loop f1 (PyxmNode.new NodeType.ROOT) []
       (PyxmParser.mk toks 0 (PyxmParser.ast p1))
     = PyxmParser.Done (root, blocks) s1 →
     (Compile.compile py_exec c1 (PyxmParser._analyze_ast root blocks) name1).1
     = Ok t1 →
     (f1 ≤ f2)%nat →
     ∃ (s2 : PyxmParser.t) (t2 : CompiledTemplate.t),
       PyxmParser.parse_loop f2 (PyxmNode.new NodeType.ROOT) []
         (PyxmParser.mk toks 0 (PyxmParser.ast p2))
       = PyxmParser.Done (root, blocks) s2 ∧
       (Compile.compile py_exec c2 (PyxmParser._analyze_ast root blocks) name2).1
       = Ok t2 ∧
       CompiledTemplate.source_hash t1 = CompiledTemplate.source_hash t2 ∧
       CompiledTemplate.bindings t1 = CompiledTemplate.bindings t2 ∧
       CompiledTemplate.events t1 = CompiledTemplate.events t2 ∧
       CompiledTemplate.bindings t1 = PyxmCompiler._collect_bindings root ∧
       CompiledTemplate.events t1 = PyxmCompiler._collect_events root).
Proof.
  split.
  - intros source t1 H1.
    apply compile_source_Ok in H1 as (a1 & s1 & Hp1 & Hex & ->).
    destruct (parse_second_run f1 f2 source p1 p2 a1 s1 Hp1) as [Hup Hany].
    eexists (CompiledTemplate.mk name2 _ _ _ _ _ _).
    split_and!; [| |reflexivity..].
    + intros Hle. destruct (Hup Hle) as [s2 Hs2].
      unfold compile_source. rewrite Hs2.
      by rewrite (compile_Ok_intro py_exec c2 a1 name2 Hex).
    + unfold compile_source. destruct Hany as [-> | [s2 ->]]; [by left|right].
      by rewrite (compile_Ok_intro py_exec c2 a1 name2 Hex).
  - intros toks root blocks s1 t1 H1 Hc Hle.
    apply compile_Ok in Hc as [Hex ->].
    destruct (parse_loop_second_run f1 f2 toks _ (PyxmParser.ast p2) root blocks s1
                H1 Hle) as [s2 Hs2].
    exists s2. eexists. split; [exact Hs2|].
    split; [exact (compile_Ok_intro py_exec c2 _ name2 Hex)|].
    done.
Qed.

Lemma compile_twice_same_metadata_witness :
  let src := "Hello {{ name | upper }}{% if a %}x{% else %}y{% endif %}" in
  let p2 := PyxmParser.mk endif_tokens 2 None in
  let c2 := Compile.mkCompiler (Some CompilerContext.init) in
  (∃ t1 t2,
     compile_source 20 (λ _, None) PyxmParser.init Compile.new_compiler src "a"
       = Some (Ok t1) ∧
     compile_source 30 (λ _, None) p2 c2 src "b" = Some (Ok t2) ∧
     CompiledTemplate.source_hash t1 = CompiledTemplate.source_hash t2 ∧
     CompiledTemplate.bindings t1 = CompiledTemplate.bindings t2 ∧
     CompiledTemplate.events t1 = CompiledTemplate.events t2) ∧
  (∃ root blocks s2 t2,
     PyxmParser.parse_loop 30 (PyxmNode.new NodeType.ROOT) []
       (PyxmParser.mk bound_element_tokens 0 None)
     = PyxmParser.Done (root, blocks) s2 ∧
     (Compile.compile (λ _, None) c2 (PyxmParser._analyze_ast root blocks) "b").1
     = Ok t2 ∧
     CompiledTemplate.bindings t2 = [("class", "cls")] ∧
     CompiledTemplate.events t2 = [("click", "go")]).
Proof.
  intros src p2 c2.
  pose proof (compile_twice_same_metadata 20 30 (λ _, None) PyxmParser.init p2
                Compile.new_compiler c2 "a" "b") as [Hsrc Htok].
  split.
  - destruct (compile_source 20 (λ _, None) PyxmParser.init Compile.new_compiler
                src "a") as [[t1|]|] eqn:E1; [|vm_compute in E1; discriminate..].
    destruct (Hsrc src t1 E1) as (t2 & Hrun & _ & Hh & Hb & He).
    exists t1, t2. split; [reflexivity|]. split; [apply Hrun; lia|].
    exact (conj Hh (conj Hb He)).
  - destruct (PyxmParser.parse_loop 20 (PyxmNode.new NodeType.ROOT) []
                (PyxmParser.mk bound_element_tokens 0 (PyxmParser.ast PyxmParser.init)))
      as [[root blocks] s1| |] eqn:E1; [|vm_compute in E1; discriminate..].
    pose proof (compile_Ok_intro (λ _, None) Compile.new_compiler
                  (PyxmParser._analyze_ast root blocks) "a" eq_refl) as E2.
    destruct (Htok bound_element_tokens root blocks s1 _ E1 E2 ltac:(lia))
      as (s2 & t2 & Hp & Hc & _ & Hb & He & Hb1 & He1).
    exists root, blocks, s2, t2. split; [exact Hp|]. split; [exact Hc|].
    rewrite <- Hb, <- He, Hb1, He1.
    vm_compute in E1. injection E1 as <- _ _. split; reflexivity.
Defined.

(** ** The cache key of the Template wrapper *)

Lemma set_Ok_lookup {V} (c c' : TemplateCache.t V) key v :
  TemplateCache.set c key v = (Ok tt, c') →
  TemplateCache._cache c' !! key = Some v.
Proof.
  unfold TemplateCache.set. intros H.
  repeat case_match; simplify_eq; simpl; apply lookup_insert_eq.
Qed.

Lemma hexdigest_length msg : String.length (MD5.hexdigest msg) = 32%nat.
Proof. reflexivity. Qed.

Lemma source_hash_length ast : String.length (Compile.source_hash_of ast) = 12%nat.
Proof. reflexivity. Qed.

(** C8 (amended): when [Template._compile] misses the cache and returns,
    the compiled template is stored under the key [name:h] where [h] is
    the MD5 of the source text, 32 hexadecimal digits; the stored
    template's [source_hash] is the first 12 hexadecimal digits of the
    MD5 of the text of the root node's dictionary, so [h] is never equal
    to it. *)
Theorem cache_key_is_md5_of_source
    (fuel : nat) (py_exec : string → option pyexn) (self self' : Template.t)
    (cache cache' : TemplateCache.t CompiledTemplate.t) :
  TemplateCache._cache cache !! Template._get_cache_key self = None →
  Template._compile fuel py_exec self cache = Template.Returned self' cache' →
  ∃ ast st compiled,
    PyxmParser.parse fuel (Template.source self) PyxmParser.init
      = PyxmParser.Done ast st ∧
    Template._compiled self' = Some compiled ∧
    TemplateCache._cache cache'
      !! (Template.name self +:+ ":" +:+ MD5.md5_hex (Template.source self))
      = Some compiled ∧
    String.length (MD5.md5_hex (Template.source self)) = 32%nat ∧
    CompiledTemplate.source_hash compiled
      = PyStr.take 12 (MD5.md5_hex (to_dict_str (PyxmAST.root ast))) ∧
    String.length (CompiledTemplate.source_hash compiled) = 12%nat ∧
    MD5.md5_hex (Template.source self) ≠ CompiledTemplate.source_hash compiled.
Proof.
  intros Hmiss. unfold Template._compile.
  rewrite (get_miss cache _ Hmiss).
  destruct (PyxmParser.parse fuel _ _) as [ast st|e|]; [|by destruct e|done].
  unfold Compile.compile.
  destruct (py_exec _); [done|]. simpl.
  destruct (TemplateCache.set cache _ _) as [[[]|e] c2] eqn:Hset; [|done].
  intros [= <- <-]. eexists ast, st, _. split; [done|]. split; [done|].
  split; [exact (set_Ok_lookup _ _ _ _ Hset)|].
  split; [exact (hexdigest_length (MD5.encode (Template.source self)))|].
  split; [done|].
  split; [exact (source_hash_length ast)|].
  intros Heq. apply (f_equal String.length) in Heq.
  cbn [CompiledTemplate.source_hash] in Heq.
  rewrite (source_hash_length ast) in Heq.
  pose proof (hexdigest_length (MD5.encode (Template.source self))) as Hlen.
  unfold MD5.md5_hex in Heq. congruence.
Qed.

Lemma cache_key_is_md5_of_source_witness :
  ∃ self' cache' ast st compiled,
    Template._compile 20 (λ _, None) (Template.mk "hi" "template" None None)
      (TemplateCache.init 100) = Template.Returned self' cache' ∧
    PyxmParser.parse 20 "hi" PyxmParser.init = PyxmParser.Done ast st ∧
    Template._compiled self' = Some compiled ∧
    TemplateCache._cache cache' !! ("template:" +:+ MD5.md5_hex "hi")
      = Some compiled ∧
    MD5.md5_hex "hi" ≠ CompiledTemplate.source_hash compiled.
Proof.
  destruct (Template._compile 20 (λ _, None)
              (Template.mk "hi" "template" None None) (TemplateCache.init 100))
    as [self' cache'| |] eqn:E; [|vm_compute in E; discriminate..].
  destruct (cache_key_is_md5_of_source 20 (λ _, None)
              (Template.mk "hi" "template" None None) self'
              (TemplateCache.init 100) cache' eq_refl E)
    as (ast & st & compiled & Hp & Hc & Hl & _ & _ & _ & Hne).
  exists self', cache', ast, st, compiled. done.
Defined.

(** C8 as stated fails: the template [hi] named [template] is stored
    under the key made of the MD5 of its source, while its [source_hash]
    is another, shorter, text. *)
Lemma cache_key_differs_from_source_hash :
  match Template.new 20 (λ _, None) "hi" "template" (TemplateCache.init 100) with
  | Template.Returned self cache =>
      (CompiledTemplate.source_hash <$>
         TemplateCache._cache cache !! "template:49f68a5c8493ec2c0bf489821c21fc3b")
        = Some "1fa06d5a4e60" ∧
      TemplateCache._access_order cache
        = ["template:49f68a5c8493ec2c0bf489821c21fc3b"]
  | _ => False
  end.
Proof. vm_compute. split; reflexivity. Qed.

(** * Further properties of the code *)

(** ** TemplateCache: storing and reading back *)

Lemma set_no_raise {V} (c : TemplateCache.t V) key v :
  TemplateCache.inv c → (1 ≤ TemplateCache.max_size c)%Z →
  ∃ c', TemplateCache.set c key v = (Ok tt, c').
Proof.
  intros Hinv Hpos. pose proof (inv_length c Hinv) as Hlen.
  destruct Hinv as (Hnd & Hkeys & Hsz). unfold TemplateCache.set.
  destruct (TemplateCache._cache c !! key) as [v0|] eqn:E.
  - destruct (TemplateCache.list_remove key (TemplateCache._access_order c))
      as [l|] eqn:R; [eauto|].
    apply list_remove_None in R. exfalso. apply R, Hkeys. eauto.
  - case_bool_decide as Hfull; [|eauto].
    destruct (TemplateCache._access_order c) as [|oldest rest] eqn:Eo;
      [simpl in Hlen; lia|].
    assert (is_Some (TemplateCache._cache c !! oldest)) as [vo Ho]
      by (apply Hkeys; left).
    rewrite Ho. eauto.
Qed.

(** X1: on a cache that satisfies its invariant and has capacity at least
    one, [set] never raises, and a [get] of the same key right after it
    returns the value just stored. *)
Theorem cache_set_then_get {V} (c : TemplateCache.t V) (key : string) (v : V) :
  TemplateCache.inv c → (1 ≤ TemplateCache.max_size c)%Z →
  ∃ c', TemplateCache.set c key v = (Ok tt, c') ∧
        (TemplateCache.get c' key).1 = Ok (Some v).
Proof.
  intros Hinv Hpos. destruct (set_no_raise c key v Hinv Hpos) as [c' Hset].
  exists c'. split; [done|].
  pose proof (set_inv c key v Hinv) as Hinv'. rewrite Hset in Hinv'.
  destruct (get_hit c' key v Hinv' (set_Ok_lookup c c' key v Hset)) as (l & _ & ->).
  done.
Qed.

Lemma cache_set_then_get_witness :
  let c := TemplateCache.init (V := nat) 1 in
  TemplateCache.inv c ∧ (1 ≤ TemplateCache.max_size c)%Z ∧
  ∃ c', TemplateCache.set c "page:abc" 5%nat = (Ok tt, c') ∧
        (TemplateCache.get c' "page:abc").1 = Ok (Some 5%nat).
Proof.
  intros c. assert (TemplateCache.inv c) as Hc by (apply inv_init; lia).
  split; [exact Hc|]. split; [simpl; lia|].
  exact (cache_set_then_get c "page:abc" 5%nat Hc ltac:(simpl; lia)).
Defined.

(** X2: storing under a key that is already cached replaces its value
    and evicts nothing: the key now holds the new value, every other key
    keeps its value, the number of entries stays the same, and the key
    becomes the most recently used. *)
Theorem cache_overwrite_keeps_others {V} (c : TemplateCache.t V)
    (key : string) (v0 v : V) :
  TemplateCache.inv c → TemplateCache._cache c !! key = Some v0 →
  ∃ c', TemplateCache.set c key v = (Ok tt, c') ∧
    TemplateCache._cache c' !! key = Some v ∧
    (∀ k, k ≠ key → TemplateCache._cache c' !! k = TemplateCache._cache c !! k) ∧
    size (TemplateCache._cache c') = size (TemplateCache._cache c) ∧
    last (TemplateCache._access_order c') = Some key.
Proof.
  intros (Hnd & Hkeys & Hsz) E. unfold TemplateCache.set. rewrite E.
  destruct (TemplateCache.list_remove key (TemplateCache._access_order c))
    as [l|] eqn:R.
  - eexists. split; [done|]. simpl. split_and!.
    + apply lookup_insert_eq.
    + intros k Hk. by rewrite lookup_insert_ne.
    + apply map_size_insert_Some. eauto.
    + apply last_snoc.
  - apply list_remove_None in R. exfalso. apply R, Hkeys. eauto.
Qed.

Lemma cache_overwrite_keeps_others_witness :
  let c := (TemplateCache.set (TemplateCache.init 2) "a:1" 7%nat).2 in
  TemplateCache.inv c ∧ TemplateCache._cache c !! "a:1" = Some 7%nat ∧
  ∃ c', TemplateCache.set c "a:1" 9%nat = (Ok tt, c') ∧
    TemplateCache._cache c' !! "a:1" = Some 9%nat ∧
    (∀ k, k ≠ "a:1" → TemplateCache._cache c' !! k = TemplateCache._cache c !! k) ∧
    size (TemplateCache._cache c') = size (TemplateCache._cache c) ∧
    last (TemplateCache._access_order c') = Some "a:1".
Proof.
  intros c.
  assert (TemplateCache.inv c) as Hc by (apply set_inv, inv_init; lia).
  assert (TemplateCache._cache c !! "a:1" = Some 7%nat) as E by reflexivity.
  split; [exact Hc|]. split; [exact E|].
  exact (cache_overwrite_keeps_others c "a:1" 7%nat 9%nat Hc E).
Defined.

(** X3: a cache built with a capacity of zero or less can hold nothing:
    on the empty cache every [set] raises IndexError (the pop from the
    empty access list) and leaves the cache as it was. *)
Theorem cache_without_capacity_rejects_set {V} (n : Z) (key : string) (v : V) :
  (n ≤ 0)%Z →
  TemplateCache.set (TemplateCache.init n) key v
  = (Raise (IndexError "pop from empty list"), TemplateCache.init n).
Proof.
  intros Hn. unfold TemplateCache.set, TemplateCache.init. simpl.
  rewrite lookup_empty, map_size_empty.
  rewrite bool_decide_eq_true_2 by (simpl; lia). done.
Qed.

Lemma cache_without_capacity_rejects_set_witness :
  TemplateCache.set (TemplateCache.init 0) "a:1" 3%nat
  = (Raise (IndexError "pop from empty list"), TemplateCache.init 0).
Proof. exact (cache_without_capacity_rejects_set 0 "a:1" 3%nat ltac:(lia)). Defined.

(** ** Template._compile and the shared cache *)

(** X4: when the cache already holds an entry under the template's key,
    [_compile] hands that entry out and promotes its key to most recently
    used; the source is neither lexed nor parsed, so this holds whatever
    the fuel and whatever the source text is. *)
Theorem compile_hit_reuses_entry
    (fuel : nat) (py_exec : string → option pyexn) (self : Template.t)
    (cache : TemplateCache.t CompiledTemplate.t) (cached : CompiledTemplate.t) :
  TemplateCache.inv cache →
  TemplateCache._cache cache !! Template._get_cache_key self = Some cached →
  ∃ l,
    TemplateCache.list_remove (Template._get_cache_key self)
      (TemplateCache._access_order cache) = Some l ∧
    Template._compile fuel py_exec self cache
    = Template.Returned
        (Template.mk (Template.source self) (Template.name self)
           (Template._ast self) (Some cached))
        (TemplateCache.mk (TemplateCache.max_size cache)
           (TemplateCache._cache cache) (l ++ [Template._get_cache_key self])).
Proof.
  intros Hinv E. destruct (get_hit cache _ cached Hinv E) as (l & Hl & Hget).
  exists l. split; [done|]. unfold Template._compile. by rewrite Hget.
Qed.

Lemma compile_hit_reuses_entry_witness :
  let ct := CompiledTemplate.mk "t" "000000000000" "" [] [] [] true in
  let self := Template.mk "<div>" "t" None None in
  let cache := (TemplateCache.set (TemplateCache.init 4)
                  (Template._get_cache_key self) ct).2 in
  TemplateCache.inv cache ∧
  TemplateCache._cache cache !! Template._get_cache_key self = Some ct ∧
  ∃ l,
    TemplateCache.list_remove (Template._get_cache_key self)
      (TemplateCache._access_order cache) = Some l ∧
    Template._compile 0 (λ _, None) self cache
    = Template.Returned
        (Template.mk "<div>" "t" None (Some ct))
        (TemplateCache.mk 4 (TemplateCache._cache cache)
           (l ++ [Template._get_cache_key self])).
Proof.
  intros ct self cache.
  assert (TemplateCache.inv cache) as Hc by (apply set_inv, inv_init; lia).
  assert (TemplateCache._cache cache !! Template._get_cache_key self = Some ct)
    as E by (apply lookup_insert_eq).
  split; [exact Hc|]. split; [exact E|].
  exact (compile_hit_reuses_entry 0 (λ _, None) self cache ct Hc E).
Defined.

(** X5: a template that fails to compile is never cached: whenever
    [_compile] raises TemplateSyntaxError, be it for a syntax error found
    by the parser or for generated code the host rejects, the cache is
    exactly as it was before the call. *)
Theorem compile_failure_leaves_cache
    (fuel : nat) (py_exec : string → option pyexn) (self : Template.t)
    (cache cache' : TemplateCache.t CompiledTemplate.t) (msg : string) :
  Template._compile fuel py_exec self cache
    = Template.Raised (TemplateSyntaxError msg) cache' →
  cache' = cache.
Proof.
  unfold Template._compile, TemplateCache.get.
  destruct (TemplateCache._cache cache !! _) as [cached|] eqn:E.
  { destruct (TemplateCache.list_remove _ _); [done|]. intros [= ]. }
  destruct (PyxmParser.parse fuel _ _) as [ast st|e|]; [| |done].
  - destruct (Compile.compile py_exec _ ast _) as [[compiled|e] cmp].
    + unfold TemplateCache.set. rewrite E.
      repeat case_match; simplify_eq; intros [= ]; done.
    + by intros [= _ ->].
  - destruct e; by intros [= _ ->] || by intros [= ->].
Qed.

Lemma compile_failure_leaves_cache_witness :
  ∃ cache' msg,
    Template._compile 20 (λ _, None) (Template.mk "{% for x in y %}" "t" None None)
      (TemplateCache.init 4) = Template.Raised (TemplateSyntaxError msg) cache' ∧
    cache' = TemplateCache.init 4.
Proof.
  destruct (Template._compile 20 (λ _, None)
              (Template.mk "{% for x in y %}" "t" None None) (TemplateCache.init 4))
    as [| [| | | | | | |msg] cache' |] eqn:E; try (vm_compute in E; discriminate).
  exists cache', msg. split; [done|].
  exact (compile_failure_leaves_cache 20 (λ _, None) _ _ cache' msg E).
Defined.

(** ** Lexer: strings and movement through the text *)

Lemma str_drop_nil_ge n s : PyStr.drop n s = EmptyString → (String.length s <= n)%nat.
Proof.
  revert s. induction n as [|n IH]; intros [|a s] H; simpl in *; try discriminate; try lia.
  apply IH in H. lia.
Qed.

Lemma str_drop_S n s c r : PyStr.drop n s = String c r → PyStr.drop (S n) s = r.
Proof.
  revert s. induction n as [|n IH]; intros [|a s] H; simpl in *; try discriminate.
  - by inversion H.
  - by apply IH.
Qed.

Lemma str_length_app (a b : string) :
  String.length (a +:+ b) = (String.length a + String.length b)%nat.
Proof.
  induction a as [|c a IH]; [done|].
  change (S (String.length (a +:+ b)) = S (String.length a + String.length b)).
  by rewrite IH.
Qed.

Lemma str_app_empty_r (a : string) : a +:+ EmptyString = a.
Proof.
  induction a as [|c a IH]; [done|].
  change (String c (a +:+ EmptyString) = String c a). by rewrite IH.
Qed.

Lemma str_drop_length n s : (String.length (PyStr.drop n s) + n <= String.length s + n)%nat.
Proof.
  revert s. induction n as [|n IH]; intros [|a s]; simpl; try lia.
  specialize (IH s). lia.
Qed.

Lemma rest_length st :
  (String.length (PyxmLexer.rest st) <= PyxmLexer.len_source st)%nat.
Proof.
  unfold PyxmLexer.rest, PyxmLexer.len_source.
  pose proof (str_drop_length (PyxmLexer.pos st) (PyxmLexer.source st)). lia.
Qed.

Lemma str_take_app_length t tail : PyStr.take (String.length t) (t +:+ tail) = t.
Proof. induction t as [|c t IH]; simpl; [by destruct tail|by rewrite IH]. Qed.

Lemma pos_ltb st c r :
  PyxmLexer.rest st = String c r →
  (PyxmLexer.pos st <? PyxmLexer.len_source st)%nat = true.
Proof. intros Hr. apply Nat.ltb_lt. exact (str_drop_cons_lt _ _ _ _ Hr). Qed.

Lemma pos_ltb_end st :
  PyxmLexer.rest st = EmptyString →
  (PyxmLexer.pos st <? PyxmLexer.len_source st)%nat = false.
Proof. intros Hr. apply Nat.ltb_ge. exact (str_drop_nil_ge _ _ Hr). Qed.

Lemma advance1_cons st c r :
  PyxmLexer.rest st = String c r →
  PyxmLexer.advance1 st =
    if PyStr.eqb_ascii c "010"
    then PyxmLexer.mk (PyxmLexer.source st) (S (PyxmLexer.pos st))
           (S (PyxmLexer.line st)) 1 (PyxmLexer.tokens st)
    else PyxmLexer.mk (PyxmLexer.source st) (S (PyxmLexer.pos st))
           (PyxmLexer.line st) (S (PyxmLexer.column st)) (PyxmLexer.tokens st).
Proof.
  intros Hr. unfold PyxmLexer.advance1.
  rewrite (pos_ltb _ _ _ Hr).
  unfold PyxmLexer.rest in Hr. by rewrite Hr.
Qed.

Lemma advance1_end st :
  PyxmLexer.rest st = EmptyString → PyxmLexer.advance1 st = st.
Proof.
  intros Hr. unfold PyxmLexer.advance1.
  destruct (Nat.ltb_spec (PyxmLexer.pos st) (PyxmLexer.len_source st)); [|done].
  unfold PyxmLexer.rest in Hr. by rewrite Hr.
Qed.

Lemma advance1_rest st c r :
  PyxmLexer.rest st = String c r →
  PyxmLexer.rest (PyxmLexer.advance1 st) = r ∧
  PyxmLexer.source (PyxmLexer.advance1 st) = PyxmLexer.source st ∧
  PyxmLexer.pos (PyxmLexer.advance1 st) = S (PyxmLexer.pos st) ∧
  PyxmLexer.tokens (PyxmLexer.advance1 st) = PyxmLexer.tokens st.
Proof.
  intros Hr. rewrite (advance1_cons _ _ _ Hr).
  destruct (PyStr.eqb_ascii c "010"); unfold PyxmLexer.rest;
    cbn [PyxmLexer.source PyxmLexer.pos PyxmLexer.tokens];
    (split; [exact (str_drop_S _ _ _ _ Hr)|done]).
Qed.

Lemma advance_S n st :
  PyxmLexer._advance (S n) st = PyxmLexer._advance n (PyxmLexer.advance1 st).
Proof. unfold PyxmLexer._advance. by rewrite Nat.iter_succ_r. Qed.

(** [_advance] over a stretch [t] of the remaining text. *)
Lemma advance_app t : ∀ st tail,
  PyxmLexer.rest st = t +:+ tail →
  PyxmLexer.rest (PyxmLexer._advance (String.length t) st) = tail ∧
  PyxmLexer.source (PyxmLexer._advance (String.length t) st) = PyxmLexer.source st ∧
  PyxmLexer.pos (PyxmLexer._advance (String.length t) st)
    = (PyxmLexer.pos st + String.length t)%nat ∧
  PyxmLexer.tokens (PyxmLexer._advance (String.length t) st) = PyxmLexer.tokens st.
Proof.
  induction t as [|c t IH]; intros st tail Hr.
  - cbn. rewrite Nat.add_0_r. done.
  - cbn [String.length]. rewrite advance_S.
    destruct (advance1_rest st c (t +:+ tail) Hr) as (H1 & H2 & H3 & H4).
    destruct (IH _ _ H1) as (I1 & I2 & I3 & I4).
    rewrite I1, I2, I3, I4, H2, H3, H4. repeat split; lia.
Qed.

(** At the end of the text [_advance] does nothing. *)
Lemma advance_end n st :
  PyxmLexer.rest st = EmptyString → PyxmLexer._advance n st = st.
Proof.
  intros Hr. induction n as [|n IH]; [done|].
  rewrite advance_S, (advance1_end _ Hr). exact IH.
Qed.

Lemma peek2_rest st : PyxmLexer.peek2 st = PyStr.take 2 (PyxmLexer.rest st).
Proof.
  unfold PyxmLexer.peek2, PyStr.slice, PyxmLexer.rest.
  by replace (PyxmLexer.pos st + 2 - PyxmLexer.pos st)%nat with 2%nat by lia.
Qed.

Lemma eqb_take2 r a b :
  String.eqb (PyStr.take 2 r) (String a (String b "")) =
  PyStr.startswith (String a (String b "")) r.
Proof.
  destruct r as [|x [|y r]]; cbn [PyStr.take PyStr.startswith String.eqb];
    unfold PyStr.eqb_ascii; rewrite ?(Ascii.eqb_sym x a), ?(Ascii.eqb_sym y b);
    reflexivity.
Qed.

Lemma pycontains_cons sub c r :
  PyStr.contains sub (String c r) = false →
  PyStr.startswith sub (String c r) = false ∧ PyStr.contains sub r = false.
Proof.
  unfold PyStr.contains. cbn [PyStr.find].
  destruct (PyStr.startswith sub (String c r)); [discriminate|].
  by destruct (PyStr.find sub r).
Qed.

Lemma startswith2_app a b c t tail :
  PyStr.startswith (String a (String b "")) (String c t) = false →
  tail = EmptyString ∨ PyStr.startswith "<" tail = true →
  b ≠ "<"%char →
  PyStr.startswith (String a (String b "")) (String c (t +:+ tail)) = false.
Proof.
  intros H Htail Hb. destruct t as [|d t]; [|exact H].
  cbn [String.append]. destruct Htail as [-> | Hlt]; [exact H|].
  destruct (startswith_lt_inv _ Hlt) as [r' ->].
  change (EmptyString +:+ String "<" r') with (String "<" r').
  cbn [PyStr.startswith]. unfold PyStr.eqb_ascii at 2.
  rewrite (proj2 (Ascii.eqb_neq b "<") Hb). by rewrite andb_false_r.
Qed.

Lemma startswith1_app a c t tail :
  PyStr.startswith (String a "") (String c t) = false →
  PyStr.startswith (String a "") (String c (t +:+ tail)) = false.
Proof. done. Qed.

(** The text loop runs over a stretch with none of the four openers in
    it, provided the text ends there or a [<] follows. *)
Lemma text_loop_run t : ∀ st tail fuel,
  PyxmLexer.rest st = t +:+ tail →
  PyStr.contains "<" t = false → PyStr.contains "{{" t = false →
  PyStr.contains "{%" t = false → PyStr.contains "{#" t = false →
  tail = EmptyString ∨ PyStr.startswith "<" tail = true →
  (String.length t < fuel)%nat →
  PyxmLexer.text_loop fuel st = PyxmLexer._advance (String.length t) st.
Proof.
  induction t as [|c t IH]; intros st tail fuel Hr H1 H2 H3 H4 Htail Hfuel;
    (destruct fuel as [|fuel]; [cbn in Hfuel; lia|]); cbn [PyxmLexer.text_loop].
  - change (EmptyString +:+ tail) with tail in Hr. destruct Htail as [-> | Hlt].
    + by rewrite (pos_ltb_end _ Hr).
    + destruct (startswith_lt_inv _ Hlt) as [r' ->].
      rewrite (pos_ltb _ _ _ Hr), Hr. done.
  - change (String c t +:+ tail) with (String c (t +:+ tail)) in Hr.
    rewrite (pos_ltb _ _ _ Hr).
    rewrite peek2_rest, !eqb_take2, Hr.
    apply pycontains_cons in H1 as [S1 H1]. apply pycontains_cons in H2 as [S2 H2].
    apply pycontains_cons in H3 as [S3 H3]. apply pycontains_cons in H4 as [S4 H4].
    rewrite (startswith1_app _ _ _ tail S1).
    rewrite (startswith2_app _ _ _ _ tail S2 Htail) by done.
    rewrite (startswith2_app _ _ _ _ tail S3 Htail) by done.
    rewrite (startswith2_app _ _ _ _ tail S4 Htail) by done.
    cbn [orb]. change (PyxmLexer._advance 1 st) with (PyxmLexer.advance1 st).
    cbn [String.length]. rewrite advance_S.
    destruct (advance1_rest st c (t +:+ tail) Hr) as (A1 & _).
    apply (IH _ tail); try assumption. cbn in Hfuel. lia.
Qed.

Lemma slice_rest st t tail :
  PyxmLexer.rest st = t +:+ tail →
  PyStr.slice (PyxmLexer.pos st) (PyxmLexer.pos st + String.length t)
    (PyxmLexer.source st) = t.
Proof.
  intros Hr. unfold PyStr.slice.
  replace (PyxmLexer.pos st + String.length t - PyxmLexer.pos st)%nat
    with (String.length t) by lia.
  unfold PyxmLexer.rest in Hr. rewrite Hr. apply str_take_app_length.
Qed.

(** One call of [_next_token] on a stretch of plain text: a single TEXT
    token holding the stretch, stamped with the position where the
    stretch ends. *)
Lemma next_token_text st t tail :
  PyxmLexer.rest st = t +:+ tail → t ≠ EmptyString →
  PyStr.contains "<" t = false → PyStr.contains "{{" t = false →
  PyStr.contains "{%" t = false → PyStr.contains "{#" t = false →
  tail = EmptyString ∨ PyStr.startswith "<" tail = true →
  let st' := PyxmLexer._advance (String.length t) st in
  PyxmLexer._next_token st = PyxmLexer._add_token TEXT t st'.
Proof.
  intros Hr Hne H1 H2 H3 H4 Htail st'.
  destruct t as [|c t]; [done|].
  change (String c t +:+ tail) with (String c (t +:+ tail)) in Hr.
  pose proof (pycontains_cons _ _ _ H1) as [S1 _].
  pose proof (pycontains_cons _ _ _ H2) as [S2 _].
  pose proof (pycontains_cons _ _ _ H3) as [S3 _].
  pose proof (pycontains_cons _ _ _ H4) as [S4 _].
  assert (Hc : PyStr.eqb_ascii "<" c = false).
  { cbn [PyStr.startswith] in S1. by rewrite andb_true_r in S1. }
  unfold PyxmLexer._next_token.
  rewrite (match_pattern_None (PyxmLexer.re_literal "{{") st)
    by (unfold PyxmLexer.re_literal;
        by rewrite Hr, (startswith2_app _ _ _ _ tail S2 Htail)).
  rewrite (match_pattern_None (PyxmLexer.re_literal "{%") st)
    by (unfold PyxmLexer.re_literal;
        by rewrite Hr, (startswith2_app _ _ _ _ tail S3 Htail)).
  rewrite (match_pattern_None (PyxmLexer.re_literal "{#") st)
    by (unfold PyxmLexer.re_literal;
        by rewrite Hr, (startswith2_app _ _ _ _ tail S4 Htail)).
  rewrite (match_pattern_None PyxmLexer.re_py_open st)
    by (rewrite Hr; unfold PyxmLexer.re_py_open, PyxmLexer.re_py;
        cbn [PyStr.startswith]; by rewrite Hc).
  rewrite (match_pattern_None (PyxmLexer.re_literal "</") st)
    by (rewrite Hr; unfold PyxmLexer.re_literal;
        cbn [PyStr.startswith]; by rewrite Hc).
  rewrite (match_pattern_None (PyxmLexer.re_literal "<") st)
    by (rewrite Hr; unfold PyxmLexer.re_literal;
        cbn [PyStr.startswith]; by rewrite Hc).
  unfold PyxmLexer._tokenize_text.
  assert (Hfuel : (String.length (String c t) < PyxmLexer.len_source st + 1)%nat).
  { pose proof (rest_length st) as Hl.
    change (String c (t +:+ tail)) with (String c t +:+ tail) in Hr.
    rewrite Hr, str_length_app in Hl. lia. }
  change (String c (t +:+ tail)) with (String c t +:+ tail) in Hr.
  rewrite (text_loop_run (String c t) st tail _ Hr H1 H2 H3 H4 Htail Hfuel).
  fold st'. destruct (advance_app (String c t) st tail Hr) as (_ & Hs & Hp & _).
  fold st' in Hs, Hp. rewrite Hp, Hs.
  rewrite (proj2 (Nat.ltb_lt _ _)) by (cbn [String.length]; lia).
  by rewrite (slice_rest st (String c t) tail Hr).
Qed.

(** A text with none of the four openers in it lexes to one TEXT token
    and the EOF token, both stamped with the end position. *)
Lemma tokenize_plain_text (fuel : nat) (s : string) :
  s ≠ EmptyString →
  PyStr.contains "<" s = false → PyStr.contains "{{" s = false →
  PyStr.contains "{%" s = false → PyStr.contains "{#" s = false →
  let e := PyxmLexer._advance (String.length s) (PyxmLexer.init s) in
  PyxmLexer.tokenize (S fuel) (PyxmLexer.init s)
  = Some [mkToken TEXT s (PyxmLexer.line e) (PyxmLexer.column e);
          mkToken EOF "" (PyxmLexer.line e) (PyxmLexer.column e)].
Proof.
  intros Hne H1 H2 H3 H4 e.
  assert (Hr : PyxmLexer.rest (PyxmLexer.init s) = s +:+ EmptyString)
    by (by rewrite str_app_empty_r).
  unfold PyxmLexer.tokenize. cbn [PyxmLexer.tokenize_loop].
  destruct s as [|c s]; [done|].
  change ((PyxmLexer.pos (PyxmLexer.init (String c s))
           <? PyxmLexer.len_source (PyxmLexer.init (String c s)))%nat) with true.
  cbv iota.
  rewrite (next_token_text _ _ EmptyString Hr Hne H1 H2 H3 H4 (or_introl eq_refl)).
  fold e. destruct (advance_app _ _ _ Hr) as (Hrest & Hs & Hp & Ht). fold e in Hrest, Hs, Hp, Ht.
  assert (Hend : PyxmLexer.tokenize_loop fuel (PyxmLexer._add_token TEXT (String c s) e)
                 = Some (PyxmLexer._add_token TEXT (String c s) e)).
  { destruct fuel; cbn [PyxmLexer.tokenize_loop];
      rewrite (pos_ltb_end (PyxmLexer._add_token TEXT (String c s) e) Hrest); done. }
  rewrite Hend. unfold PyxmLexer._add_token. cbn [PyxmLexer.tokens PyxmLexer.line PyxmLexer.column].
  rewrite Ht. reflexivity.
Qed.

Lemma pysplit_nonempty sep s : ∃ p ps, PyStr.split sep s = p :: ps.
Proof.
  induction s as [|c s (p & ps & IH)]; cbn [PyStr.split]; [by eexists _, _|].
  destruct (PyStr.eqb_ascii c sep); [by eexists _, _|]. rewrite IH. by eexists _, _.
Qed.

Lemma pysplit_single sep s p : PyStr.split sep s = [p] → p = s.
Proof.
  revert p. induction s as [|c s IH]; intros p; cbn [PyStr.split].
  - by intros [= <-].
  - destruct (PyStr.eqb_ascii c sep).
    + destruct (pysplit_nonempty sep s) as (q & qs & ->). discriminate.
    + destruct (pysplit_nonempty sep s) as (q & qs & Hq). rewrite Hq.
      intros [= <- ->]. by rewrite (IH q Hq).
Qed.

(** [_advance] over a stretch [t] of the remaining text keeps the line
    and column in step with it. *)
Lemma advance_position t : ∀ st tail,
  PyxmLexer.rest st = t +:+ tail →
  let e := PyxmLexer._advance (String.length t) st in
  let parts := PyStr.split "010" t in
  PyxmLexer.line e = (PyxmLexer.line st + (length parts - 1))%nat ∧
  PyxmLexer.column e =
    match parts with
    | [_] => (PyxmLexer.column st + String.length t)%nat
    | _ => S (String.length (default EmptyString (last parts)))
    end.
Proof.
  induction t as [|c t IH]; intros st tail Hr.
  - cbn. split; lia.
  - change (String c t +:+ tail) with (String c (t +:+ tail)) in Hr.
    cbv zeta. cbn [String.length]. rewrite advance_S.
    destruct (advance1_rest st c _ Hr) as (A1 & _).
    destruct (IH _ _ A1) as [IHl IHc]. rewrite IHl, IHc.
    rewrite (advance1_cons st c _ Hr). cbn [PyStr.split].
    destruct (pysplit_nonempty "010" t) as (p & ps & Hp). rewrite Hp.
    destruct (PyStr.eqb_ascii c "010"); cbn [PyxmLexer.line PyxmLexer.column length].
    + split; [lia|]. destruct ps as [|q qs]; [|done].
      cbn [last default]. by rewrite (pysplit_single _ _ _ Hp).
    + split; [lia|]. destruct ps as [|q qs]; [|done]. cbn [String.length]. lia.
Qed.

(** X6: when the text at the lexer's position starts with [<] and no
    Python-block opener matches there, [_next_token] appends one token
    (TAG_END_OPEN for [</], else TAG_OPEN) and leaves position, line and
    column as they were: [_tokenize_tag] consumes nothing. The loop of
    [tokenize] therefore never ends from such a state, whatever the
    fuel. *)
Theorem lexer_never_passes_tag_open (fuel : nat) (st : PyxmLexer.t) :
  PyStr.startswith "<" (PyxmLexer.rest st) = true →
  PyxmLexer.re_py_open (PyxmLexer.rest st) = None →
  PyxmLexer._next_token st
  = PyxmLexer._add_token
      (if PyStr.startswith "</" (PyxmLexer.rest st) then TAG_END_OPEN else TAG_OPEN)
      (if PyStr.startswith "</" (PyxmLexer.rest st) then "</" else "<") st
  ∧ PyxmLexer.tokenize fuel st = None.
Proof.
  intros Hlt Hpy. split; [exact (next_token_at_lt st Hlt Hpy)|].
  unfold PyxmLexer.tokenize. by rewrite (tokenize_loop_stuck fuel st Hlt Hpy).
Qed.

Lemma lexer_never_passes_tag_open_witness :
  PyxmLexer.tokenize 1000 (PyxmLexer.init "<h1>{{ title }}</h1>") = None.
Proof.
  exact (proj2 (lexer_never_passes_tag_open 1000
                  (PyxmLexer.init "<h1>{{ title }}</h1>") eq_refl eq_refl)).
Defined.

(** X7: [_advance] over a stretch [t] of the remaining text moves [pos]
    by the length of [t], adds the number of line feeds in [t] to [line]
    and sets [column] to one more than the length of what follows the
    last line feed (or adds the length of [t] when it has none). At the
    end of the text further calls of [_advance] change nothing. *)
Theorem advance_keeps_line_and_column (st : PyxmLexer.t) (t tail : string) :
  PyxmLexer.rest st = t +:+ tail →
  let e := PyxmLexer._advance (String.length t) st in
  let parts := PyStr.split "010" t in
  PyxmLexer.rest e = tail ∧
  PyxmLexer.pos e = (PyxmLexer.pos st + String.length t)%nat ∧
  PyxmLexer.line e = (PyxmLexer.line st + (length parts - 1))%nat ∧
  PyxmLexer.column e =
    match parts with
    | [_] => (PyxmLexer.column st + String.length t)%nat
    | _ => S (String.length (default EmptyString (last parts)))
    end ∧
  (tail = EmptyString → ∀ n, PyxmLexer._advance n e = e).
Proof.
  intros Hr e parts.
  destruct (advance_app t st tail Hr) as (Hrest & _ & Hpos & _).
  destruct (advance_position t st tail Hr) as [Hl Hc].
  repeat split; try assumption.
  intros -> n. by apply advance_end.
Qed.

Lemma advance_keeps_line_and_column_witness :
  let st := PyxmLexer.mk (String "a" (String "010" "bc")) 0 1 1 [] in
  let e := PyxmLexer._advance 3 st in
  PyxmLexer.rest e = "c" ∧ PyxmLexer.pos e = 3%nat ∧
  PyxmLexer.line e = 2%nat ∧ PyxmLexer.column e = 2%nat ∧
  ("c" = EmptyString → ∀ n, PyxmLexer._advance n e = e).
Proof.
  exact (advance_keeps_line_and_column
           (PyxmLexer.mk (String "a" (String "010" "bc")) 0 1 1 [])
           (String "a" (String "010" "b")) "c" eq_refl).
Defined.

(** Plain text, with the end position spelt out. *)
Lemma tokenize_plain_text_end (fuel : nat) (s : string) :
  s ≠ EmptyString →
  PyStr.contains "<" s = false → PyStr.contains "{{" s = false →
  PyStr.contains "{%" s = false → PyStr.contains "{#" s = false →
  let parts := PyStr.split "010" s in
  let l := length parts in
  let c := S (String.length (default EmptyString (last parts))) in
  PyxmLexer.tokenize (S fuel) (PyxmLexer.init s)
  = Some [mkToken TEXT s l c; mkToken EOF "" l c].
Proof.
  intros Hne H1 H2 H3 H4 parts l c.
  rewrite (tokenize_plain_text fuel s Hne H1 H2 H3 H4).
  assert (Hr : PyxmLexer.rest (PyxmLexer.init s) = s +:+ EmptyString)
    by (by rewrite str_app_empty_r).
  destruct (advance_position s _ _ Hr) as [Hl Hc]. rewrite Hl, Hc.
  fold parts. subst l c. destruct (pysplit_nonempty "010" s) as (p & ps & Hp).
  assert (Hparts : parts = p :: ps) by exact Hp. clearbody parts. subst parts.
  cbn [PyxmLexer.line PyxmLexer.column PyxmLexer.init length].
  replace (1 + (S (length ps) - 1))%nat with (S (length ps)) by lia.
  destruct ps as [|q qs]; [|done].
  cbn [last default]. by rewrite (pysplit_single _ _ _ Hp).
Qed.

(** X8: a non-empty source without [<] and without the openers of an
    expression, a statement or a comment lexes to exactly one TEXT token
    holding the whole source, followed by EOF. Both tokens carry the
    line and column where the text ends (the token is added after the
    scan), not where it starts. *)
Theorem plain_text_is_one_token (fuel : nat) (s : string) :
  s ≠ EmptyString →
  PyStr.contains "<" s = false → PyStr.contains "{{" s = false →
  PyStr.contains "{%" s = false → PyStr.contains "{#" s = false →
  let parts := PyStr.split "010" s in
  let l := length parts in
  let c := S (String.length (default EmptyString (last parts))) in
  PyxmLexer.tokenize (S fuel) (PyxmLexer.init s)
  = Some [mkToken TEXT s l c; mkToken EOF "" l c].
Proof. exact (tokenize_plain_text_end fuel s). Qed.

Lemma plain_text_is_one_token_witness :
  PyxmLexer.tokenize 1 (PyxmLexer.init (String "a" (String "010" "bc")))
  = Some [mkToken TEXT (String "a" (String "010" "bc")) 2 3; mkToken EOF "" 2 3].
Proof.
  apply (plain_text_is_one_token 0 (String "a" (String "010" "bc")));
    [discriminate | reflexivity ..].
Defined.

(** X9: [PyxmParser.parse] never returns on a source whose first
    special character is a [<] that does not open a Python block: plain
    text [t], then [<], then anything. The lexer stays on the [<] for
    ever, so the call is cut off whatever the fuel and whatever the
    state of the parser instance. *)
Theorem markup_never_parses (fuel : nat) (t r : string) (self : PyxmParser.t) :
  PyStr.contains "<" t = false → PyStr.contains "{{" t = false →
  PyStr.contains "{%" t = false → PyStr.contains "{#" t = false →
  PyxmLexer.re_py_open (String "<" r) = None →
  PyxmParser.parse fuel (t +:+ String "<" r) self = PyxmParser.OutOfFuel.
Proof.
  intros H1 H2 H3 H4 Hpy.
  unfold PyxmParser.parse, PyxmLexer.tokenize.
  set (st0 := PyxmLexer.init (t +:+ String "<" r)).
  assert (Hr : PyxmLexer.rest st0 = t +:+ String "<" r) by done.
  clearbody st0.
  assert (Hlex : PyxmLexer.tokenize_loop fuel st0 = None); [|by rewrite Hlex].
  destruct t as [|c t].
  - apply tokenize_loop_stuck; by rewrite Hr.
  - pose proof (pos_ltb st0 c (t +:+ String "<" r) Hr) as Hlt.
    destruct fuel as [|fuel]; cbn [PyxmLexer.tokenize_loop]; rewrite Hlt; [done|].
    rewrite (next_token_text _ _ _ Hr) by (try done; by right).
    destruct (advance_app _ _ _ Hr) as (Hrest & _).
    apply tokenize_loop_stuck; unfold PyxmLexer.rest in *;
      cbn [PyxmLexer._add_token PyxmLexer.source PyxmLexer.pos]; by rewrite Hrest.
Qed.

Lemma markup_never_parses_witness :
  PyxmParser.parse 1000 "Hello <b>world</b>" PyxmParser.init = PyxmParser.OutOfFuel.
Proof.
  exact (markup_never_parses 1000 "Hello " "b>world</b>" PyxmParser.init
           eq_refl eq_refl eq_refl eq_refl eq_refl).
Defined.


(** ** Lexer: expression, statement and comment regions *)

Lemma advance1_tokens st toks :
  PyxmLexer.advance1
    (PyxmLexer.mk (PyxmLexer.source st) (PyxmLexer.pos st) (PyxmLexer.line st)
       (PyxmLexer.column st) toks)
  = PyxmLexer.mk (PyxmLexer.source (PyxmLexer.advance1 st))
      (PyxmLexer.pos (PyxmLexer.advance1 st)) (PyxmLexer.line (PyxmLexer.advance1 st))
      (PyxmLexer.column (PyxmLexer.advance1 st)) toks.
Proof.
  unfold PyxmLexer.advance1, PyxmLexer.len_source.
  cbn [PyxmLexer.source PyxmLexer.pos PyxmLexer.line PyxmLexer.column PyxmLexer.tokens].
  destruct (PyxmLexer.pos st <? String.length (PyxmLexer.source st))%nat; [|done].
  destruct (PyStr.drop (PyxmLexer.pos st) (PyxmLexer.source st)) as [|c r]; [done|].
  by destruct (PyStr.eqb_ascii c "010").
Qed.

(** What [_advance] does to the position does not depend on the tokens
    collected so far, and it leaves them alone. *)
Lemma advance_tokens n : ∀ st toks,
  PyxmLexer._advance n
    (PyxmLexer.mk (PyxmLexer.source st) (PyxmLexer.pos st) (PyxmLexer.line st)
       (PyxmLexer.column st) toks)
  = PyxmLexer.mk (PyxmLexer.source (PyxmLexer._advance n st))
      (PyxmLexer.pos (PyxmLexer._advance n st)) (PyxmLexer.line (PyxmLexer._advance n st))
      (PyxmLexer.column (PyxmLexer._advance n st)) toks.
Proof.
  induction n as [|n IH]; intros st toks; [done|].
  rewrite !advance_S, advance1_tokens. apply IH.
Qed.

Lemma advance_add n st : 
  PyxmLexer._advance (S n) st = PyxmLexer.advance1 (PyxmLexer._advance n st).
Proof. done. Qed.

Lemma advance_plus n m st :
  PyxmLexer._advance (n + m) st = PyxmLexer._advance m (PyxmLexer._advance n st).
Proof.
  revert st. induction n as [|n IH]; intros st; [done|].
  cbn [Nat.add]. rewrite !advance_S. apply IH.
Qed.

Lemma startswith2_closer a b c t tail :
  PyStr.startswith (String a (String b "")) (String c t) = false →
  tail = EmptyString ∨ PyStr.startswith (String a (String b "")) tail = true →
  a ≠ b →
  PyStr.startswith (String a (String b "")) (String c (t +:+ tail)) = false.
Proof.
  intros H Htail Hab. destruct t as [|d t]; [|exact H].
  change (EmptyString +:+ tail) with tail.
  destruct Htail as [-> | Hlt]; [exact H|].
  destruct tail as [|x tail]; [done|].
  cbn [PyStr.startswith] in Hlt |- *.
  apply andb_true_iff in Hlt as [Hax _].
  unfold PyStr.eqb_ascii in *. apply Ascii.eqb_eq in Hax. subst x.
  rewrite (proj2 (Ascii.eqb_neq b a)) by congruence. by rewrite andb_false_r.
Qed.

(** The scan for a two-character closer runs over a stretch that does
    not hold it, provided the text ends there or the closer follows. *)
Lemma until_loop_run a b body : ∀ st tail fuel,
  PyxmLexer.rest st = body +:+ tail →
  PyStr.contains (String a (String b "")) body = false → a ≠ b →
  tail = EmptyString ∨ PyStr.startswith (String a (String b "")) tail = true →
  (String.length body < fuel)%nat →
  PyxmLexer.until_loop fuel (String a (String b "")) st
  = PyxmLexer._advance (String.length body) st.
Proof.
  induction body as [|c t IH]; intros st tail fuel Hr Hc Hab Htail Hfuel;
    (destruct fuel as [|fuel]; [cbn in Hfuel; lia|]); cbn [PyxmLexer.until_loop].
  - change (EmptyString +:+ tail) with tail in Hr. destruct Htail as [-> | Hlt].
    + by rewrite (pos_ltb_end _ Hr).
    + destruct tail as [|x tail]; [done|].
      rewrite (pos_ltb _ _ _ Hr), peek2_rest, eqb_take2, Hr, Hlt. done.
  - change (String c t +:+ tail) with (String c (t +:+ tail)) in Hr.
    rewrite (pos_ltb _ _ _ Hr), peek2_rest, eqb_take2, Hr.
    apply pycontains_cons in Hc as [S1 Hc].
    rewrite (startswith2_closer _ _ _ _ tail S1 Htail Hab).
    change (PyxmLexer._advance 1 st) with (PyxmLexer.advance1 st).
    cbn [String.length]. rewrite advance_S.
    destruct (advance1_rest st c (t +:+ tail) Hr) as (A1 & _).
    apply (IH _ tail); try assumption. cbn in Hfuel. lia.
Qed.

Lemma advance_at_closer st a b tail :
  PyxmLexer.rest st = tail →
  tail = EmptyString ∨ PyStr.startswith (String a (String b "")) tail = true →
  PyxmLexer.rest (PyxmLexer._advance 2 st) = PyStr.drop 2 tail.
Proof.
  intros Hr [-> | Hs].
  - by rewrite (advance_end 2 st Hr).
  - destruct tail as [|x [|y tail]]; try done.
    + cbn [PyStr.startswith] in Hs. by rewrite andb_false_r in Hs.
    + by destruct (advance_app (String x (String y "")) st tail Hr) as (H & _).
Qed.

Lemma advance_same_tokens n st :
  PyxmLexer.tokens (PyxmLexer._advance n st) = PyxmLexer.tokens st.
Proof.
  revert st. induction n as [|n IH]; intros st; [done|].
  rewrite advance_S, IH. unfold PyxmLexer.advance1.
  destruct (PyxmLexer.pos st <? PyxmLexer.len_source st)%nat; [|done].
  destruct (PyStr.drop (PyxmLexer.pos st) (PyxmLexer.source st)) as [|c r]; [done|].
  by destruct (PyStr.eqb_ascii c "010").
Qed.

(** A token added before [_advance] does not change where it goes. *)
Lemma advance_add_token n ty v st :
  let e := PyxmLexer._advance n st in
  let r := PyxmLexer._advance n (PyxmLexer._add_token ty v st) in
  PyxmLexer.source r = PyxmLexer.source e ∧ PyxmLexer.pos r = PyxmLexer.pos e ∧
  PyxmLexer.line r = PyxmLexer.line e ∧ PyxmLexer.column r = PyxmLexer.column e ∧
  PyxmLexer.rest r = PyxmLexer.rest e.
Proof.
  cbv zeta. unfold PyxmLexer._add_token. rewrite advance_tokens. done.
Qed.

(** The end of [_tokenize_expression], [_tokenize_statement] and
    [_tokenize_comment]: after the opener and a scan that stopped behind
    [body], the content token and the closing token are added and two
    characters are skipped. *)
Lemma region_finish open_ty content_ty close_ty o1 o2 closer a b
    (f : string → string) st body tail :
  PyxmLexer.rest st = String o1 (String o2 "") +:+ body +:+ tail →
  tail = EmptyString ∨ PyStr.startswith (String a (String b "")) tail = true →
  let st2 := PyxmLexer._advance 2
               (PyxmLexer._add_token open_ty (String o1 (String o2 "")) st) in
  let st3 := PyxmLexer._advance (String.length body) st2 in
  let e := PyxmLexer._advance (2 + String.length body) st in
  let r := PyxmLexer._advance 2
             (PyxmLexer._add_token close_ty closer
                (PyxmLexer._add_token content_ty
                   (f (PyStr.slice (PyxmLexer.pos st2) (PyxmLexer.pos st3)
                         (PyxmLexer.source st3))) st3)) in
  PyxmLexer.rest st2 = body +:+ tail ∧
  PyxmLexer.tokens r
  = PyxmLexer.tokens st ++
      [mkToken open_ty (String o1 (String o2 "")) (PyxmLexer.line st) (PyxmLexer.column st);
       mkToken content_ty (f body) (PyxmLexer.line e) (PyxmLexer.column e);
       mkToken close_ty closer (PyxmLexer.line e) (PyxmLexer.column e)]
  ∧ PyxmLexer.rest r = PyStr.drop 2 tail
  ∧ (tail = EmptyString →
     PyxmLexer.line r = PyxmLexer.line e ∧ PyxmLexer.column r = PyxmLexer.column e).
Proof.
  intros Hr Htail. cbv zeta.
  set (opener := String o1 (String o2 "")) in *.
  destruct (advance_app opener st (body +:+ tail) Hr) as (R2 & _).
  change (String.length opener) with 2%nat in R2.
  destruct (advance_add_token 2 open_ty opener st) as (_ & _ & L2 & C2 & R2').
  pose proof (advance_same_tokens 2 (PyxmLexer._add_token open_ty opener st)) as T2.
  assert (He : PyxmLexer.line (PyxmLexer._advance (String.length body)
                 (PyxmLexer._advance 2 (PyxmLexer._add_token open_ty opener st)))
               = PyxmLexer.line (PyxmLexer._advance (2 + String.length body) st) ∧
               PyxmLexer.column (PyxmLexer._advance (String.length body)
                 (PyxmLexer._advance 2 (PyxmLexer._add_token open_ty opener st)))
               = PyxmLexer.column (PyxmLexer._advance (2 + String.length body) st)).
  { rewrite advance_plus.
    destruct (advance_add_token 2 open_ty opener st) as (A1 & A2 & A3 & A4 & _).
    set (x := PyxmLexer._advance 2 (PyxmLexer._add_token open_ty opener st)) in *.
    set (y := PyxmLexer._advance 2 st) in *.
    replace x with (PyxmLexer.mk (PyxmLexer.source y) (PyxmLexer.pos y)
                      (PyxmLexer.line y) (PyxmLexer.column y) (PyxmLexer.tokens x))
      by (destruct x; cbn in *; congruence).
    by rewrite advance_tokens. }
  destruct He as [Hl Hcol].
  set (st2 := PyxmLexer._advance 2 (PyxmLexer._add_token open_ty opener st)) in *.
  assert (Hr2 : PyxmLexer.rest st2 = body +:+ tail) by (by rewrite R2').
  destruct (advance_app body st2 tail Hr2) as (R3 & S3 & P3 & T3).
  set (st3 := PyxmLexer._advance (String.length body) st2) in *.
  rewrite P3, S3, (slice_rest st2 body tail Hr2). split; [done|]. split.
  - rewrite advance_same_tokens. unfold PyxmLexer._add_token at 1 2.
    cbn [PyxmLexer.tokens PyxmLexer.line PyxmLexer.column].
    rewrite T3, T2, Hl, Hcol. unfold PyxmLexer._add_token.
    cbn [PyxmLexer.tokens]. by rewrite <- !app_assoc.
  - destruct (advance_add_token 2 close_ty closer
               (PyxmLexer._add_token content_ty (f body) st3))
      as (_ & _ & _ & _ & Hrr). rewrite Hrr.
    destruct (advance_add_token 2 content_ty (f body) st3)
      as (_ & _ & _ & _ & ->).
    split; [exact (advance_at_closer st3 a b tail R3 Htail)|].
    intros ->. rewrite advance_end by exact R3. by rewrite <- Hl, <- Hcol.
Qed.

Lemma region_fuel st2 body tail :
  PyxmLexer.rest st2 = body +:+ tail →
  (String.length body < PyxmLexer.len_source st2 + 1)%nat.
Proof.
  intros Hr2. pose proof (rest_length st2) as Hl.
  rewrite Hr2, str_length_app in Hl. lia.
Qed.

(** [_tokenize_statement] on a statement region, closed or cut short by
    the end of the text. *)
Lemma tokenize_statement_run st body tail :
  PyxmLexer.rest st = "{%" +:+ body +:+ tail →
  PyStr.contains "%}" body = false →
  tail = EmptyString ∨ PyStr.startswith "%}" tail = true →
  let e := PyxmLexer._advance (2 + String.length body) st in
  PyxmLexer.tokens (PyxmLexer._tokenize_statement st)
  = PyxmLexer.tokens st ++
      [mkToken STMT_OPEN "{%" (PyxmLexer.line st) (PyxmLexer.column st);
       mkToken STMT_CONTENT (PyStr.strip body) (PyxmLexer.line e) (PyxmLexer.column e);
       mkToken STMT_CLOSE "%}" (PyxmLexer.line e) (PyxmLexer.column e)]
  ∧ PyxmLexer.rest (PyxmLexer._tokenize_statement st) = PyStr.drop 2 tail
  ∧ (tail = EmptyString →
     PyxmLexer.line (PyxmLexer._tokenize_statement st) = PyxmLexer.line e ∧
     PyxmLexer.column (PyxmLexer._tokenize_statement st) = PyxmLexer.column e).
Proof.
  intros Hr Hc Htail e.
  destruct (region_finish STMT_OPEN STMT_CONTENT STMT_CLOSE "{" "%" "%}" "%" "}"
              PyStr.strip st body tail Hr Htail) as (Hr2 & Ht & Hrest & Hend).
  unfold PyxmLexer._tokenize_statement. cbv zeta.
  rewrite (until_loop_run "%" "}" body _ tail _ Hr2 Hc ltac:(done) Htail
             (region_fuel _ _ _ Hr2)).
  done.
Qed.

(** [_tokenize_comment] on a comment region, closed or cut short by the
    end of the text. *)
Lemma tokenize_comment_run st body tail :
  PyxmLexer.rest st = "{#" +:+ body +:+ tail →
  PyStr.contains "#}" body = false →
  tail = EmptyString ∨ PyStr.startswith "#}" tail = true →
  let e := PyxmLexer._advance (2 + String.length body) st in
  PyxmLexer.tokens (PyxmLexer._tokenize_comment st)
  = PyxmLexer.tokens st ++
      [mkToken COMMENT_OPEN "{#" (PyxmLexer.line st) (PyxmLexer.column st);
       mkToken COMMENT_CONTENT body (PyxmLexer.line e) (PyxmLexer.column e);
       mkToken COMMENT_CLOSE "#}" (PyxmLexer.line e) (PyxmLexer.column e)]
  ∧ PyxmLexer.rest (PyxmLexer._tokenize_comment st) = PyStr.drop 2 tail
  ∧ (tail = EmptyString →
     PyxmLexer.line (PyxmLexer._tokenize_comment st) = PyxmLexer.line e ∧
     PyxmLexer.column (PyxmLexer._tokenize_comment st) = PyxmLexer.column e).
Proof.
  intros Hr Hc Htail e.
  destruct (region_finish COMMENT_OPEN COMMENT_CONTENT COMMENT_CLOSE "{" "#" "#}" "#" "}"
              (λ x, x) st body tail Hr Htail) as (Hr2 & Ht & Hrest & Hend).
  unfold PyxmLexer._tokenize_comment. cbv zeta.
  rewrite (until_loop_run "#" "}" body _ tail _ Hr2 Hc ltac:(done) Htail
             (region_fuel _ _ _ Hr2)).
  done.
Qed.

Lemma startswith2_next a b c t tail :
  PyStr.startswith (String a (String b "")) (String c t) = false →
  tail = EmptyString ∨ (∃ x r, tail = String x r ∧ x ≠ b) →
  PyStr.startswith (String a (String b "")) (String c (t +:+ tail)) = false.
Proof.
  intros H Htail. destruct t as [|d t]; [|exact H].
  change (EmptyString +:+ tail) with tail.
  destruct Htail as [-> | (x & r & -> & Hx)]; [exact H|].
  cbn [PyStr.startswith]. unfold PyStr.eqb_ascii at 2.
  rewrite (proj2 (Ascii.eqb_neq b x)) by congruence. by rewrite andb_false_r.
Qed.

Lemma startswith2_same a c t tail :
  PyStr.startswith (String a (String a "")) (String c (t +:+ String a "")) = false →
  PyStr.startswith (String a (String a "")) (String c (t +:+ tail)) = false.
Proof.
  destruct t as [|d t]; [|done].
  change (EmptyString +:+ tail) with tail.
  change (EmptyString +:+ String a "") with (String a "").
  cbn [PyStr.startswith]. unfold PyStr.eqb_ascii.
  rewrite Ascii.eqb_refl. cbn [andb]. rewrite andb_true_r. by intros ->.
Qed.

(** The scan of [_tokenize_expression], at depth one, over a stretch
    with no double brace in it. *)
Lemma expression_loop_run body : ∀ st tail fuel,
  PyxmLexer.rest st = body +:+ tail →
  PyStr.contains "{{" body = false →
  (tail = EmptyString ∧ PyStr.contains "}}" body = false) ∨
  (PyStr.startswith "}}" tail = true ∧ PyStr.contains "}}" (body +:+ "}") = false) →
  (String.length body < fuel)%nat →
  PyxmLexer.expression_loop fuel 1 st = PyxmLexer._advance (String.length body) st.
Proof.
  induction body as [|c t IH]; intros st tail fuel Hr Ho Htail Hfuel;
    (destruct fuel as [|fuel]; [cbn in Hfuel; lia|]); cbn [PyxmLexer.expression_loop].
  - change (EmptyString +:+ tail) with tail in Hr.
    destruct Htail as [[-> _] | [Hs _]].
    + by rewrite (pos_ltb_end _ Hr).
    + destruct tail as [|x tail]; [done|].
      rewrite (pos_ltb _ _ _ Hr), peek2_rest, !eqb_take2, Hr, Hs.
      cbn [PyStr.startswith] in Hs |- *. apply andb_true_iff in Hs as [Hx _].
      unfold PyStr.eqb_ascii in Hx. apply Ascii.eqb_eq in Hx. subst x.
      change (PyStr.eqb_ascii "{" "}") with false. cbn.
      destruct fuel; [done|]. cbn [PyxmLexer.expression_loop].
      change (0 <? 0)%nat with false. by rewrite andb_false_r.
  - change (String c t +:+ tail) with (String c (t +:+ tail)) in Hr.
    rewrite (pos_ltb _ _ _ Hr), peek2_rest, !eqb_take2, Hr.
    apply pycontains_cons in Ho as [S1 Ho].
    assert (Hopen : PyStr.startswith "{{" (String c (t +:+ tail)) = false).
    { apply startswith2_next; [exact S1|].
      destruct Htail as [[-> _] | [Hs _]]; [by left|right].
      destruct tail as [|x r]; [done|]. exists x, r. split; [done|].
      cbn [PyStr.startswith] in Hs. apply andb_true_iff in Hs as [Hx _].
      unfold PyStr.eqb_ascii in Hx. apply Ascii.eqb_eq in Hx. by subst x. }
    assert (Hclose : PyStr.startswith "}}" (String c (t +:+ tail)) = false
                     ∧ ((tail = EmptyString ∧ PyStr.contains "}}" t = false) ∨
                        (PyStr.startswith "}}" tail = true
                         ∧ PyStr.contains "}}" (t +:+ "}") = false))).
    { destruct Htail as [[-> Hc] | [Hs Hc]].
      - apply pycontains_cons in Hc as [S2 Hc]. split; [|by left].
        by rewrite str_app_empty_r.
      - change (String c t +:+ "}") with (String c (t +:+ "}")) in Hc.
        apply pycontains_cons in Hc as [S2 Hc]. split; [|by right].
        by apply startswith2_same. }
    destruct Hclose as [Hclose Htail'].
    rewrite Hopen, Hclose. cbn [andb Nat.ltb Nat.leb].
    change (PyxmLexer._advance 1 st) with (PyxmLexer.advance1 st).
    cbn [String.length]. rewrite advance_S.
    destruct (advance1_rest st c (t +:+ tail) Hr) as (A1 & _).
    apply (IH _ tail); try assumption. cbn in Hfuel. lia.
Qed.

(** [_tokenize_expression] on an expression region without nested
    double braces, closed or cut short by the end of the text. *)
Lemma tokenize_expression_run st body tail :
  PyxmLexer.rest st = "{{" +:+ body +:+ tail →
  PyStr.contains "{{" body = false →
  (tail = EmptyString ∧ PyStr.contains "}}" body = false) ∨
  (PyStr.startswith "}}" tail = true ∧ PyStr.contains "}}" (body +:+ "}") = false) →
  let e := PyxmLexer._advance (2 + String.length body) st in
  PyxmLexer.tokens (PyxmLexer._tokenize_expression st)
  = PyxmLexer.tokens st ++
      [mkToken EXPR_OPEN "{{" (PyxmLexer.line st) (PyxmLexer.column st);
       mkToken EXPR_CONTENT (PyStr.strip body) (PyxmLexer.line e) (PyxmLexer.column e);
       mkToken EXPR_CLOSE "}}" (PyxmLexer.line e) (PyxmLexer.column e)]
  ∧ PyxmLexer.rest (PyxmLexer._tokenize_expression st) = PyStr.drop 2 tail
  ∧ (tail = EmptyString →
     PyxmLexer.line (PyxmLexer._tokenize_expression st) = PyxmLexer.line e ∧
     PyxmLexer.column (PyxmLexer._tokenize_expression st) = PyxmLexer.column e).
Proof.
  intros Hr Ho Htail e.
  assert (Htail' : tail = EmptyString ∨ PyStr.startswith "}}" tail = true)
    by (destruct Htail as [[-> _]|[? _]]; [by left|by right]).
  destruct (region_finish EXPR_OPEN EXPR_CONTENT EXPR_CLOSE "{" "{" "}}" "}" "}"
              PyStr.strip st body tail Hr Htail') as (Hr2 & Ht & Hrest & Hend).
  unfold PyxmLexer._tokenize_expression. cbv zeta.
  rewrite (expression_loop_run body _ tail _ Hr2 Ho Htail)
    by (pose proof (region_fuel _ _ _ Hr2); lia).
  done.
Qed.

Lemma next_token_expression st r :
  PyxmLexer.rest st = "{{" +:+ r →
  PyxmLexer._next_token st = PyxmLexer._tokenize_expression st.
Proof. intros Hr. unfold PyxmLexer._next_token, PyxmLexer._match_pattern. by rewrite Hr. Qed.

Lemma next_token_statement st r :
  PyxmLexer.rest st = "{%" +:+ r →
  PyxmLexer._next_token st = PyxmLexer._tokenize_statement st.
Proof. intros Hr. unfold PyxmLexer._next_token, PyxmLexer._match_pattern. by rewrite Hr. Qed.

Lemma next_token_comment st r :
  PyxmLexer.rest st = "{#" +:+ r →
  PyxmLexer._next_token st = PyxmLexer._tokenize_comment st.
Proof. intros Hr. unfold PyxmLexer._next_token, PyxmLexer._match_pattern. by rewrite Hr. Qed.

Lemma init_end_position s :
  let e := PyxmLexer._advance (String.length s) (PyxmLexer.init s) in
  let parts := PyStr.split "010" s in
  PyxmLexer.line e = length parts ∧
  PyxmLexer.column e = S (String.length (default EmptyString (last parts))).
Proof.
  assert (Hr : PyxmLexer.rest (PyxmLexer.init s) = s +:+ EmptyString)
    by (by rewrite str_app_empty_r).
  destruct (advance_position s _ _ Hr) as [Hl Hc]. cbv zeta. rewrite Hl, Hc.
  destruct (pysplit_nonempty "010" s) as (p & ps & Hp). rewrite Hp.
  cbn [PyxmLexer.line PyxmLexer.column PyxmLexer.init length].
  split; [lia|]. destruct ps as [|q qs]; [|done].
  cbn [last default]. by rewrite (pysplit_single _ _ _ Hp).
Qed.

Lemma tokenize_loop_end fuel st :
  PyxmLexer.rest st = EmptyString → PyxmLexer.tokenize_loop fuel st = Some st.
Proof.
  intros Hr. destruct fuel; cbn [PyxmLexer.tokenize_loop]; by rewrite (pos_ltb_end _ Hr).
Qed.

(** X10: on a statement region, [{%], a body without [%}], then [%}] or
    the end of the text, [_next_token] adds exactly STMT_OPEN (stamped
    where the region starts), STMT_CONTENT with the stripped body and
    STMT_CLOSE (both stamped where the body ends), and lexing resumes
    right behind the closer. When the text ends first, the STMT_CLOSE
    token is added all the same. *)
Theorem statement_region_lexes (st : PyxmLexer.t) (body tail : string) :
  PyxmLexer.rest st = "{%" +:+ body +:+ tail →
  PyStr.contains "%}" body = false →
  tail = EmptyString ∨ PyStr.startswith "%}" tail = true →
  let e := PyxmLexer._advance (2 + String.length body) st in
  PyxmLexer.tokens (PyxmLexer._next_token st)
  = PyxmLexer.tokens st ++
      [mkToken STMT_OPEN "{%" (PyxmLexer.line st) (PyxmLexer.column st);
       mkToken STMT_CONTENT (PyStr.strip body) (PyxmLexer.line e) (PyxmLexer.column e);
       mkToken STMT_CLOSE "%}" (PyxmLexer.line e) (PyxmLexer.column e)]
  ∧ PyxmLexer.rest (PyxmLexer._next_token st) = PyStr.drop 2 tail.
Proof.
  intros Hr Hc Htail e. rewrite (next_token_statement st _ Hr).
  destruct (tokenize_statement_run st body tail Hr Hc Htail) as (H1 & H2 & _).
  by split.
Qed.

Lemma statement_region_lexes_witness :
  let st := PyxmLexer.init "{% if a %}x" in
  PyxmLexer.tokens (PyxmLexer._next_token st)
  = [mkToken STMT_OPEN "{%" 1 1; mkToken STMT_CONTENT "if a" 1 9;
     mkToken STMT_CLOSE "%}" 1 9]
  ∧ PyxmLexer.rest (PyxmLexer._next_token st) = "x".
Proof.
  exact (statement_region_lexes (PyxmLexer.init "{% if a %}x") " if a " "%}x"
           eq_refl eq_refl (or_intror eq_refl)).
Defined.

(** X11: on a comment region, [{#], a body without [#}], then [#}] or
    the end of the text, [_next_token] adds COMMENT_OPEN, COMMENT_CONTENT
    with the body as written (not stripped) and COMMENT_CLOSE, and lexing
    resumes right behind the closer. *)
Theorem comment_region_lexes (st : PyxmLexer.t) (body tail : string) :
  PyxmLexer.rest st = "{#" +:+ body +:+ tail →
  PyStr.contains "#}" body = false →
  tail = EmptyString ∨ PyStr.startswith "#}" tail = true →
  let e := PyxmLexer._advance (2 + String.length body) st in
  PyxmLexer.tokens (PyxmLexer._next_token st)
  = PyxmLexer.tokens st ++
      [mkToken COMMENT_OPEN "{#" (PyxmLexer.line st) (PyxmLexer.column st);
       mkToken COMMENT_CONTENT body (PyxmLexer.line e) (PyxmLexer.column e);
       mkToken COMMENT_CLOSE "#}" (PyxmLexer.line e) (PyxmLexer.column e)]
  ∧ PyxmLexer.rest (PyxmLexer._next_token st) = PyStr.drop 2 tail.
Proof.
  intros Hr Hc Htail e. rewrite (next_token_comment st _ Hr).
  destruct (tokenize_comment_run st body tail Hr Hc Htail) as (H1 & H2 & _).
  by split.
Qed.

Lemma comment_region_lexes_witness :
  let st := PyxmLexer.init "{# a #}x" in
  PyxmLexer.tokens (PyxmLexer._next_token st)
  = [mkToken COMMENT_OPEN "{#" 1 1; mkToken COMMENT_CONTENT " a " 1 6;
     mkToken COMMENT_CLOSE "#}" 1 6]
  ∧ PyxmLexer.rest (PyxmLexer._next_token st) = "x".
Proof.
  exact (comment_region_lexes (PyxmLexer.init "{# a #}x") " a " "#}x"
           eq_refl eq_refl (or_intror eq_refl)).
Defined.

(** X12: on an expression region whose body holds no double brace (and
    does not end with a closing brace when the closer follows),
    [_next_token] adds EXPR_OPEN, EXPR_CONTENT with the stripped body and
    EXPR_CLOSE, and lexing resumes right behind the closer. *)
Theorem expression_region_lexes (st : PyxmLexer.t) (body tail : string) :
  PyxmLexer.rest st = "{{" +:+ body +:+ tail →
  PyStr.contains "{{" body = false →
  (tail = EmptyString ∧ PyStr.contains "}}" body = false) ∨
  (PyStr.startswith "}}" tail = true ∧ PyStr.contains "}}" (body +:+ "}") = false) →
  let e := PyxmLexer._advance (2 + String.length body) st in
  PyxmLexer.tokens (PyxmLexer._next_token st)
  = PyxmLexer.tokens st ++
      [mkToken EXPR_OPEN "{{" (PyxmLexer.line st) (PyxmLexer.column st);
       mkToken EXPR_CONTENT (PyStr.strip body) (PyxmLexer.line e) (PyxmLexer.column e);
       mkToken EXPR_CLOSE "}}" (PyxmLexer.line e) (PyxmLexer.column e)]
  ∧ PyxmLexer.rest (PyxmLexer._next_token st) = PyStr.drop 2 tail.
Proof.
  intros Hr Ho Htail e. rewrite (next_token_expression st _ Hr).
  destruct (tokenize_expression_run st body tail Hr Ho Htail) as (H1 & H2 & _).
  by split.
Qed.

Lemma expression_region_lexes_witness :
  let st := PyxmLexer.init "{{ d['k'] }}x" in
  PyxmLexer.tokens (PyxmLexer._next_token st)
  = [mkToken EXPR_OPEN "{{" 1 1; mkToken EXPR_CONTENT "d['k']" 1 11;
     mkToken EXPR_CLOSE "}}" 1 11]
  ∧ PyxmLexer.rest (PyxmLexer._next_token st) = "x".
Proof.
  exact (expression_region_lexes (PyxmLexer.init "{{ d['k'] }}x") " d['k'] " "}}x"
           eq_refl eq_refl (or_intror (conj eq_refl eq_refl))).
Defined.

(** X13: an opener that is never closed raises nothing. A source made
    of [{%], [{#] or [{{] and a body without the matching closer lexes,
    with any fuel above zero, to the opening token, the content token,
    a closing token that is not in the source, and EOF; the last three
    carry the end position of the source. *)
Theorem unterminated_region_lexes_without_error (fuel : nat) (body : string) :
  let eof (s : string) :=
    let parts := PyStr.split "010" s in
    (length parts, S (String.length (default EmptyString (last parts)))) in
  (PyStr.contains "%}" body = false →
   PyxmLexer.tokenize (S fuel) (PyxmLexer.init ("{%" +:+ body))
   = Some [mkToken STMT_OPEN "{%" 1 1;
           mkToken STMT_CONTENT (PyStr.strip body) (eof ("{%" +:+ body)).1 (eof ("{%" +:+ body)).2;
           mkToken STMT_CLOSE "%}" (eof ("{%" +:+ body)).1 (eof ("{%" +:+ body)).2;
           mkToken EOF "" (eof ("{%" +:+ body)).1 (eof ("{%" +:+ body)).2]) ∧
  (PyStr.contains "#}" body = false →
   PyxmLexer.tokenize (S fuel) (PyxmLexer.init ("{#" +:+ body))
   = Some [mkToken COMMENT_OPEN "{#" 1 1;
           mkToken COMMENT_CONTENT body (eof ("{#" +:+ body)).1 (eof ("{#" +:+ body)).2;
           mkToken COMMENT_CLOSE "#}" (eof ("{#" +:+ body)).1 (eof ("{#" +:+ body)).2;
           mkToken EOF "" (eof ("{#" +:+ body)).1 (eof ("{#" +:+ body)).2]) ∧
  (PyStr.contains "{{" body = false → PyStr.contains "}}" body = false →
   PyxmLexer.tokenize (S fuel) (PyxmLexer.init ("{{" +:+ body))
   = Some [mkToken EXPR_OPEN "{{" 1 1;
           mkToken EXPR_CONTENT (PyStr.strip body) (eof ("{{" +:+ body)).1 (eof ("{{" +:+ body)).2;
           mkToken EXPR_CLOSE "}}" (eof ("{{" +:+ body)).1 (eof ("{{" +:+ body)).2;
           mkToken EOF "" (eof ("{{" +:+ body)).1 (eof ("{{" +:+ body)).2]).
Proof.
  intros eof.
  assert (Hgen : ∀ o1 o2 ty1 ty2 ty3 closer f,
    let s := String o1 (String o2 "") +:+ body in
    let st := PyxmLexer.init s in
    let e := PyxmLexer._advance (2 + String.length body) st in
    (PyxmLexer.tokens (PyxmLexer._next_token st)
     = PyxmLexer.tokens st ++
         [mkToken ty1 (String o1 (String o2 "")) (PyxmLexer.line st) (PyxmLexer.column st);
          mkToken ty2 (f body) (PyxmLexer.line e) (PyxmLexer.column e);
          mkToken ty3 closer (PyxmLexer.line e) (PyxmLexer.column e)]
     ∧ PyxmLexer.rest (PyxmLexer._next_token st) = EmptyString
     ∧ PyxmLexer.line (PyxmLexer._next_token st) = PyxmLexer.line e
     ∧ PyxmLexer.column (PyxmLexer._next_token st) = PyxmLexer.column e) →
    PyxmLexer.tokenize (S fuel) st
    = Some [mkToken ty1 (String o1 (String o2 "")) 1 1;
            mkToken ty2 (f body) (eof s).1 (eof s).2;
            mkToken ty3 closer (eof s).1 (eof s).2;
            mkToken EOF "" (eof s).1 (eof s).2]).
  { intros o1 o2 ty1 ty2 ty3 closer f s st e (Ht & Hrest & Hl & Hc).
    destruct (init_end_position s) as [El Ec]. fold st in El, Ec.
    change (String.length s) with (2 + String.length body)%nat in El, Ec.
    fold e in El, Ec.
    unfold PyxmLexer.tokenize. cbn [PyxmLexer.tokenize_loop].
    change (PyxmLexer.pos st <? PyxmLexer.len_source st)%nat with true. cbv iota.
    rewrite (tokenize_loop_end fuel _ Hrest).
    unfold PyxmLexer._add_token. cbn [PyxmLexer.tokens].
    rewrite Ht, Hl, Hc, El, Ec. reflexivity. }
  assert (Hr : ∀ o, PyxmLexer.rest (PyxmLexer.init (o +:+ body)) = o +:+ body +:+ EmptyString)
    by (intros o; by rewrite str_app_empty_r).
  split; [|split].
  - intros Hc. apply (Hgen "{"%char "%"%char STMT_OPEN STMT_CONTENT STMT_CLOSE "%}" PyStr.strip).
    rewrite (next_token_statement _ _ (Hr "{%")).
    destruct (tokenize_statement_run _ body EmptyString (Hr "{%") Hc (or_introl eq_refl))
      as (H1 & H2 & H3). destruct (H3 eq_refl). done.
  - intros Hc. apply (Hgen "{"%char "#"%char COMMENT_OPEN COMMENT_CONTENT COMMENT_CLOSE "#}" (λ x, x)).
    rewrite (next_token_comment _ _ (Hr "{#")).
    destruct (tokenize_comment_run _ body EmptyString (Hr "{#") Hc (or_introl eq_refl))
      as (H1 & H2 & H3). destruct (H3 eq_refl). done.
  - intros Ho Hc. apply (Hgen "{"%char "{"%char EXPR_OPEN EXPR_CONTENT EXPR_CLOSE "}}" PyStr.strip).
    rewrite (next_token_expression _ _ (Hr "{{")).
    destruct (tokenize_expression_run _ body EmptyString (Hr "{{") Ho
                (or_introl (conj eq_refl Hc)))
      as (H1 & H2 & H3). destruct (H3 eq_refl). done.
Qed.

Lemma unterminated_region_lexes_without_error_witness :
  PyxmLexer.tokenize 1 (PyxmLexer.init "{% if user")
  = Some [mkToken STMT_OPEN "{%" 1 1; mkToken STMT_CONTENT "if user" 1 11;
          mkToken STMT_CLOSE "%}" 1 11; mkToken EOF "" 1 11].
Proof.
  exact (proj1 (unterminated_region_lexes_without_error 0 " if user") eq_refl).
Defined.

(** ** Parser: block keywords out of place *)

Section ParserStalls.
Import PyxmParser.
Lemma in_parent_keywords content :
  in_list content parent_keywords = true →
  content = "endif" ∨ content = "endfor" ∨ content = "endcomponent" ∨
  content = "endblock" ∨ content = "endraw" ∨ content = "else" ∨ content = "elif".
Proof.
  unfold in_list, parent_keywords. cbn [existsb]. rewrite orb_false_r, !orb_true_iff.
  rewrite !String.eqb_eq. tauto.
Qed.

Lemma mk_eta (st : PyxmParser.t) : mk (tokens st) (pos st) (ast st) = st.
Proof. by destruct st. Qed.

Section Dangling.
Context (st : PyxmParser.t) (t0 t1 t2 : Token).
Hypothesis H0 : tokens st !! pos st = Some t0.
Hypothesis Ht0 : tok_type t0 = STMT_OPEN.
Hypothesis H1 : tokens st !! S (pos st) = Some t1.
Hypothesis Ht1 : tok_type t1 = STMT_CONTENT.
Hypothesis H2 : tokens st !! S (S (pos st)) = Some t2.
Hypothesis Ht2 : tok_type t2 = STMT_CLOSE.
Hypothesis Hkw : in_list (PyStr.strip (tok_value t1)) parent_keywords = true.

Lemma parse_statement_parent_keyword fuel :
  _parse_statement (S fuel) st = Done None st.
Proof using All.
  cbn [_parse_statement].
  rewrite (bind_Done _ _ _ _ _ (expect_Done STMT_OPEN st t0 H0 Ht0)).
  rewrite (bind_Done _ _ _ _ _
             (expect_Done STMT_CONTENT (PyxmParser.mk _ _ _) t1 H1 Ht1)).
  rewrite (bind_Done _ _ _ _ _
             (expect_Done STMT_CLOSE (PyxmParser.mk _ _ _) t2 H2 Ht2)).
  cbv zeta. rewrite Hkw.
  assert (Hno : ∀ p, In p ["if "; "for "; "component "; "block "; "slot"; "raw"] →
                     PyStr.startswith p (PyStr.strip (tok_value t1)) = false).
  { intros p Hp.
    destruct (in_parent_keywords _ Hkw) as [-> | [-> | [-> | [-> | [-> | [-> | ->]]]]]];
      cbn [In] in Hp; intuition (subst; reflexivity). }
  rewrite !Hno by (cbn [In]; tauto).
  cbv beta iota. cbn [tokens pos ast].
  replace (S (S (S (pos st))) - 3)%nat with (pos st) by lia. by rewrite mk_eta.
Qed.

Lemma parse_node_parent_keyword fuel :
  _parse_node fuel st = OutOfFuel ∨ _parse_node fuel st = Done None st.
Proof using All.
  destruct fuel as [|[|fuel]]; [by left| |]; cbn [_parse_node];
    rewrite (bind_Done _ _ _ _ _ (current_Done st t0 H0)), Ht0; cbv iota.
  - by left.
  - right. apply parse_statement_parent_keyword.
Qed.

Lemma parent_keyword_not_at_end : is_at_end_of st = false.
Proof using H0 Ht0.
  unfold is_at_end_of. rewrite (current_of_lookup _ _ H0), Ht0.
  by apply bool_decide_eq_false_2.
Qed.

Lemma peek_parent_keyword : peek_of 1 st = t1.
Proof using H1. unfold peek_of. by rewrite Nat.add_1_r, H1. Qed.

Lemma parse_loop_parent_keyword fuel root blocks :
  parse_loop fuel root blocks st = OutOfFuel.
Proof using All.
  revert root blocks. induction fuel as [|fuel IH]; intros root blocks; [done|].
  cbn [parse_loop].
  rewrite (bind_Done _ _ _ _ _ (is_at_end_false st t0 H0 ltac:(congruence))).
  destruct (parse_node_parent_keyword fuel) as [Hn | Hn].
  - unfold bind. by rewrite Hn.
  - rewrite (bind_Done _ _ _ _ _ Hn). apply IH.
Qed.

Lemma children_until_parent_keyword fuel node end_tags :
  existsb (fun tag => is_end_tag_of tag st) end_tags = false →
  _parse_children_until fuel node end_tags st = OutOfFuel.
Proof using All.
  intros Hend. revert node. induction fuel as [|fuel IH]; intros node; [done|].
  cbn [_parse_children_until]. rewrite parent_keyword_not_at_end, Hend.
  destruct (parse_node_parent_keyword fuel) as [Hn | Hn].
  - unfold bind. by rewrite Hn.
  - rewrite (bind_Done _ _ _ _ _ Hn). apply IH.
Qed.

Lemma if_loop_parent_keyword fuel node :
  PyStr.strip (tok_value t1) ≠ "endif" → PyStr.strip (tok_value t1) ≠ "else" →
  if_loop fuel node st = OutOfFuel.
Proof using All.
  intros Hne1 Hne2.
  assert (E1 : _is_end_tag "endif" st = Done false st).
  { unfold _is_end_tag, is_end_tag_of. rewrite peek_parent_keyword.
    by rewrite (proj2 (String.eqb_neq _ _) Hne1), andb_false_r. }
  assert (E2 : _is_end_tag "else" st = Done false st).
  { unfold _is_end_tag, is_end_tag_of. rewrite peek_parent_keyword.
    by rewrite (proj2 (String.eqb_neq _ _) Hne2), andb_false_r. }
  assert (E3 : _is_elif st = Done false st).
  { unfold _is_elif. rewrite peek_parent_keyword.
    assert (Helif : PyStr.startswith "elif " (PyStr.strip (tok_value t1)) = false)
      by (by destruct (in_parent_keywords _ Hkw)
               as [-> | [-> | [-> | [-> | [-> | [-> | ->]]]]]]).
    by rewrite Helif, andb_false_r. }
  revert node. induction fuel as [|fuel IH]; intros node; [done|].
  cbn [if_loop].
  rewrite (bind_Done _ _ _ _ _ (is_at_end_false st t0 H0 ltac:(congruence))).
  rewrite (bind_Done _ _ _ _ _ E1), (bind_Done _ _ _ _ _ E2), (bind_Done _ _ _ _ _ E3).
  destruct (parse_node_parent_keyword fuel) as [Hn | Hn].
  - unfold bind. by rewrite Hn.
  - rewrite (bind_Done _ _ _ _ _ Hn). apply IH.
Qed.

Lemma element_loop_parent_keyword fuel tag node :
  element_loop fuel tag node st = OutOfFuel.
Proof using All.
  revert node. induction fuel as [|fuel IH]; intros node; [done|].
  cbn [element_loop].
  rewrite (bind_Done _ _ _ _ _ (is_at_end_false st t0 H0 ltac:(congruence))).
  rewrite (bind_Done _ _ _ _ _ (current_Done st t0 H0)), Ht0.
  destruct (decide (STMT_OPEN = TAG_END_OPEN)) as [|_]; [done|].
  destruct (parse_node_parent_keyword fuel) as [Hn | Hn].
  - unfold bind. by rewrite Hn.
  - rewrite (bind_Done _ _ _ _ _ Hn). apply IH.
Qed.
End Dangling.
End ParserStalls.

(** X14: a statement whose stripped text is one of [endif], [endfor],
    [endcomponent], [endblock], [endraw], [else], [elif], met where the
    enclosing construct does not expect it, stalls the parser. The
    statement parser consumes its three tokens, moves the position back
    by three and returns no node, so every loop that relies on
    [_parse_node] to make progress meets the same token again: the loop
    of [parse], the children loop of for, component and block (when the
    keyword is not its own end keyword), the loop of an if block (for a
    keyword other than [endif] and [else]) and the children loop of an
    element are all cut off whatever the fuel. No error is raised. *)
Theorem misplaced_block_keyword_stalls_parser (fuel : nat) (st : PyxmParser.t)
    (t0 t1 t2 : Token) :
  PyxmParser.tokens st !! PyxmParser.pos st = Some t0 → tok_type t0 = STMT_OPEN →
  PyxmParser.tokens st !! S (PyxmParser.pos st) = Some t1 → tok_type t1 = STMT_CONTENT →
  PyxmParser.tokens st !! S (S (PyxmParser.pos st)) = Some t2 → tok_type t2 = STMT_CLOSE →
  PyxmParser.in_list (PyStr.strip (tok_value t1)) PyxmParser.parent_keywords = true →
  PyxmParser._parse_statement (S fuel) st = PyxmParser.Done None st ∧
  (∀ root blocks, PyxmParser.parse_loop fuel root blocks st = PyxmParser.OutOfFuel) ∧
  (∀ node end_tags,
     existsb (fun tag => PyxmParser.is_end_tag_of tag st) end_tags = false →
     PyxmParser._parse_children_until fuel node end_tags st = PyxmParser.OutOfFuel) ∧
  (∀ node,
     PyStr.strip (tok_value t1) ≠ "endif" → PyStr.strip (tok_value t1) ≠ "else" →
     PyxmParser.if_loop fuel node st = PyxmParser.OutOfFuel) ∧
  (∀ tag node, PyxmParser.element_loop fuel tag node st = PyxmParser.OutOfFuel).
Proof.
  intros H0 Ht0 H1 Ht1 H2 Ht2 Hkw. repeat split.
  - by apply (parse_statement_parent_keyword st t0 t1 t2).
  - intros. by apply (parse_loop_parent_keyword st t0 t1 t2).
  - intros. by apply (children_until_parent_keyword st t0 t1 t2).
  - intros. by apply (if_loop_parent_keyword st t0 t1 t2).
  - intros. by apply (element_loop_parent_keyword st t0 t1 t2).
Qed.

Lemma misplaced_block_keyword_stalls_parser_witness :
  let toks := [mkToken STMT_OPEN "{%" 1 1; mkToken STMT_CONTENT "for x in xs" 1 16;
               mkToken STMT_CLOSE "%}" 1 16; mkToken STMT_OPEN "{%" 1 18;
               mkToken STMT_CONTENT "endif" 1 27; mkToken STMT_CLOSE "%}" 1 27;
               mkToken STMT_OPEN "{%" 1 29; mkToken STMT_CONTENT "endfor" 1 39;
               mkToken STMT_CLOSE "%}" 1 39; mkToken EOF "" 1 41] in
  PyxmParser._parse_children_until 1000 (PyxmNode.new NodeType.FOR) ["endfor"] (PyxmParser.mk toks 3 None)
  = PyxmParser.OutOfFuel.
Proof.
  intros toks.
  exact (proj1 (proj2 (proj2
           (misplaced_block_keyword_stalls_parser 1000 (PyxmParser.mk toks 3 None)
              (mkToken STMT_OPEN "{%" 1 18) (mkToken STMT_CONTENT "endif" 1 27)
              (mkToken STMT_CLOSE "%}" 1 27)
              eq_refl eq_refl eq_refl eq_refl eq_refl eq_refl eq_refl)))
           (PyxmNode.new NodeType.FOR) ["endfor"] eq_refl).
Defined.

(** ** Parser: where blocks end *)

Lemma with_children_same node : PyxmNode.with_children (PyxmNode.children node ++ []) node = node.
Proof. rewrite app_nil_r. by destruct node. Qed.

Lemma add_child_with_children c cs node :
  PyxmNode.with_children
    (PyxmNode.children (PyxmNode.add_child c node) ++ cs) (PyxmNode.add_child c node)
  = PyxmNode.with_children (PyxmNode.children node ++ c :: cs) node.
Proof.
  unfold PyxmNode.add_child, PyxmNode.with_children. cbn.
  by rewrite <- app_assoc.
Qed.

(** X16: when [_parse_children_until] returns, the parser stands at the
    EOF token or at a statement whose stripped text is one of the end
    keywords it was given, and the node it returns is the node it was
    given with children appended: nothing else of the node changes. *)
Theorem children_loop_stops_at_end_or_end_keyword (fuel : nat)
    (node node' : PyxmNode.t) (end_tags : list string) (st st' : PyxmParser.t) :
  PyxmParser._parse_children_until fuel node end_tags st = PyxmParser.Done node' st' →
  (PyxmParser.is_at_end_of st' = true ∨
   existsb (fun tag => PyxmParser.is_end_tag_of tag st') end_tags = true) ∧
  ∃ cs, node' = PyxmNode.with_children (PyxmNode.children node ++ cs) node.
Proof.
  revert node st. induction fuel as [|fuel IH]; intros node st; [done|].
  cbn [PyxmParser._parse_children_until].
  destruct (PyxmParser.is_at_end_of st) eqn:Hend.
  { intros [= <- <-]. split; [by left|]. exists []. by rewrite with_children_same. }
  destruct (existsb (fun tag => PyxmParser.is_end_tag_of tag st) end_tags) eqn:Htag.
  { intros [= <- <-]. split; [by right|]. exists []. by rewrite with_children_same. }
  unfold PyxmParser.bind.
  destruct (PyxmParser._parse_node fuel st) as [[c|] st1| |]; [| |done|done].
  - intros H. destruct (IH _ _ H) as [Hstop [cs ->]]. split; [done|].
    exists (c :: cs). apply add_child_with_children.
  - intros H. exact (IH _ _ H).
Qed.

Lemma children_loop_stops_at_end_or_end_keyword_witness :
  let toks := [mkToken TEXT "a" 1 2; mkToken STMT_OPEN "{%" 1 2;
               mkToken STMT_CONTENT "endfor" 1 12; mkToken STMT_CLOSE "%}" 1 12;
               mkToken EOF "" 1 14] in
  (PyxmParser.is_at_end_of (PyxmParser.mk toks 1 None) = true ∨
   existsb (fun tag => PyxmParser.is_end_tag_of tag (PyxmParser.mk toks 1 None))
     ["endfor"] = true) ∧
  ∃ cs, PyxmNode.add_child
          (PyxmNode.with_is_static true
             (PyxmNode.with_pos 1 2
                (PyxmNode.with_content (Some "a") (PyxmNode.new NodeType.TEXT))))
          (PyxmNode.new NodeType.FOR)
        = PyxmNode.with_children
            (PyxmNode.children (PyxmNode.new NodeType.FOR) ++ cs)
            (PyxmNode.new NodeType.FOR).
Proof.
  intros toks.
  exact (children_loop_stops_at_end_or_end_keyword 3 (PyxmNode.new NodeType.FOR) _
           ["endfor"] (PyxmParser.mk toks 0 None) (PyxmParser.mk toks 1 None) eq_refl).
Defined.

(** X15: blocks left open at the end of the input. When the children
    loop of a for, component or block statement reaches the EOF token,
    [_consume_end_tag] raises the SyntaxError [Expected STMT_OPEN, got
    EOF at line L:C] with the position of the current token; an if block
    that starts there returns its node with no complaint. *)
Theorem unclosed_block_at_end_of_input (fuel : nat) (st st1 : PyxmParser.t)
    (node node1 : PyxmNode.t) (condition end_tag : string) :
  PyxmParser._parse_children_until fuel node [end_tag] st = PyxmParser.Done node1 st1 →
  PyxmParser.is_at_end_of st1 = true →
  PyxmParser._parse_block (S fuel) end_tag node st
  = PyxmParser.Fail
      (SyntaxError
         ("Expected STMT_OPEN, got EOF at line "
          +:+ str_of_nat (tok_line (PyxmParser.current_of st1)) +:+ ":"
          +:+ str_of_nat (tok_column (PyxmParser.current_of st1))))
  ∧ PyxmParser._parse_if_block (S (S fuel)) condition st1
  = PyxmParser.Done
      (PyxmNode.with_condition (Some condition) (PyxmNode.new NodeType.IF)) st1.
Proof.
  intros Hchildren Hend. split.
  - cbn [PyxmParser._parse_block].
    rewrite (bind_Done _ _ _ _ _ Hchildren).
    unfold PyxmParser._consume_end_tag, PyxmParser._expect, PyxmParser._current.
    unfold PyxmParser.bind. unfold PyxmParser.is_at_end_of in Hend.
    apply bool_decide_eq_true_1 in Hend. rewrite Hend.
    destruct (decide (EOF = STMT_OPEN)) as [|_]; [done|]. reflexivity.
  - cbn [PyxmParser._parse_if_block PyxmParser.if_loop].
    unfold PyxmParser.bind, PyxmParser._is_at_end. by rewrite Hend.
Qed.

Lemma unclosed_block_at_end_of_input_witness :
  let toks := [mkToken STMT_OPEN "{%" 1 1; mkToken STMT_CONTENT "for x in xs" 1 16;
               mkToken STMT_CLOSE "%}" 1 16; mkToken TEXT "a" 1 19;
               mkToken EOF "" 1 19] in
  PyxmParser._parse_block 4 "endfor" (PyxmNode.new NodeType.FOR)
      (PyxmParser.mk toks 3 None)
  = PyxmParser.Fail (SyntaxError "Expected STMT_OPEN, got EOF at line 1:19")
  ∧ PyxmParser._parse_if_block 5 "x" (PyxmParser.mk toks 4 None)
  = PyxmParser.Done
      (PyxmNode.with_condition (Some "x") (PyxmNode.new NodeType.IF))
      (PyxmParser.mk toks 4 None).
Proof.
  intros toks.
  exact (unclosed_block_at_end_of_input 3 (PyxmParser.mk toks 3 None)
           (PyxmParser.mk toks 4 None) (PyxmNode.new NodeType.FOR) _ "x" "endfor"
           eq_refl eq_refl).
Defined.

(** ** Plain text, end to end *)

(** X17: plain text through the whole pipeline. For a non-empty source
    with none of the four openers, [parse] returns a tree whose root has
    a single TEXT child holding the source (static, stamped with the end
    position), with no Python block, import, component or slot; the code
    generated from it is the fixed prologue, one [_append] of the
    [repr] of the source, and the fixed epilogue. *)
Theorem plain_text_parses_and_compiles (fuel : nat) (s : string)
    (self : PyxmParser.t) :
  s ≠ EmptyString →
  PyStr.contains "<" s = false → PyStr.contains "{{" s = false →
  PyStr.contains "{%" s = false → PyStr.contains "{#" s = false →
  let parts := PyStr.split "010" s in
  let l := length parts in
  let c := S (String.length (default EmptyString (last parts))) in
  let text := PyxmNode.with_is_static true
                (PyxmNode.with_pos l c
                   (PyxmNode.with_content (Some s) (PyxmNode.new NodeType.TEXT))) in
  let ast := PyxmAST.mk (PyxmNode.add_child text (PyxmNode.new NodeType.ROOT))
               [] [] [] [] in
  PyxmParser.parse (S (S fuel)) s self
  = PyxmParser.Done ast
      (PyxmParser.mk [mkToken TEXT s l c; mkToken EOF "" l c] 1 (Some ast))
  ∧ PyxmCompiler.render_code_of ast
  = PyStr.join (String "010" "")
      ["async def _render(_ctx):";
       "    _output = []";
       "    _append = _output.append";
       "    _escape = __builtins_escape__";
       "    ";
       "    _append(" +:+ PyRepr.repr_str s +:+ ")";
       "    ";
       "    return ''.join(_output)"].
Proof.
  intros Hne H1 H2 H3 H4 parts l c text ast. split.
  - unfold PyxmParser.parse.
    pose proof (tokenize_plain_text_end (S fuel) s Hne H1 H2 H3 H4) as Hlex.
    cbv zeta in Hlex. fold parts in Hlex. fold l c in Hlex. rewrite Hlex.
    reflexivity.
  - destruct s as [|a s]; [done|]. reflexivity.
Qed.

Lemma plain_text_parses_and_compiles_witness :
  PyxmCompiler.render_code_of
    (PyxmAST.mk
       (PyxmNode.add_child
          (PyxmNode.with_is_static true
             (PyxmNode.with_pos 1 6
                (PyxmNode.with_content (Some "Hello") (PyxmNode.new NodeType.TEXT))))
          (PyxmNode.new NodeType.ROOT)) [] [] [] [])
  = PyStr.join (String "010" "")
      ["async def _render(_ctx):";
       "    _output = []";
       "    _append = _output.append";
       "    _escape = __builtins_escape__";
       "    ";
       "    _append('Hello')";
       "    ";
       "    return ''.join(_output)"].
Proof.
  exact (proj2 (plain_text_parses_and_compiles 0 "Hello" PyxmParser.init
                  ltac:(discriminate) eq_refl eq_refl eq_refl eq_refl)).
Defined.

(** ** Template: cache keys and reuse *)

Lemma str_app_inj_length (x x' y y' : string) :
  x +:+ y = x' +:+ y' → String.length y = String.length y' → x = x' ∧ y = y'.
Proof.
  revert x'. induction x as [|c x IH]; intros [|c' x'] H Hlen.
  - done.
  - change (EmptyString +:+ y) with y in H. subst y.
    rewrite str_length_app in Hlen. cbn [String.length] in Hlen. lia.
  - change (EmptyString +:+ y') with y' in H. subst y'.
    rewrite str_length_app in Hlen. cbn [String.length] in Hlen. lia.
  - change (String c (x +:+ y) = String c' (x' +:+ y')) in H.
    injection H as -> H. destruct (IH _ H Hlen) as [-> ->]. done.
Qed.

Lemma get_Ok_Some {V} (c c' : TemplateCache.t V) key v :
  TemplateCache.get c key = (Ok (Some v), c') →
  TemplateCache._cache c' = TemplateCache._cache c ∧
  TemplateCache._cache c !! key = Some v.
Proof.
  unfold TemplateCache.get. intros H.
  repeat case_match; simplify_eq; done.
Qed.

(** X18: two templates have the same cache key exactly when they have
    the same name and the same MD5 digest of the source. The digest is
    always 32 characters long, so a colon inside a name cannot make the
    keys of two differently named templates meet. *)
Theorem cache_key_identifies_name_and_digest (t1 t2 : Template.t) :
  Template._get_cache_key t1 = Template._get_cache_key t2 ↔
  Template.name t1 = Template.name t2 ∧
  MD5.md5_hex (Template.source t1) = MD5.md5_hex (Template.source t2).
Proof.
  unfold Template._get_cache_key. split.
  - intros H.
    apply str_app_inj_length in H as [Hn Hh]; [|reflexivity].
    split; [done|].
    change (String ":" (MD5.md5_hex (Template.source t1))
            = String ":" (MD5.md5_hex (Template.source t2))) in Hh.
    congruence.
  - by intros [-> ->].
Qed.

(** X19: once a template has been constructed on a cache that
    satisfies its invariant, a second template with the same source and
    name is served from the cache: it gets the very same compiled
    template without lexing, parsing or compiling (any fuel, even none,
    and any behaviour of the host), and the set of cached entries does
    not change. *)
Theorem second_template_is_served_from_cache
    (fuel fuel' : nat) (py_exec py_exec' : string → option pyexn)
    (source name : string) (cache cache1 : TemplateCache.t CompiledTemplate.t)
    (self1 : Template.t) :
  TemplateCache.inv cache →
  Template.new fuel py_exec source name cache = Template.Returned self1 cache1 →
  ∃ compiled cache2,
    Template._compiled self1 = Some compiled ∧
    Template.new fuel' py_exec' source name cache1
    = Template.Returned (Template.mk source name None (Some compiled)) cache2 ∧
    TemplateCache._cache cache2 = TemplateCache._cache cache1.
Proof.
  intros Hinv. unfold Template.new.
  set (self := Template.mk source name None None).
  assert (Hhit : ∀ c compiled, TemplateCache.inv c →
            TemplateCache._cache c !! Template._get_cache_key self = Some compiled →
            ∃ cache2,
              Template._compile fuel' py_exec' self c
              = Template.Returned (Template.mk source name None (Some compiled)) cache2 ∧
              TemplateCache._cache cache2 = TemplateCache._cache c).
  { intros c compiled Hc E. destruct (get_hit c _ compiled Hc E) as (l & Hl & Hget).
    eexists. unfold Template._compile. rewrite Hget. split; reflexivity. }
  unfold Template._compile at 1.
  destruct (TemplateCache.get cache (Template._get_cache_key self))
    as [[[cached|]|e] c1] eqn:Hget; [| |done].
  - intros [= <- <-]. destruct (get_Ok_Some _ _ _ _ Hget) as [Hc E].
    pose proof (get_inv cache (Template._get_cache_key self) Hinv) as Hinv1.
    rewrite Hget in Hinv1. cbn [snd] in Hinv1.
    destruct (Hhit c1 cached Hinv1 ltac:(by rewrite Hc)) as (cache2 & H2 & H3).
    by exists cached, cache2.
  - assert (c1 = cache) as ->.
    { unfold TemplateCache.get in Hget. repeat case_match; simplify_eq; done. }
    destruct (PyxmParser.parse fuel _ _) as [ast st|e|]; [|by destruct e|done].
    destruct (Compile.compile py_exec _ ast _) as [[compiled|e] cmp]; [|done].
    destruct (TemplateCache.set cache _ compiled) as [[[]|e] c2] eqn:Hset; [|done].
    intros [= <- <-].
    pose proof (set_inv cache (Template._get_cache_key self) compiled Hinv) as Hinv2.
    rewrite Hset in Hinv2. cbn [snd] in Hinv2.
    destruct (Hhit c2 compiled Hinv2 (set_Ok_lookup _ _ _ _ Hset)) as (cache2 & H2 & H3).
    by exists compiled, cache2.
Qed.

Lemma second_template_is_served_from_cache_witness :
  ∃ self1 cache1 compiled cache2,
    Template.new 20 (λ _, None) "hi" "page" (TemplateCache.init 4)
      = Template.Returned self1 cache1 ∧
    Template._compiled self1 = Some compiled ∧
    Template.new 0 (λ _, Some (SyntaxError "never run")) "hi" "page" cache1
    = Template.Returned (Template.mk "hi" "page" None (Some compiled)) cache2 ∧
    TemplateCache._cache cache2 = TemplateCache._cache cache1.
Proof.
  destruct (Template.new 20 (λ _, None) "hi" "page" (TemplateCache.init 4))
    as [self1 cache1| |] eqn:E; [|vm_compute in E; discriminate..].
  destruct (second_template_is_served_from_cache 20 0 (λ _, None)
              (λ _, Some (SyntaxError "never run")) "hi" "page"
              (TemplateCache.init 4) cache1 self1
              ltac:(apply inv_init; lia) E)
    as (compiled & cache2 & H1 & H2 & H3).
  by exists self1, cache1, compiled, cache2.
Defined.

(** ** Compiler: indentation and the shape of the generated code *)

Section CompilerBalance.
Import CompilerContext.

Lemma fix_fold {A B} (g : B → A → B) xs c :
  (fix go (ns : list A) (c : B) : B :=
     match ns with [] => c | n :: ns' => go ns' (g c n) end) xs c
  = fold_left g xs c.
Proof. revert c. induction xs as [|x xs IH]; intros c; [done|]. cbn. apply IH. Qed.

Lemma PyxmNode_ind' (P : PyxmNode.t → Prop) :
  (∀ n, Forall P (PyxmNode.children n) → P n) → ∀ n, P n.
Proof.
  intros H. fix IH 1. intros n. apply H.
  destruct n as [? ? ? ? ? ? cs ? ? ? ? ? ? ?]. cbn [PyxmNode.children].
  induction cs as [|c cs IHcs]; constructor; [apply IH | exact IHcs].
Qed.

Lemma spaces_prefix n m s :
  (n ≤ m)%nat → PyStr.startswith (PyStr.spaces n) (PyStr.spaces m +:+ s) = true.
Proof.
  revert m. induction n as [|n IH]; intros m Hle; [done|].
  destruct m as [|m]; [lia|].
  change (PyStr.spaces (S n)) with (String " " (PyStr.spaces n)).
  change (PyStr.spaces (S m) +:+ s) with (String " " (PyStr.spaces m +:+ s)).
  cbn [PyStr.startswith]. apply IH. lia.
Qed.

Lemma spaces_prefix_trans n m l :
  (n ≤ m)%nat → PyStr.startswith (PyStr.spaces m) l = true →
  PyStr.startswith (PyStr.spaces n) l = true.
Proof.
  revert m l. induction n as [|n IH]; intros m l Hle H; [done|].
  destruct m as [|m]; [lia|].
  change (PyStr.spaces (S n)) with (String " " (PyStr.spaces n)).
  change (PyStr.spaces (S m)) with (String " " (PyStr.spaces m)) in H.
  destruct l as [|a l]; [done|]. cbn [PyStr.startswith] in H |- *.
  apply andb_true_iff in H as [Ha H]. rewrite Ha. cbn [andb].
  apply (IH m); [lia|done].
Qed.

Lemma G_refl c : ctx_after 0 0 c c.
Proof.
  unfold ctx_after. split_and!; [lia|lia|lia|]. exists []. by rewrite app_nil_r.
Qed.

Lemma G_emit code d e c0 c :
  ctx_after d e c0 c → (0 ≤ d)%Z → ctx_after d e c0 (emit code c).
Proof.
  intros (H1 & H2 & H3 & lines & H4 & H5) Hd. unfold ctx_after, emit. cbn.
  split_and!; try done. eexists. rewrite H4, <- app_assoc. split; [done|].
  apply Forall_app. split; [done|]. constructor; [|done].
  unfold indent. rewrite H1. apply spaces_prefix. lia.
Qed.

Lemma G_enter d d' e c0 c :
  ctx_after d e c0 c → d' = (d + 1)%Z → ctx_after d' e c0 (enter_scope c).
Proof.
  intros (H1 & H2 & H3 & lines & H4) ->. unfold ctx_after, enter_scope. cbn.
  split_and!; try done; [lia|by eexists].
Qed.

Lemma G_exit d d' e c0 c :
  ctx_after d e c0 c → d' = (d - 1)%Z → ctx_after d' e c0 (exit_scope c).
Proof.
  intros (H1 & H2 & H3 & lines & H4) ->. unfold ctx_after, exit_scope. cbn.
  split_and!; try done; [lia|by eexists].
Qed.

Lemma G_loop_in d e e' c0 c :
  ctx_after d e c0 c → e' = S e →
  ctx_after d e' c0 (with_loop_depth (S (loop_depth c)) c).
Proof.
  intros (H1 & H2 & H3 & lines & H4) ->. unfold ctx_after, with_loop_depth. cbn.
  split_and!; try done; [lia|by eexists].
Qed.

Lemma G_loop_out d e e' c0 c :
  ctx_after d e c0 c → e = S e' →
  ctx_after d e' c0 (with_loop_depth (loop_depth c - 1) c).
Proof.
  intros (H1 & H2 & H3 & lines & H4) ->. unfold ctx_after, with_loop_depth. cbn.
  split_and!; try done; [lia|by eexists].
Qed.

Lemma G_tmp d e c0 c :
  ctx_after d e c0 c →
  ctx_after d e c0
    (mk (indent_level c) (output_parts c) (S (temp_var_counter c)) (loop_depth c)).
Proof.
  intros (H1 & H2 & H3 & lines & H4). unfold ctx_after. cbn.
  split_and!; try done; [lia|by eexists].
Qed.

Lemma G_trans d e c0 c c' :
  ctx_after d e c0 c → (0 ≤ d)%Z → ctx_after 0 0 c c' → ctx_after d e c0 c'.
Proof.
  intros (H1 & H2 & H3 & l1 & H4 & H5) Hd (K1 & K2 & K3 & l2 & K4 & K5).
  unfold ctx_after. split_and!; [lia|lia|lia|]. exists (l1 ++ l2).
  rewrite K4, H4, <- app_assoc. split; [done|].
  apply Forall_app. split; [done|].
  eapply Forall_impl; [exact K5|]. intros l Hl. unfold indent in *.
  eapply spaces_prefix_trans; [|exact Hl]. lia.
Qed.

Lemma G_fold {A} (g : t → A → t) xs d e c0 c :
  ctx_after d e c0 c →
  (∀ x, x ∈ xs → ∀ c, ctx_after d e c0 c → ctx_after d e c0 (g c x)) →
  ctx_after d e c0 (fold_left g xs c).
Proof.
  intros Hc Hg. revert c Hc. induction xs as [|x xs IH]; intros c Hc; [done|].
  cbn [fold_left]. apply IH.
  - intros y Hy. apply Hg. by right.
  - apply Hg; [by left|done].
Qed.

Ltac bal :=
  lazymatch goal with
  | H : ctx_after _ _ _ ?c |- ctx_after _ _ _ ?c => exact H
  | |- ctx_after _ _ _ (emit _ _) => eapply G_emit; [bal | lia]
  | |- ctx_after _ _ _ (enter_scope _) => eapply G_enter; [bal | first [reflexivity | lia]]
  | |- ctx_after _ _ _ (exit_scope _) => eapply G_exit; [bal | first [reflexivity | lia]]
  | |- ctx_after _ _ _ (with_loop_depth (S (loop_depth ?c)) ?c) =>
      eapply G_loop_in; [bal | reflexivity]
  | |- ctx_after _ _ _ (with_loop_depth (loop_depth ?c - 1) ?c) =>
      eapply G_loop_out; [bal | reflexivity]
  | |- ctx_after _ _ _ (mk (indent_level ?c) (output_parts ?c)
                          (S (temp_var_counter ?c)) (loop_depth ?c)) =>
      apply G_tmp; bal
  | |- ctx_after _ _ _ (fold_left _ _ _) => apply G_fold; [bal | ]
  | |- ctx_after _ _ ?c ?c => apply G_refl
  | _ => idtac
  end.

Lemma element_open_bal node d e c0 c :
  ctx_after d e c0 c → (0 ≤ d)%Z →
  ctx_after d e c0 (PyxmCompiler.element_open node c).
Proof.
  intros H Hd. unfold PyxmCompiler.element_open. cbv zeta. bal.
  - intros kv _ c1 H1. destruct (kv.2); bal.
  - intros kv _ c1 H1. unfold new_temp_var. cbv beta iota zeta. bal.
  - intros kv _ c1 H1. bal.
  - intros ref _ c1 H1. bal.
Qed.

Lemma component_props_bal node v d e c0 c :
  ctx_after d e c0 c → (0 ≤ d)%Z →
  ctx_after d e c0 (PyxmCompiler.component_props node v c).
Proof.
  intros H Hd. unfold PyxmCompiler.component_props. cbv zeta. bal.
  - intros kv _ c1 H1. bal.
  - intros kv _ c1 H1. bal.
Qed.

Ltac bal2 :=
  lazymatch goal with
  | H : ctx_after _ _ _ ?c |- ctx_after _ _ _ ?c => exact H
  | |- ctx_after _ _ _ (emit _ _) => eapply G_emit; [bal2 | lia]
  | |- ctx_after _ _ _ (enter_scope _) => eapply G_enter; [bal2 | first [reflexivity | lia]]
  | |- ctx_after _ _ _ (exit_scope _) => eapply G_exit; [bal2 | first [reflexivity | lia]]
  | |- ctx_after _ _ _ (with_loop_depth (S (loop_depth ?c)) ?c) =>
      eapply G_loop_in; [bal2 | reflexivity]
  | |- ctx_after _ _ _ (with_loop_depth (loop_depth ?c - 1) ?c) =>
      eapply G_loop_out; [bal2 | reflexivity]
  | |- ctx_after _ _ _ (mk (indent_level ?c) (output_parts ?c)
                          (S (temp_var_counter ?c)) (loop_depth ?c)) =>
      apply G_tmp; bal2
  | |- ctx_after _ _ _ (fold_left _ _ _) => apply G_fold; [bal2 | ]
  | |- ctx_after _ _ _ (PyxmCompiler.component_props _ _ _) =>
      apply component_props_bal; [bal2 | lia]
  | |- ctx_after _ _ _ (PyxmCompiler.element_open _ _) =>
      apply element_open_bal; [bal2 | lia]
  | |- ctx_after _ _ ?c ?c => apply G_refl
  | _ => idtac
  end.

Lemma G_node x d e c0 c :
  (∀ c, ctx_after 0 0 c (PyxmCompiler._compile_node x c)) →
  (0 ≤ d)%Z →
  ctx_after d e c0 c → ctx_after d e c0 (PyxmCompiler._compile_node x c).
Proof. intros Hx Hd H. eapply G_trans; [exact H|done|apply Hx]. Qed.

Lemma compile_node_step n :
  Forall (λ x, (∀ c, ctx_after 0 0 c (PyxmCompiler._compile_node x c)) ∧
               Forall (λ y, ∀ c, ctx_after 0 0 c (PyxmCompiler._compile_node y c))
                 (PyxmNode.children x))
    (PyxmNode.children n) →
  ∀ c, ctx_after 0 0 c (PyxmCompiler._compile_node n c).
Proof.
  intros HF c. rewrite Forall_forall in HF.
  assert (Hkids : ∀ d e c0, (0 ≤ d)%Z → ∀ x, x ∈ PyxmNode.children n → ∀ c1,
            ctx_after d e c0 c1 → ctx_after d e c0 (PyxmCompiler._compile_node x c1)).
  { intros d e c0 Hd x Hx c1 H1. apply G_node; [apply (HF x Hx)|done|done]. }
  destruct n as [ty tag attrs binds evs refs cs content cond iter ln col sc stat].
  cbn [PyxmNode.children] in *.
  destruct ty;
    cbn [PyxmCompiler._compile_node PyxmNode.type PyxmNode.children PyxmNode.tag
         PyxmNode.condition PyxmNode.iterator PyxmNode.is_self_closing];
    rewrite ?fix_fold; try apply G_refl.
  - (* ROOT *) bal2. apply Hkids; lia.
  - (* ELEMENT *)
    destruct (_ || _); bal2. apply Hkids; lia.
  - (* TEXT *)
    unfold PyxmCompiler._compile_text. cbn [PyxmNode.content].
    destruct content as [s|]; [|apply G_refl]. destruct (String.eqb s ""); bal2.
  - (* EXPRESSION *)
    unfold PyxmCompiler._compile_expression. cbn [PyxmNode.content].
    destruct content as [s|]; [|apply G_refl]. destruct (String.eqb s ""); [bal2|].
    cbv zeta. destruct (PyxmCompiler.is_safe _); bal2.
  - (* IF *)
    bal2. intros x Hx c1 H1. destruct (HF x Hx) as [Hx1 Hx2].
    rewrite Forall_forall in Hx2.
    destruct (PyxmNode.type x); rewrite ?fix_fold; try (by apply G_node; [|lia|]).
    + bal2. intros y Hy c2 H2. destruct (PyxmCompiler.is_chain_node y); [done|].
      apply G_node; [apply (Hx2 y Hy)|lia|done].
    + bal2. intros y Hy c2 H2. apply G_node; [apply (Hx2 y Hy)|lia|done].
  - (* FOR *) bal2. apply Hkids; lia.
  - (* COMPONENT *)
    unfold CompilerContext.new_temp_var. cbv beta iota zeta.
    rewrite fix_fold. bal2. apply Hkids; lia.
  - (* SLOT *)
    destruct cs as [|x cs]; cbv match; rewrite ?fix_fold; [bal2|].
    eapply G_exit;
      [apply G_fold;
         [apply Hkids; [|by left|bal2]; lia | intros y Hy; apply Hkids; [lia|by right]]
      | reflexivity].
  - (* BLOCK *) bal2. apply Hkids; lia.
  - (* RAW *)
    unfold PyxmCompiler._compile_raw. cbn [PyxmNode.content].
    destruct content as [s|]; [|apply G_refl]. destruct (String.eqb s ""); bal2.
Qed.

Lemma compile_node_bal n : ∀ c, ctx_after 0 0 c (PyxmCompiler._compile_node n c).
Proof.
  enough (H : (∀ c, ctx_after 0 0 c (PyxmCompiler._compile_node n c)) ∧
              Forall (λ y, ∀ c, ctx_after 0 0 c (PyxmCompiler._compile_node y c))
                (PyxmNode.children n)) by apply H.
  induction n as [n HF] using PyxmNode_ind'. split.
  - by apply compile_node_step.
  - eapply Forall_impl; [exact HF|]. by intros x [Hx _].
Qed.

Lemma emit_python_block_bal block d e c0 c :
  ctx_after d e c0 c → (0 ≤ d)%Z →
  ctx_after d e c0 (PyxmCompiler._emit_python_block block c).
Proof.
  intros H Hd. unfold PyxmCompiler._emit_python_block. cbv zeta. bal2.
  intros line _ c1 H1. destruct (_ || _); bal2.
Qed.
End CompilerBalance.

(** X20: [_compile_node] is balanced. Whatever the node, the context it
    leaves has the indentation level and the loop depth it started
    with; the counter of temporaries never goes down; the output is the
    old output with parts appended, and every appended part starts with
    the indentation of the starting context: nothing is emitted to the
    left of where the node began. *)
Theorem compile_node_is_balanced (node : PyxmNode.t) (c : CompilerContext.t) :
  let c' := PyxmCompiler._compile_node node c in
  CompilerContext.indent_level c' = CompilerContext.indent_level c ∧
  CompilerContext.loop_depth c' = CompilerContext.loop_depth c ∧
  (CompilerContext.temp_var_counter c ≤ CompilerContext.temp_var_counter c')%nat ∧
  ∃ lines,
    CompilerContext.output_parts c' = CompilerContext.output_parts c ++ lines ∧
    Forall (λ l, PyStr.startswith (CompilerContext.indent c) l = true) lines.
Proof.
  destruct (compile_node_bal node c) as (H1 & H2 & H3 & H4).
  cbv zeta. split_and!; [lia|lia|lia|exact H4].
Qed.

(** X21: the generated code is always framed the same way: the
    [async def] line, the three set-up lines and a blank part, then the
    parts of the Python blocks and of the tree, each indented by at
    least four spaces, then a blank part and the [return] at exactly
    four spaces; the compiler context ends at indentation level zero. *)
Theorem render_code_is_framed (ast : PyxmAST.t) :
  ∃ body,
    PyxmCompiler.render_code_of ast
    = PyStr.join (String "010" "")
        (["async def _render(_ctx):"; "    _output = []";
          "    _append = _output.append"; "    _escape = __builtins_escape__";
          "    "]
         ++ body ++ ["    "; "    return ''.join(_output)"]) ∧
    Forall (λ l, PyStr.startswith "    " l = true) body ∧
    CompilerContext.indent_level (Compile.final_context ast) = 0%Z.
Proof.
  unfold PyxmCompiler.render_code_of, Compile.final_context. cbv zeta.
  set (c4 := CompilerContext.emit "" (CompilerContext.emit "_escape = __builtins_escape__"
               (CompilerContext.emit "_append = _output.append"
                  (CompilerContext.emit "_output = []"
                     (CompilerContext.enter_scope
                        (CompilerContext.emit "async def _render(_ctx):"
                           CompilerContext.init)))))).
  set (X := PyxmCompiler._compile_node (PyxmAST.root ast)
              (fold_left (λ c block, PyxmCompiler._emit_python_block block c)
                 (PyxmAST.python_blocks ast) c4)).
  assert (HX : ctx_after 0 0 c4 X).
  { subst X. eapply G_trans; [|lia|apply compile_node_bal].
    apply G_fold; [apply G_refl|].
    intros block _ c1 H1. apply emit_python_block_bal; [done|lia]. }
  destruct HX as (H1 & H2 & H3 & body & H4 & H5).
  change (CompilerContext.indent_level c4) with 1%Z in H1.
  exists body. split_and!.
  - unfold CompilerContext.get_code, CompilerContext.exit_scope, CompilerContext.emit.
    cbn [CompilerContext.output_parts CompilerContext.indent_level
         CompilerContext.indent]. unfold CompilerContext.indent. rewrite H1, H4.
    cbn [CompilerContext.indent_level].
    rewrite <- !app_assoc. reflexivity.
  - exact H5.
  - cbn [CompilerContext.exit_scope CompilerContext.emit CompilerContext.indent_level].
    rewrite H1. reflexivity.
Qed.

(** ** Compiler: chains of elif and else *)

Lemma fold_left_ext {A B} (g1 g2 : B → A → B) l c :
  (∀ c x, x ∈ l → g1 c x = g2 c x) → fold_left g1 l c = fold_left g2 l c.
Proof.
  revert c. induction l as [|x l IH]; intros c H; [done|].
  cbn. rewrite (H c x) by (by left). apply IH. intros c' y Hy. apply H. by right.
Qed.

Lemma fold_left_map {A B C} (g : B → C → B) (f : A → C) l c :
  fold_left g (f <$> l) c = fold_left (λ c x, g c (f x)) l c.
Proof. revert c. induction l as [|x l IH]; intros c; [done|]. cbn. apply IH. Qed.

Lemma fold_skip_chain (h : CompilerContext.t → PyxmNode.t → CompilerContext.t) ys c :
  (∀ c y, PyxmCompiler.is_chain_node y = true → h c y = c) →
  fold_left h (filter (λ y, PyxmCompiler.is_chain_node y = false) ys) c
  = fold_left h ys c.
Proof.
  intros Hh. revert c. induction ys as [|y ys IH]; intros c; [done|].
  rewrite filter_cons. destruct (decide _) as [E|E]; cbn [fold_left].
  - apply IH.
  - rewrite Hh by (by destruct (PyxmCompiler.is_chain_node y)). apply IH.
Qed.

(** X22: what [_compile_if] leaves out. For an IF node, the ELIF and
    ELSE nodes found among the children of one of its ELIF children
    contribute nothing to the generated code: compiling the node gives
    the same context as compiling it with those grandchildren removed.
    The parser hangs the rest of an if-elif-else chain under the ELIF
    node, so the branches that follow the first elif are not compiled. *)
Theorem elif_chain_children_are_not_compiled
    (node : PyxmNode.t) (c : CompilerContext.t) :
  PyxmNode.type node = NodeType.IF →
  let prune (x : PyxmNode.t) :=
    if decide (PyxmNode.type x = NodeType.ELIF)
    then PyxmNode.with_children
           (filter (λ y, PyxmCompiler.is_chain_node y = false) (PyxmNode.children x)) x
    else x in
  PyxmCompiler._compile_node node c
  = PyxmCompiler._compile_node
      (PyxmNode.with_children (prune <$> PyxmNode.children node) node) c.
Proof.
  intros Hty prune.
  destruct node as [ty tag attrs binds evs refs cs content cond iter ln col sc stat].
  cbn [PyxmNode.type] in Hty. subst ty.
  cbn [PyxmCompiler._compile_node PyxmNode.with_children PyxmNode.type
       PyxmNode.children PyxmNode.condition].
  rewrite !fix_fold. f_equal. rewrite fold_left_map.
  apply fold_left_ext. intros c1 x _. subst prune. cbv beta.
  destruct (decide (PyxmNode.type x = NodeType.ELIF)) as [E|E]; [|done].
  destruct x as [ty' tag' attrs' binds' evs' refs' cs' content' cond' iter' ln' col' sc' stat'].
  cbn [PyxmNode.type] in E. subst ty'.
  cbn [PyxmNode.with_children PyxmNode.type PyxmNode.children PyxmNode.condition].
  rewrite !fix_fold.
  symmetry. apply fold_skip_chain. intros c2 y Hy. by rewrite Hy.
Qed.

Lemma elif_chain_children_are_not_compiled_witness :
  let text s := PyxmNode.with_content (Some s) (PyxmNode.new NodeType.TEXT) in
  let else_ := PyxmNode.add_child (text "C") (PyxmNode.new NodeType.ELSE) in
  let elif := PyxmNode.with_type NodeType.ELIF
                (PyxmNode.add_child else_
                   (PyxmNode.add_child (text "B")
                      (PyxmNode.with_condition (Some "b") (PyxmNode.new NodeType.IF)))) in
  let node := PyxmNode.add_child elif
                (PyxmNode.add_child (text "A")
                   (PyxmNode.with_condition (Some "a") (PyxmNode.new NodeType.IF))) in
  CompilerContext.output_parts (PyxmCompiler._compile_node node CompilerContext.init)
  = ["if a:"; "    _append('A')"; "elif b:"; "    _append('B')"].
Proof.
  intros text else_ elif node.
  rewrite (elif_chain_children_are_not_compiled node CompilerContext.init eq_refl).
  reflexivity.
Defined.

(** ** Parser: the nodes it builds *)

Section ParserShapes.
Import PyxmParser.


Lemma bind_Done_inv {A B} (m : M A) (k : A → M B) st b st' :
  bind m k st = Done b st' → ∃ a s1, m st = Done a s1 ∧ k a s1 = Done b st'.
Proof. unfold bind. destruct (m st) as [a s1| |]; [eauto|done|done]. Qed.

Ltac binv H :=
  let a := fresh "a" in let s := fresh "s" in let Hm := fresh "Hm" in
  apply bind_Done_inv in H as (a & s & Hm & H).

Lemma ret_Done_inv {A} (a b : A) st st' : ret a st = Done b st' → a = b ∧ st = st'.
Proof. by intros [= -> ->]. Qed.


Lemma extends_refl node : children_appended node node.
Proof. exists []. by rewrite with_children_same. Qed.

Lemma extends_add_child c node node' :
  children_appended (PyxmNode.add_child c node) node' → children_appended node node'.
Proof. intros [cs ->]. exists (c :: cs). apply add_child_with_children. Qed.

Lemma extends_type node node' :
  children_appended node node' → PyxmNode.type node' = PyxmNode.type node.
Proof. by intros [cs ->]. Qed.

Lemma attr_type node node' st st' :
  (_parse_attribute node st = Done node' st' ∨
   _parse_event_binding node st = Done node' st' ∨
   _parse_attr_binding node st = Done node' st' ∨
   _parse_ref_binding node st = Done node' st') →
  PyxmNode.type node' = PyxmNode.type node ∧
  PyxmNode.children node' = PyxmNode.children node.
Proof.
  unfold _parse_attribute, _parse_event_binding, _parse_attr_binding,
    _parse_ref_binding, bind, _advance, _current, ret.
  intros [H|[H|[H|H]]]; repeat case_match; simplify_eq; done.
Qed.

Lemma attribute_loop_type n : ∀ node node' st st',
  attribute_loop n node st = Done node' st' →
  PyxmNode.type node' = PyxmNode.type node ∧
  PyxmNode.children node' = PyxmNode.children node.
Proof.
  induction n as [|n IH]; intros node node' st st' H; cbn [attribute_loop] in H.
  { by apply ret_Done_inv in H as [-> _]. }
  binv H. destruct (tok_type a); try (by apply ret_Done_inv in H as [-> _]);
    binv H; apply IH in H as [-> ->]; eapply attr_type; eauto.
Qed.

Lemma children_until_extends fuel : ∀ node node' end_tags st st',
  _parse_children_until fuel node end_tags st = Done node' st' → children_appended node node'.
Proof.
  induction fuel as [|fuel IH]; intros node node' end_tags st st' H; [done|].
  cbn [_parse_children_until] in H.
  destruct (is_at_end_of st); [apply ret_Done_inv in H as [-> _]; apply extends_refl|].
  destruct (existsb _ end_tags);
    [apply ret_Done_inv in H as [-> _]; apply extends_refl|].
  binv H. destruct a as [c|]; apply IH in H; [exact (extends_add_child _ _ _ H)|done].
Qed.

Lemma if_loop_extends fuel : ∀ node node' st st',
  if_loop fuel node st = Done node' st' → children_appended node node'.
Proof.
  induction fuel as [|fuel IH]; intros node node' st st' H; [done|].
  cbn [if_loop] in H. binv H.
  destruct a; [apply ret_Done_inv in H as [-> _]; apply extends_refl|].
  binv H. destruct a.
  { binv H. apply ret_Done_inv in H as [-> _]. apply extends_refl. }
  binv H. destruct a.
  { binv H. binv H. binv H. apply ret_Done_inv in H as [<- _].
    eapply extends_add_child, extends_refl. }
  binv H. destruct a.
  { binv H. binv H. apply ret_Done_inv in H as [<- _].
    eapply extends_add_child, extends_refl. }
  binv H. destruct a as [c|]; apply IH in H; [exact (extends_add_child _ _ _ H)|done].
Qed.

Lemma element_loop_extends fuel : ∀ tag node node' st st',
  element_loop fuel tag node st = Done node' st' → children_appended node node'.
Proof.
  induction fuel as [|fuel IH]; intros tag node node' st st' H; [done|].
  cbn [element_loop] in H. binv H.
  destruct a; [apply ret_Done_inv in H as [-> _]; apply extends_refl|].
  binv H. destruct (decide _).
  { binv H. binv H. binv H. destruct (String.eqb _ _); [|done].
    apply ret_Done_inv in H as [-> _]. apply extends_refl. }
  binv H. destruct a0 as [c|]; apply IH in H; [exact (extends_add_child _ _ _ H)|done].
Qed.

Lemma parse_element_type fuel node st st' :
  _parse_element fuel st = Done node st' → PyxmNode.type node = NodeType.ELEMENT.
Proof.
  destruct fuel as [|fuel]; [done|]. cbn [_parse_element]. intros H.
  binv H. binv H. binv H.
  match goal with
  | Ha : attribute_loop _ _ _ = _ |- _ => apply attribute_loop_type in Ha as [Hty _]
  end.
  binv H. destruct (decide _).
  { binv H. apply ret_Done_inv in H as [<- _]. exact Hty. }
  binv H. destruct (in_list _ _).
  { apply ret_Done_inv in H as [<- _]. exact Hty. }
  binv H. apply ret_Done_inv in H as [<- _].
  match goal with
  | He : element_loop _ _ _ _ = _ |- _ =>
      apply element_loop_extends, extends_type in He; cbn; by rewrite He
  end.
Qed.

Lemma parse_block_type fuel end_tag node node' st st' :
  _parse_block fuel end_tag node st = Done node' st' →
  PyxmNode.type node' = PyxmNode.type node.
Proof.
  destruct fuel as [|fuel]; [done|]. cbn [_parse_block]. intros H.
  binv H. binv H. apply ret_Done_inv in H as [<- _].
  match goal with
  | He : _parse_children_until _ _ _ _ = _ |- _ =>
      by apply children_until_extends, extends_type in He
  end.
Qed.

Lemma parse_statement_not_chain fuel n st st' :
  _parse_statement fuel st = Done (Some n) st' →
  PyxmCompiler.is_chain_node n = false.
Proof.
  destruct fuel as [|fuel]; [done|]. cbn [_parse_statement]. intros H.
  binv H. binv H. binv H. cbv zeta in H.
  repeat (destruct (PyStr.startswith _ _);
          [binv H; apply ret_Done_inv in H as [[= <-] _]|]).
  - destruct fuel as [|fuel]; [done|]. cbn [_parse_if_block] in Hm2.
    match goal with
    | He : if_loop _ _ _ = _ |- _ =>
        apply if_loop_extends, extends_type in He;
        unfold PyxmCompiler.is_chain_node; by rewrite He
    end.
  - apply parse_block_type in Hm2. unfold PyxmCompiler.is_chain_node. by rewrite Hm2.
  - apply parse_block_type in Hm2. unfold PyxmCompiler.is_chain_node. by rewrite Hm2.
  - apply parse_block_type in Hm2. unfold PyxmCompiler.is_chain_node. by rewrite Hm2.
  - unfold _parse_slot_block in Hm2. by apply ret_Done_inv in Hm2 as [<- _].
  - unfold _parse_raw_block in Hm2. binv Hm2. by apply ret_Done_inv in Hm2 as [<- _].
  - destruct (in_list _ _); [done|]. by apply ret_Done_inv in H as [[= <-] _].
Qed.

Lemma parse_node_not_chain fuel n st st' :
  _parse_node fuel st = Done (Some n) st' →
  PyxmCompiler.is_chain_node n = false.
Proof.
  destruct fuel as [|fuel]; [done|]. cbn [_parse_node]. intros H. binv H.
  destruct (tok_type a);
    first
      [ by apply parse_statement_not_chain in H
      | by apply ret_Done_inv in H as [? _]
      | binv H; apply ret_Done_inv in H as [E _];
        first [discriminate E | injection E as <-] ].
  all: first
    [ match goal with
      | He : _parse_element _ _ = _ |- _ =>
          apply parse_element_type in He;
          unfold PyxmCompiler.is_chain_node; by rewrite He
      end
    | match goal with
      | He : _parse_text _ = _ |- _ =>
          unfold _parse_text in He; binv He; by apply ret_Done_inv in He as [<- _]
      end
    | match goal with
      | He : _ _ = Done _ _ |- _ =>
          unfold _parse_expression, _parse_comment, _parse_python_block in He;
          binv He; binv He; binv He; by apply ret_Done_inv in He as [<- _]
      end ].
Qed.

Lemma if_loop_chain_last fuel : ∀ node node' st st',
  if_loop fuel node st = Done node' st' →
  ∃ body tail,
    node' = PyxmNode.with_children (PyxmNode.children node ++ body ++ tail) node ∧
    Forall (λ x, PyxmCompiler.is_chain_node x = false) body ∧
    (tail = [] ∨ ∃ x, tail = [x] ∧ PyxmCompiler.is_chain_node x = true).
Proof.
  assert (Hnone : ∀ node : PyxmNode.t, ∃ body tail : list PyxmNode.t,
            node = PyxmNode.with_children (PyxmNode.children node ++ body ++ tail) node ∧
            Forall (λ x, PyxmCompiler.is_chain_node x = false) body ∧
            (tail = [] ∨ ∃ x, tail = [x] ∧ PyxmCompiler.is_chain_node x = true)).
  { intros node. exists [], []. split; [by rewrite with_children_same|]. split; [done|by left]. }
  assert (Hone : ∀ (node x : PyxmNode.t), PyxmCompiler.is_chain_node x = true →
            ∃ body tail : list PyxmNode.t,
            PyxmNode.add_child x node
            = PyxmNode.with_children (PyxmNode.children node ++ body ++ tail) node ∧
            Forall (λ x, PyxmCompiler.is_chain_node x = false) body ∧
            (tail = [] ∨ ∃ x, tail = [x] ∧ PyxmCompiler.is_chain_node x = true)).
  { intros node x Hx. exists [], [x]. split; [done|]. split; [done|]. right. eauto. }
  induction fuel as [|fuel IH]; intros node node' st st' H; [done|].
  cbn [if_loop] in H. binv H.
  destruct a; [apply ret_Done_inv in H as [<- _]; apply Hnone|].
  binv H. destruct a.
  { binv H. apply ret_Done_inv in H as [<- _]. apply Hnone. }
  binv H. destruct a.
  { binv H. binv H. binv H. apply ret_Done_inv in H as [<- _]. apply Hone.
    match goal with
    | He : _parse_children_until _ _ _ _ = _ |- _ =>
        apply children_until_extends, extends_type in He;
        unfold PyxmCompiler.is_chain_node; by rewrite He
    end. }
  binv H. destruct a.
  { binv H. binv H. apply ret_Done_inv in H as [<- _]. by apply Hone. }
  binv H. destruct a as [c|]; [|by apply IH in H].
  match goal with
  | He : _parse_node _ _ = _ |- _ => apply parse_node_not_chain in He; rename He into Hc
  end.
  apply IH in H as (body & tail & -> & Hb & Ht).
  exists (c :: body), tail. split; [|split; [by constructor|done]].
  unfold PyxmNode.add_child, PyxmNode.with_children. cbn.
  by rewrite <- !app_assoc.
Qed.
End ParserShapes.

(** X23: the shape of an IF node. When [_parse_if_block] returns, the
    node has type IF and the given condition, and among its children at
    most one is an ELIF or ELSE node, and that one comes last: an elif
    or an else ends the if block's own list of children, and whatever
    follows an elif in the source is parsed into the ELIF node. *)
Theorem if_node_has_one_chain_child_at_most
    (fuel : nat) (condition : string) (st st' : PyxmParser.t) (node : PyxmNode.t) :
  PyxmParser._parse_if_block fuel condition st = PyxmParser.Done node st' →
  PyxmNode.type node = NodeType.IF ∧
  PyxmNode.condition node = Some condition ∧
  ∃ body tail,
    PyxmNode.children node = body ++ tail ∧
    Forall (λ x, PyxmCompiler.is_chain_node x = false) body ∧
    (tail = [] ∨ ∃ x, tail = [x] ∧ PyxmCompiler.is_chain_node x = true).
Proof.
  destruct fuel as [|fuel]; [done|]. cbn [PyxmParser._parse_if_block]. intros H.
  apply if_loop_chain_last in H as (body & tail & -> & Hb & Ht).
  split; [done|]. split; [done|]. by exists body, tail.
Qed.

Lemma if_node_has_one_chain_child_at_most_witness :
  let toks := [mkToken TEXT "A" 1 12; mkToken STMT_OPEN "{%" 1 12;
               mkToken STMT_CONTENT "elif b" 1 22; mkToken STMT_CLOSE "%}" 1 22;
               mkToken TEXT "B" 1 25; mkToken STMT_OPEN "{%" 1 25;
               mkToken STMT_CONTENT "else" 1 33; mkToken STMT_CLOSE "%}" 1 33;
               mkToken TEXT "C" 1 36; mkToken STMT_OPEN "{%" 1 36;
               mkToken STMT_CONTENT "endif" 1 45; mkToken STMT_CLOSE "%}" 1 45;
               mkToken EOF "" 1 47] in
  ∃ node st',
    PyxmParser._parse_if_block 20 "a" (PyxmParser.mk toks 0 None)
      = PyxmParser.Done node st' ∧
    PyxmNode.type <$> PyxmNode.children node = [NodeType.TEXT; NodeType.ELIF] ∧
    ∃ body tail,
      PyxmNode.children node = body ++ tail ∧
      Forall (λ x, PyxmCompiler.is_chain_node x = false) body ∧
      (tail = [] ∨ ∃ x, tail = [x] ∧ PyxmCompiler.is_chain_node x = true).
Proof.
  intros toks.
  destruct (PyxmParser._parse_if_block 20 "a" (PyxmParser.mk toks 0 None))
    as [node st'| |] eqn:E; [|vm_compute in E; discriminate..].
  exists node, st'. split; [done|].
  split; [by vm_compute in E; injection E as <- _|].
  exact (proj2 (proj2 (if_node_has_one_chain_child_at_most 20 "a" _ st' node E))).
Defined.

(** ** Compiler: escaping of expressions *)

Lemma str_take_drop n s : PyStr.take n s +:+ PyStr.drop n s = s.
Proof.
  revert s. induction n as [|n IH]; intros [|c s]; try done.
  change (String c (PyStr.take n s +:+ PyStr.drop n s) = String c s). by rewrite IH.
Qed.

Lemma str_app_assoc (a b c : string) : (a +:+ b) +:+ c = a +:+ (b +:+ c).
Proof.
  induction a as [|x a IH]; [done|].
  change (String x ((a +:+ b) +:+ c) = String x (a +:+ (b +:+ c))). by rewrite IH.
Qed.

Lemma endswith_inv p s : PyStr.endswith p s = true → ∃ pre, s = pre +:+ p.
Proof.
  unfold PyStr.endswith. intros H. apply andb_true_iff in H as [_ H].
  apply String.eqb_eq in H.
  exists (PyStr.take (String.length s - String.length p) s).
  transitivity (PyStr.take (String.length s - String.length p) s
                +:+ PyStr.drop (String.length s - String.length p) s);
    [by rewrite str_take_drop | by rewrite H].
Qed.

Lemma startswith_app sub post : PyStr.startswith sub (sub +:+ post) = true.
Proof.
  induction sub as [|c sub IH]; [by destruct post|].
  change (String c sub +:+ post) with (String c (sub +:+ post)).
  cbn [PyStr.startswith]. unfold PyStr.eqb_ascii. by rewrite Ascii.eqb_refl.
Qed.

Lemma contains_app pre sub post : PyStr.contains sub (pre +:+ sub +:+ post) = true.
Proof.
  unfold PyStr.contains. induction pre as [|c pre IH].
  - change (EmptyString +:+ sub +:+ post) with (sub +:+ post).
    destruct (sub +:+ post) eqn:E; cbn [PyStr.find]; rewrite <- ?E, startswith_app; done.
  - change (String c pre +:+ sub +:+ post) with (String c (pre +:+ sub +:+ post)).
    cbn [PyStr.find]. destruct (PyStr.startswith sub _); [done|].
    by destruct (PyStr.find sub (pre +:+ sub +:+ post)).
Qed.

Lemma str_last_char_eq x y a b :
  x +:+ String a "" = y +:+ String b "" → a = b.
Proof.
  intros H. apply str_app_inj_length in H as [_ H]; [|done]. by injection H.
Qed.

Lemma apply_filter_ends r f : ∃ y, PyxmCompiler.apply_filter r f = y +:+ ")".
Proof.
  unfold PyxmCompiler.apply_filter. destruct (PyStr.find "(" f) as [i|].
  - eexists. rewrite <- !str_app_assoc. reflexivity.
  - eexists. rewrite <- !str_app_assoc. reflexivity.
Qed.

Lemma split_two sep s :
  PyStr.contains (String sep "") s = true → ∃ p q qs, PyStr.split sep s = p :: q :: qs.
Proof.
  unfold PyStr.contains. induction s as [|c s IH]; [done|].
  cbn [PyStr.find PyStr.startswith PyStr.split]. rewrite andb_true_r.
  unfold PyStr.eqb_ascii. rewrite (Ascii.eqb_sym sep c).
  destruct (Ascii.eqb c sep).
  - intros _. destruct (pysplit_nonempty sep s) as (q & qs & ->). by eexists _, _, _.
  - intros H. destruct (PyStr.find (String sep "") s); [|done].
    destruct (IH eq_refl) as (p & q & qs & ->). by eexists _, _, _.
Qed.

Lemma fold_filters_ends fs : ∀ first, fs ≠ [] →
  ∃ y, fold_left PyxmCompiler.apply_filter fs first = y +:+ ")".
Proof.
  induction fs as [|f fs IH]; intros first Hne; [done|].
  cbn [fold_left]. destruct fs as [|f' fs]; [apply apply_filter_ends|].
  by apply IH.
Qed.

Lemma endswith_safe_false_paren y : PyStr.endswith "|safe" (y +:+ ")") = false.
Proof.
  destruct (PyStr.endswith "|safe" (y +:+ ")")) eqn:E; [|done].
  apply endswith_inv in E as [pre E].
  change (pre +:+ "|safe") with (pre +:+ "|saf" +:+ "e") in E.
  rewrite <- str_app_assoc in E. by apply str_last_char_eq in E.
Qed.

(** What [_compile_expression] emits for a non-empty expression. *)
Lemma compile_expression_emits (node : PyxmNode.t) (c : CompilerContext.t)
    (s : string) :
  PyxmNode.content node = Some s → s ≠ EmptyString →
  let expr := PyStr.strip s in
  let compiled := if PyStr.contains "|" expr
                  then PyxmCompiler._compile_filters expr else expr in
  PyStr.endswith "|safe" compiled = false ∧
  PyxmCompiler._compile_expression node c
  = CompilerContext.emit
      (if PyStr.contains "safe(" compiled
       then "_append(str(" +:+ compiled +:+ "))"
       else "_append(_escape(str(" +:+ compiled +:+ ")))") c.
Proof.
  intros Hc Hne expr compiled.
  assert (Hdead : PyStr.endswith "|safe" compiled = false).
  { subst compiled. destruct (PyStr.contains "|" expr) eqn:Hbar.
    - unfold PyxmCompiler._compile_filters.
      destruct (split_two "|" expr Hbar) as (p & q & qs & ->). cbn [map].
      destruct (fold_filters_ends (PyStr.strip q :: map PyStr.strip qs) (PyStr.strip p)
                  ltac:(done)) as [y ->].
      apply endswith_safe_false_paren.
    - destruct (PyStr.endswith "|safe" expr) eqn:E; [|done].
      apply endswith_inv in E as [pre E].
      rewrite E in Hbar. change (pre +:+ "|safe") with (pre +:+ "|" +:+ "safe") in Hbar.
      by rewrite contains_app in Hbar. }
  split; [exact Hdead|].
  unfold PyxmCompiler._compile_expression. rewrite Hc.
  destruct (String.eqb_spec s ""); [done|]. cbv zeta. fold expr. fold compiled.
  unfold PyxmCompiler.is_safe. rewrite Hdead. cbn [orb].
  by destruct (PyStr.contains "safe(" compiled).
Qed.

(** X24: the test for a [|safe] suffix in [_compile_expression] never
    fires. It is made on the expression text after [_compile_filters]
    has rewritten every filter into a call, which ends with a closing
    parenthesis, and a text without a bar cannot end with [|safe]. So a
    non-empty expression is emitted without [_escape] exactly when the
    compiled text contains [safe(]; the filter [| safe] by itself does
    not switch escaping off. *)
Theorem safe_suffix_test_never_fires (node : PyxmNode.t) (c : CompilerContext.t)
    (s : string) :
  PyxmNode.content node = Some s → s ≠ EmptyString →
  let expr := PyStr.strip s in
  let compiled := if PyStr.contains "|" expr
                  then PyxmCompiler._compile_filters expr else expr in
  PyStr.endswith "|safe" compiled = false ∧
  PyxmCompiler._compile_expression node c
  = CompilerContext.emit
      (if PyStr.contains "safe(" compiled
       then "_append(str(" +:+ compiled +:+ "))"
       else "_append(_escape(str(" +:+ compiled +:+ ")))") c.
Proof. exact (compile_expression_emits node c s). Qed.

Lemma safe_suffix_test_never_fires_witness :
  PyxmCompiler._compile_expression
    (PyxmNode.with_content (Some "name | safe") (PyxmNode.new NodeType.EXPRESSION))
    CompilerContext.init
  = CompilerContext.emit "_append(_escape(str(_filters['safe'](name))))"
      CompilerContext.init.
Proof.
  exact (proj2 (safe_suffix_test_never_fires
                  (PyxmNode.with_content (Some "name | safe")
                     (PyxmNode.new NodeType.EXPRESSION))
                  CompilerContext.init "name | safe" eq_refl ltac:(discriminate))).
Defined.

(** ** The tree: queries and collected metadata *)

Lemma fix_concat {A B} (f : A → list B) cs :
  (fix go (cs : list A) : list B :=
     match cs with [] => [] | c :: cs' => f c ++ go cs' end) cs
  = concat (f <$> cs).
Proof. induction cs as [|c cs IH]; [done|]. cbn. by rewrite IH. Qed.

Lemma collect_unfold n :
  PyxmTree.collect n = n :: concat (PyxmTree.collect <$> PyxmNode.children n).
Proof. destruct n. cbn [PyxmTree.collect PyxmNode.children]. by rewrite fix_concat. Qed.

Lemma find_by_type_unfold ty n :
  PyxmNode.find_by_type ty n
  = (if decide (PyxmNode.type n = ty) then [n] else [])
    ++ concat (PyxmNode.find_by_type ty <$> PyxmNode.children n).
Proof.
  destruct n. cbn [PyxmNode.find_by_type PyxmNode.children PyxmNode.type].
  by rewrite fix_concat.
Qed.

Lemma find_by_tag_unfold tag n :
  PyxmTree.find_by_tag tag n
  = (if decide (PyxmNode.tag n = Some tag) then [n] else [])
    ++ concat (PyxmTree.find_by_tag tag <$> PyxmNode.children n).
Proof.
  destruct n. cbn [PyxmTree.find_by_tag PyxmNode.children PyxmNode.tag].
  by rewrite fix_concat.
Qed.

Lemma filter_concat {A} (P : A → Prop) `{∀ x, Decision (P x)} (ls : list (list A)) :
  filter P (concat ls) = concat (filter P <$> ls).
Proof.
  induction ls as [|l ls IH]; [done|]. cbn. by rewrite filter_app, IH.
Qed.

Lemma find_by_type_filter ty n :
  PyxmNode.find_by_type ty n = filter (λ x, PyxmNode.type x = ty) (PyxmTree.collect n).
Proof.
  induction n as [n HF] using PyxmNode_ind'.
  rewrite find_by_type_unfold, collect_unfold, filter_cons, filter_concat.
  assert (E : PyxmNode.find_by_type ty <$> PyxmNode.children n
              = filter (λ x, PyxmNode.type x = ty) <$>
                  (PyxmTree.collect <$> PyxmNode.children n)).
  { rewrite <- list_fmap_compose. apply Forall_fmap_ext_1.
    eapply Forall_impl; [exact HF|]. by intros x ->. }
  rewrite E. by destruct (decide _).
Qed.

Lemma find_by_tag_filter tag n :
  PyxmTree.find_by_tag tag n
  = filter (λ x, PyxmNode.tag x = Some tag) (PyxmTree.collect n).
Proof.
  induction n as [n HF] using PyxmNode_ind'.
  rewrite find_by_tag_unfold, collect_unfold, filter_cons, filter_concat.
  assert (E : PyxmTree.find_by_tag tag <$> PyxmNode.children n
              = filter (λ x, PyxmNode.tag x = Some tag) <$>
                  (PyxmTree.collect <$> PyxmNode.children n)).
  { rewrite <- list_fmap_compose. apply Forall_fmap_ext_1.
    eapply Forall_impl; [exact HF|]. by intros x ->. }
  rewrite E. by destruct (decide _).
Qed.

(** X25: the tree queries are filters of the pre-order walk.
    [find_by_type] returns exactly the nodes of [_all_nodes] that have
    the type, and [find_by_tag] those that have the tag, in the order of
    the walk (a node before its descendants, children left to right);
    [get_expressions] is the EXPRESSION case. *)
Theorem find_by_type_is_preorder_filter (ast : PyxmAST.t)
    (node_type : NodeType.t) (tag : string) :
  PyxmNode.find_by_type node_type (PyxmAST.root ast)
  = filter (λ x, PyxmNode.type x = node_type) (PyxmTree._all_nodes ast) ∧
  PyxmTree.find_by_tag tag (PyxmAST.root ast)
  = filter (λ x, PyxmNode.tag x = Some tag) (PyxmTree._all_nodes ast) ∧
  PyxmTree.get_expressions ast
  = filter (λ x, PyxmNode.type x = NodeType.EXPRESSION) (PyxmTree._all_nodes ast).
Proof.
  unfold PyxmTree._all_nodes, PyxmTree.get_expressions.
  split; [apply find_by_type_filter|]. split; [apply find_by_tag_filter|].
  apply find_by_type_filter.
Qed.

Lemma truthy_filter {A} (P : A → Prop) `{∀ x, Decision (P x)} (l : list A) :
  PyxmTree.truthy (filter P l) = existsb (λ x, bool_decide (P x)) l.
Proof.
  induction l as [|x l IH]; [done|]. rewrite filter_cons. cbn [existsb].
  destruct (decide (P x)) as [Hx|Hx].
  - by rewrite bool_decide_eq_true_2.
  - by rewrite bool_decide_eq_false_2, IH.
Qed.

Lemma existsb_orb {A} (f g : A → bool) l :
  existsb f l || existsb g l = existsb (λ x, f x || g x) l.
Proof.
  induction l as [|x l IH]; [done|]. cbn [existsb]. rewrite <- IH.
  destruct (f x), (g x), (existsb f l), (existsb g l); done.
Qed.

(** X27: [has_dynamic_content] is true exactly when some node of the
    tree is an expression, an if or a for, or carries an attribute
    binding. Events and refs do not count, although [_is_static_node]
    treats a node with events as not static. *)
Theorem has_dynamic_content_scans_every_node (ast : PyxmAST.t) :
  PyxmTree.has_dynamic_content ast
  = existsb
      (λ node,
         bool_decide (PyxmNode.type node = NodeType.EXPRESSION)
         || bool_decide (PyxmNode.type node = NodeType.IF)
         || bool_decide (PyxmNode.type node = NodeType.FOR)
         || PyxmTree.truthy (PyxmNode.bindings node))
      (PyxmTree._all_nodes ast).
Proof.
  unfold PyxmTree.has_dynamic_content, PyxmTree.get_expressions, PyxmTree._all_nodes.
  rewrite !find_by_type_filter, !truthy_filter, !existsb_orb. done.
Qed.

Lemma pydict_get_set_eq {V} k (v : V) d : PyDict.get k (PyDict.set k v d) = Some v.
Proof.
  induction d as [|[k' v'] d IH]; cbn [PyDict.set PyDict.get].
  - by rewrite String.eqb_refl.
  - destruct (String.eqb_spec k' k); cbn [PyDict.get].
    + by rewrite String.eqb_refl.
    + by rewrite (proj2 (String.eqb_neq _ _) n).
Qed.

Lemma pydict_get_set_ne {V} k k' (v : V) d :
  k' ≠ k → PyDict.get k' (PyDict.set k v d) = PyDict.get k' d.
Proof.
  intros Hne. induction d as [|[k1 v1] d IH]; cbn [PyDict.set PyDict.get].
  - by rewrite (proj2 (String.eqb_neq k k')) by congruence.
  - destruct (String.eqb_spec k1 k) as [->|Hk]; cbn [PyDict.get].
    + by rewrite !(proj2 (String.eqb_neq k k')) by congruence.
    + destruct (String.eqb k1 k'); [done|exact IH].
Qed.

Lemma pydict_get_update_None {V} k (o : PyDict.t V) : ∀ d,
  PyDict.get k o = None → PyDict.get k (PyDict.update d o) = PyDict.get k d.
Proof.
  unfold PyDict.update. induction o as [|[k1 v1] o IH]; intros d H; [done|].
  cbn [PyDict.get] in H. cbn [fold_left fst snd].
  destruct (String.eqb_spec k1 k) as [->|Hk]; [done|].
  rewrite (IH _ H). apply pydict_get_set_ne. congruence.
Qed.

Lemma pydict_get_None_keys {V} k (o : PyDict.t V) :
  k ∉ PyDict.keys o → PyDict.get k o = None.
Proof.
  unfold PyDict.keys. induction o as [|[k1 v1] o IH]; [done|].
  cbn [fmap list_fmap fst PyDict.get]. intros Hn.
  apply not_elem_of_cons in Hn as [Hne Hn].
  rewrite (proj2 (String.eqb_neq k1 k)) by congruence. by apply IH.
Qed.

Lemma pydict_get_update_Some {V} k (v : V) (o : PyDict.t V) : ∀ d,
  NoDup (PyDict.keys o) → PyDict.get k o = Some v →
  PyDict.get k (PyDict.update d o) = Some v.
Proof.
  induction o as [|[k1 v1] o IH]; intros d Hnd H; [done|].
  unfold PyDict.keys in Hnd. cbn [fmap list_fmap fst] in Hnd.
  apply NoDup_cons in Hnd as [Hk1 Hnd].
  cbn [PyDict.get] in H. unfold PyDict.update. cbn [fold_left fst snd].
  destruct (String.eqb_spec k1 k) as [->|Hk].
  - injection H as ->.
    change (fold_left _ o ?x) with (PyDict.update x o).
    rewrite (pydict_get_update_None k o _ (pydict_get_None_keys k o Hk1)).
    apply pydict_get_set_eq.
  - change (fold_left _ o ?x) with (PyDict.update x o). by apply IH.
Qed.

Lemma collect_fold field n : ∀ acc,
  PyxmCompiler.collect field n acc
  = fold_left (λ acc m, PyDict.update acc (field m)) (PyxmTree.collect n) acc.
Proof.
  induction n as [n HF] using PyxmNode_ind'. intros acc.
  rewrite collect_unfold. cbn [fold_left].
  destruct n as [ty tag attrs binds evs refs cs content cond iter ln col sc stat].
  cbn [PyxmCompiler.collect PyxmNode.children] in *.
  rewrite fix_fold.
  generalize (PyDict.update acc
                (field (PyxmNode.mk ty tag attrs binds evs refs cs content cond iter
                          ln col sc stat))).
  clear acc. induction HF as [|c cs' Hc HF IH]; intros acc; [done|].
  cbn [fold_left fmap list_fmap concat]. rewrite fold_left_app, <- Hc. apply IH.
Qed.

Lemma fold_update_last (field : PyxmNode.t → PyDict.t string) k (v : string)
    (post : list PyxmNode.t) : ∀ acc,
  PyDict.get k acc = Some v →
  (∀ m, m ∈ post → PyDict.get k (field m) = None) →
  PyDict.get k (fold_left (λ acc m, PyDict.update acc (field m)) post acc) = Some v.
Proof.
  induction post as [|m post IH]; intros acc Ha Hp; [done|].
  cbn [fold_left]. apply IH.
  - rewrite pydict_get_update_None; [done|]. apply Hp. by left.
  - intros m' Hm'. apply Hp. by right.
Qed.

(** X26: [_collect_bindings] and [_collect_events] fold [dict.update]
    over the nodes in pre-order, starting from the empty dictionary. So
    when several nodes bind the same name, only the value of the last of
    them in the walk is kept: the collected dictionary maps the name to
    the value given by a node after which no node binds it. *)
Theorem collected_bindings_last_node_wins (root m : PyxmNode.t)
    (pre post : list PyxmNode.t) (k v : string) :
  PyxmTree.collect root = pre ++ m :: post →
  (PyxmCompiler._collect_bindings root
   = fold_left (λ acc n, PyDict.update acc (PyxmNode.bindings n))
       (PyxmTree.collect root) []) ∧
  (PyxmCompiler._collect_events root
   = fold_left (λ acc n, PyDict.update acc (PyxmNode.events n))
       (PyxmTree.collect root) []) ∧
  (NoDup (PyDict.keys (PyxmNode.bindings m)) →
   PyDict.get k (PyxmNode.bindings m) = Some v →
   (∀ m', m' ∈ post → PyDict.get k (PyxmNode.bindings m') = None) →
   PyDict.get k (PyxmCompiler._collect_bindings root) = Some v) ∧
  (NoDup (PyDict.keys (PyxmNode.events m)) →
   PyDict.get k (PyxmNode.events m) = Some v →
   (∀ m', m' ∈ post → PyDict.get k (PyxmNode.events m') = None) →
   PyDict.get k (PyxmCompiler._collect_events root) = Some v).
Proof.
  intros Hsplit.
  unfold PyxmCompiler._collect_bindings, PyxmCompiler._collect_events.
  rewrite !collect_fold. split; [done|]. split; [done|].
  rewrite Hsplit, !fold_left_app. cbn [fold_left].
  split; intros Hnd Hk Hpost; apply fold_update_last; try done;
    by apply pydict_get_update_Some.
Qed.

Lemma collected_bindings_last_node_wins_witness :
  let a := PyxmNode.with_bindings [("class", "x")] (PyxmNode.new NodeType.ELEMENT) in
  let b := PyxmNode.with_bindings [("class", "y")] (PyxmNode.new NodeType.ELEMENT) in
  let root := PyxmNode.add_child b (PyxmNode.add_child a (PyxmNode.new NodeType.ROOT)) in
  PyDict.get "class" (PyxmCompiler._collect_bindings root) = Some "y".
Proof.
  intros a b root.
  refine (proj1 (proj2 (proj2
            (collected_bindings_last_node_wins root b [root; a] [] "class" "y" eq_refl)))
            _ eq_refl _).
  - apply NoDup_singleton.
  - intros m' Hm'. by apply elem_of_nil in Hm'.
Defined.

(** ** Compiler: Python blocks *)

Lemma lstrip_spaces n s : PyStr.lstrip (PyStr.spaces n +:+ s) = PyStr.lstrip s.
Proof.
  induction n as [|n IH]; [done|].
  change (PyStr.spaces (S n) +:+ s) with (String " " (PyStr.spaces n +:+ s)).
  cbn [PyStr.lstrip]. change (PyStr.isspace " ") with true. exact IH.
Qed.

Lemma strip_indent c s : PyStr.strip (CompilerContext.indent c +:+ s) = PyStr.strip s.
Proof. unfold PyStr.strip, CompilerContext.indent. by rewrite lstrip_spaces. Qed.

Lemma emit_fold_parts (keep : string → bool) lines : ∀ c,
  CompilerContext.output_parts
    (fold_left (λ c line, if keep line then CompilerContext.emit line c else c) lines c)
  = CompilerContext.output_parts c
    ++ ((λ line, CompilerContext.indent c +:+ line) <$> List.filter keep lines)
  ∧ CompilerContext.indent_level
      (fold_left (λ c line, if keep line then CompilerContext.emit line c else c) lines c)
    = CompilerContext.indent_level c.
Proof.
  induction lines as [|l lines IH]; intros c; cbn [fold_left List.filter].
  { by rewrite app_nil_r. }
  destruct (keep l).
  - destruct (IH (CompilerContext.emit l c)) as [-> ->].
    cbn [CompilerContext.emit CompilerContext.output_parts CompilerContext.indent_level
         fmap list_fmap].
    split; [|done]. rewrite <- app_assoc. reflexivity.
  - apply IH.
Qed.

(** X28: what [_emit_python_block] writes. The generated code gains,
    each behind the current indentation, the lines of the stripped block
    that are neither blank nor an [import]/[from] line, in order, then
    one blank part; the indentation level is the one it started with.
    None of the parts it writes is an import line, so the imports that
    [_analyze_ast] lists never reach the generated function. *)
Theorem python_block_imports_are_not_emitted (block : string)
    (c : CompilerContext.t) :
  let skipped (line : string) :=
    String.eqb (PyStr.strip line) "" || PyxmParser.is_import (PyStr.strip line) in
  let parts :=
    ((λ line, CompilerContext.indent c +:+ line) <$>
       List.filter (λ line, negb (skipped line))
         (PyStr.split "010" (PyStr.strip block)))
    ++ [CompilerContext.indent c] in
  CompilerContext.output_parts (PyxmCompiler._emit_python_block block c)
  = CompilerContext.output_parts c ++ parts ∧
  Forall (λ part, PyxmParser.is_import (PyStr.strip part) = false) parts.
Proof.
  intros skipped parts. split.
  - unfold PyxmCompiler._emit_python_block. cbv zeta.
    cbn [CompilerContext.emit CompilerContext.output_parts].
    assert (E : ∀ lines c0,
      fold_left
        (λ c1 line,
           if String.eqb (PyStr.strip line) ""
              || PyStr.startswith "import " (PyStr.strip line)
              || PyStr.startswith "from " (PyStr.strip line)
           then c1 else CompilerContext.emit line c1) lines c0
      = fold_left
          (λ c1 line, if negb (skipped line) then CompilerContext.emit line c1 else c1)
          lines c0).
    { intros lines. induction lines as [|l lines IH]; intros c0; [done|].
      cbn [fold_left]. rewrite <- IH. subst skipped. unfold PyxmParser.is_import.
      cbv beta. rewrite orb_assoc. by destruct (_ || _). }
    rewrite E.
    destruct (emit_fold_parts (λ line, negb (skipped line))
                (PyStr.split "010" (PyStr.strip block)) c) as [-> Hi].
    unfold CompilerContext.indent at 2. rewrite Hi. fold (CompilerContext.indent c).
    subst parts. rewrite <- app_assoc. do 3 f_equal. apply str_app_empty_r.
  - subst parts. apply Forall_app. split.
    + apply Forall_fmap, Forall_forall. intros line Hin.
      apply list_elem_of_In, filter_In in Hin as [_ Hk]. unfold compose. cbv beta.
      rewrite strip_indent. subst skipped. cbv beta in Hk.
      apply negb_true_iff, orb_false_iff in Hk as [_ Hk]. exact Hk.
    + constructor; [|done].
      rewrite <- (str_app_empty_r (CompilerContext.indent c)), strip_indent. done.
Qed.

(** ** Lexer and parser: Python blocks *)

Lemma py_loop_run body : ∀ st tail fuel,
  PyxmLexer.rest st = body +:+ tail →
  PyStr.contains "</" body = false →
  tail = EmptyString ∨ (∃ r, tail = "</py>" +:+ r) →
  (String.length body < fuel)%nat →
  PyxmLexer.py_loop fuel st = PyxmLexer._advance (String.length body) st.
Proof.
  induction body as [|c t IH]; intros st tail fuel Hr Hc Htail Hfuel;
    (destruct fuel as [|fuel]; [cbn in Hfuel; lia|]); cbn [PyxmLexer.py_loop].
  - change (EmptyString +:+ tail) with tail in Hr. destruct Htail as [-> | [r ->]].
    + by rewrite (pos_ltb_end _ Hr).
    + rewrite (pos_ltb st "<" ("/py>" +:+ r) Hr).
      unfold PyxmLexer._match_pattern. by rewrite Hr.
  - change (String c t +:+ tail) with (String c (t +:+ tail)) in Hr.
    rewrite (pos_ltb _ _ _ Hr).
    apply pycontains_cons in Hc as [S1 Hc].
    assert (Hno : PyStr.startswith "</" (String c (t +:+ tail)) = false).
    { apply startswith2_next; [exact S1|].
      destruct Htail as [-> | [r ->]]; [by left|right].
      exists "<"%char, ("/py>" +:+ r). by split. }
    unfold PyxmLexer._match_pattern at 1, PyxmLexer.re_py_close, PyxmLexer.re_py.
    rewrite Hr, Hno.
    change (PyxmLexer._advance 1 st) with (PyxmLexer.advance1 st).
    cbn [String.length]. rewrite advance_S.
    destruct (advance1_rest st c (t +:+ tail) Hr) as (A1 & _).
    apply (IH _ tail); try assumption. cbn in Hfuel. lia.
Qed.

Lemma tokenize_python_block_eq st :
  PyxmLexer._tokenize_python_block st =
  let st1 :=
    match PyxmLexer.re_py_open (PyxmLexer.rest st) with
    | Some n => PyxmLexer._advance n
                  (PyxmLexer._add_token PY_BLOCK_OPEN
                     (PyStr.take n (PyxmLexer.rest st)) st)
    | None => st
    end in
  let st2 := PyxmLexer.py_loop (PyxmLexer.len_source st1 + 1) st1 in
  let st3 := PyxmLexer._add_token PY_CONTENT
               (PyStr.slice (PyxmLexer.pos st1) (PyxmLexer.pos st2)
                  (PyxmLexer.source st2)) st2 in
  match PyxmLexer.re_py_close (PyxmLexer.rest st3) with
  | Some n => PyxmLexer._advance n
                (PyxmLexer._add_token PY_BLOCK_CLOSE
                   (PyStr.take n (PyxmLexer.rest st3)) st3)
  | None => st3
  end.
Proof. reflexivity. Qed.

(** [_tokenize_python_block] on a block opened by [<py>], closed by
    [</py>] or cut short by the end of the text. *)
Lemma tokenize_python_block_run st body tail :
  PyxmLexer.rest st = "<py>" +:+ body +:+ tail →
  PyStr.contains "</" body = false →
  tail = EmptyString ∨ (∃ r, tail = "</py>" +:+ r) →
  let e := PyxmLexer._advance (4 + String.length body) st in
  let r := PyxmLexer._next_token st in
  PyxmLexer.tokens r
  = PyxmLexer.tokens st ++
      [mkToken PY_BLOCK_OPEN "<py>" (PyxmLexer.line st) (PyxmLexer.column st);
       mkToken PY_CONTENT body (PyxmLexer.line e) (PyxmLexer.column e)]
      ++ (if String.eqb tail "" then []
          else [mkToken PY_BLOCK_CLOSE "</py>" (PyxmLexer.line e) (PyxmLexer.column e)])
  ∧ PyxmLexer.rest r = PyStr.drop 5 tail
  ∧ PyxmLexer.line r = PyxmLexer.line e
  ∧ PyxmLexer.column r
    = (PyxmLexer.column e + (if String.eqb tail "" then 0 else 5))%nat.
Proof.
  intros Hr Hc Htail e r.
  assert (Hnext : r = PyxmLexer._tokenize_python_block st).
  { subst r. unfold PyxmLexer._next_token, PyxmLexer._match_pattern. by rewrite Hr. }
  rewrite Hnext, tokenize_python_block_eq. cbv zeta.
  replace (PyxmLexer.re_py_open (PyxmLexer.rest st)) with (Some 4%nat)
    by (by rewrite Hr).
  replace (PyStr.take 4 (PyxmLexer.rest st)) with "<py>" by (by rewrite Hr).
  destruct (advance_app "<py>" st (body +:+ tail) Hr) as (R1 & _).
  change (String.length "<py>") with 4%nat in R1.
  destruct (advance_add_token 4 PY_BLOCK_OPEN "<py>" st) as (_ & _ & L1 & C1 & R1').
  pose proof (advance_same_tokens 4 (PyxmLexer._add_token PY_BLOCK_OPEN "<py>" st)) as T1.
  assert (He : PyxmLexer.line (PyxmLexer._advance (String.length body)
                 (PyxmLexer._advance 4 (PyxmLexer._add_token PY_BLOCK_OPEN "<py>" st)))
               = PyxmLexer.line e ∧
               PyxmLexer.column (PyxmLexer._advance (String.length body)
                 (PyxmLexer._advance 4 (PyxmLexer._add_token PY_BLOCK_OPEN "<py>" st)))
               = PyxmLexer.column e).
  { subst e. rewrite advance_plus.
    destruct (advance_add_token 4 PY_BLOCK_OPEN "<py>" st) as (A1 & A2 & A3 & A4 & _).
    set (x := PyxmLexer._advance 4 (PyxmLexer._add_token PY_BLOCK_OPEN "<py>" st)) in *.
    set (y := PyxmLexer._advance 4 st) in *.
    replace x with (PyxmLexer.mk (PyxmLexer.source y) (PyxmLexer.pos y)
                      (PyxmLexer.line y) (PyxmLexer.column y) (PyxmLexer.tokens x))
      by (destruct x; cbn in *; congruence).
    by rewrite advance_tokens. }
  destruct He as [Hl Hcol].
  set (st1 := PyxmLexer._advance 4 (PyxmLexer._add_token PY_BLOCK_OPEN "<py>" st)) in *.
  assert (Hr1 : PyxmLexer.rest st1 = body +:+ tail) by (by rewrite R1').
  rewrite (py_loop_run body st1 tail _ Hr1 Hc Htail (region_fuel _ _ _ Hr1)).
  destruct (advance_app body st1 tail Hr1) as (R2 & S2 & P2 & T2).
  set (st2 := PyxmLexer._advance (String.length body) st1) in *.
  rewrite P2, S2, (slice_rest st1 body tail Hr1).
  set (st3 := PyxmLexer._add_token PY_CONTENT body st2).
  assert (R3 : PyxmLexer.rest st3 = tail) by exact R2.
  assert (T3 : PyxmLexer.tokens st3
               = PyxmLexer.tokens st ++
                   [mkToken PY_BLOCK_OPEN "<py>" (PyxmLexer.line st) (PyxmLexer.column st);
                    mkToken PY_CONTENT body (PyxmLexer.line e) (PyxmLexer.column e)]).
  { subst st3. unfold PyxmLexer._add_token at 1. cbn [PyxmLexer.tokens].
    rewrite T2, T1, Hl, Hcol. unfold PyxmLexer._add_token. cbn [PyxmLexer.tokens].
    by rewrite <- app_assoc. }
  rewrite R3. destruct Htail as [-> | [rr ->]].
  - cbn [PyxmLexer.re_py_close PyxmLexer.re_py PyStr.startswith String.eqb].
    change (PyxmLexer.re_py_close "") with (@None nat). cbv iota.
    rewrite T3, R3, app_nil_r. split_and!; try done.
    subst st3. cbn [PyxmLexer._add_token PyxmLexer.column]. rewrite Hcol. lia.
  - change (PyxmLexer.re_py_close ("</py>" +:+ rr)) with (Some 5%nat). cbv iota.
    change (PyStr.take 5 ("</py>" +:+ rr)) with "</py>".
    change (("</py>" +:+ rr =? "")%string) with false. cbv iota.
    set (st4 := PyxmLexer._add_token PY_BLOCK_CLOSE "</py>" st3).
    assert (R4 : PyxmLexer.rest st4 = "</py>" +:+ rr) by exact R3.
    destruct (advance_app "</py>" st4 rr R4) as (R5 & _ & _ & _).
    destruct (advance_position "</py>" st4 rr R4) as [L5 C5].
    change (PyStr.split "010" "</py>") with ["</py>"] in L5, C5.
    cbn [length] in L5. cbv iota in C5.
    change (String.length "</py>") with 5%nat in *.
    rewrite advance_same_tokens, R5, L5, C5.
    split_and!.
    + subst st4. unfold PyxmLexer._add_token at 1. cbn [PyxmLexer.tokens].
      rewrite T3. subst st3. cbn [PyxmLexer._add_token PyxmLexer.line PyxmLexer.column].
      rewrite Hl, Hcol. by rewrite <- app_assoc.
    + done.
    + subst st4 st3. cbn [PyxmLexer._add_token PyxmLexer.line].
      rewrite Hl. lia.
    + subst st4 st3. cbn [PyxmLexer._add_token PyxmLexer.column].
      rewrite Hcol. lia.
Qed.

Lemma init_prefix_position t tail :
  let e := PyxmLexer._advance (String.length t) (PyxmLexer.init (t +:+ tail)) in
  let parts := PyStr.split "010" t in
  PyxmLexer.line e = length parts ∧
  PyxmLexer.column e = S (String.length (default EmptyString (last parts))).
Proof.
  destruct (advance_position t (PyxmLexer.init (t +:+ tail)) tail eq_refl) as [Hl Hc].
  cbv zeta. rewrite Hl, Hc.
  destruct (pysplit_nonempty "010" t) as (p & ps & Hp). rewrite Hp.
  cbn [PyxmLexer.line PyxmLexer.column PyxmLexer.init length].
  split; [lia|]. destruct ps as [|q qs]; [|done].
  cbn [last default]. by rewrite (pysplit_single _ _ _ Hp).
Qed.

(** X29: a Python block through lexer and parser. For a body without
    [</], the source [<py>body</py>] parses to a tree whose root has no
    child: the body is kept verbatim as the only Python block, and its
    stripped [import]/[from] lines are the imports; PY_CONTENT and
    PY_BLOCK_CLOSE are stamped where the body ends. Without the closing
    tag the lexer adds no PY_BLOCK_CLOSE and [_parse_python_block] raises
    the SyntaxError [Expected PY_BLOCK_CLOSE, got EOF at line L:C]: of
    the four regions this is the only one whose missing closer is
    reported. *)
Theorem python_block_is_lifted_or_rejected (fuel : nat) (body : string)
    (self : PyxmParser.t) :
  PyStr.contains "</" body = false →
  let parts := PyStr.split "010" ("<py>" +:+ body) in
  let l := length parts in
  let c := S (String.length (default EmptyString (last parts))) in
  let ast := PyxmAST.mk (PyxmNode.new NodeType.ROOT) [body]
               (filter (λ line, PyxmParser.is_import line = true)
                  (PyStr.strip <$> PyStr.split "010" body)) [] [] in
  PyxmParser.parse (S (S fuel)) ("<py>" +:+ body +:+ "</py>") self
  = PyxmParser.Done ast
      (PyxmParser.mk
         [mkToken PY_BLOCK_OPEN "<py>" 1 1; mkToken PY_CONTENT body l c;
          mkToken PY_BLOCK_CLOSE "</py>" l c; mkToken EOF "" l (c + 5)]
         3 (Some ast))
  ∧ PyxmParser.parse (S (S fuel)) ("<py>" +:+ body) self
  = PyxmParser.Fail
      (SyntaxError
         ("Expected PY_BLOCK_CLOSE, got EOF at line "
          +:+ str_of_nat l +:+ ":" +:+ str_of_nat c)).
Proof.
  intros Hc parts l c ast.
  assert (Hlex : ∀ f tail, tail = EmptyString ∨ (∃ r, tail = "</py>" +:+ r) →
    PyStr.drop 5 tail = EmptyString →
    PyxmLexer.tokenize (S f) (PyxmLexer.init ("<py>" +:+ body +:+ tail))
    = Some ([mkToken PY_BLOCK_OPEN "<py>" 1 1; mkToken PY_CONTENT body l c]
            ++ (if String.eqb tail "" then []
                else [mkToken PY_BLOCK_CLOSE "</py>" l c])
            ++ [mkToken EOF "" l (c + (if String.eqb tail "" then 0 else 5))])).
  { intros f tail Htail Hdrop.
    set (st := PyxmLexer.init ("<py>" +:+ body +:+ tail)).
    destruct (tokenize_python_block_run st body tail eq_refl Hc Htail)
      as (Ht & Hrest & Hl & Hcol).
    destruct (init_prefix_position ("<py>" +:+ body) tail) as [El Ec].
    fold parts in El, Ec. fold l in El. fold c in Ec.
    rewrite str_app_assoc in El, Ec. 
    change (String.length ("<py>" +:+ body)) with (4 + String.length body)%nat in El, Ec.
    change (PyxmLexer.init ("<py>" +:+ body +:+ tail)) with st in El, Ec.
    rewrite El, Ec in *. rewrite Hdrop in Hrest.
    unfold PyxmLexer.tokenize. cbn [PyxmLexer.tokenize_loop].
    change (PyxmLexer.pos st <? PyxmLexer.len_source st)%nat with true. cbv iota.
    rewrite (tokenize_loop_end f _ Hrest).
    unfold PyxmLexer._add_token. cbn [PyxmLexer.tokens].
    rewrite Ht, Hl, Hcol. cbn [PyxmLexer.tokens PyxmLexer.line PyxmLexer.column].
    by rewrite <- !app_assoc. }
  split.
  - unfold PyxmParser.parse.
    rewrite (Hlex (S fuel) "</py>" (or_intror (ex_intro _ EmptyString eq_refl)) eq_refl).
    assert (Hast : ast = PyxmParser._analyze_ast (PyxmNode.new NodeType.ROOT) [body]).
    { unfold PyxmParser._analyze_ast, ast. cbn [map concat].
      by rewrite app_nil_r. }
    rewrite Hast. reflexivity.
  - unfold PyxmParser.parse.
    pose proof (Hlex (S fuel) EmptyString (or_introl eq_refl) eq_refl) as H.
    change (("" =? "")%string) with true in H. cbv iota in H.
    rewrite Nat.add_0_r, str_app_empty_r in H. rewrite H. reflexivity.
Qed.

Lemma python_block_is_lifted_or_rejected_witness :
  PyxmParser.parse 2 "<py>x = 1" (PyxmParser.mk [] 0 None)
  = PyxmParser.Fail
      (SyntaxError "Expected PY_BLOCK_CLOSE, got EOF at line 1:10").
Proof.
  exact (proj2 (python_block_is_lifted_or_rejected 0 "x = 1"
                  (PyxmParser.mk [] 0 None) eq_refl)).
Defined.

(** ** Parser: closing tags *)

(** X30: the check of a closing tag in [_parse_element]. When the
    children loop of an element named [tag_name] stands at a closing tag
    (TAG_END_OPEN, TAG_NAME, TAG_CLOSE), it consumes the three tokens and
    compares the closing name in lower case with [tag_name]: equal, the
    loop ends with the node as it is; different, it raises the
    SyntaxError [Mismatched tags: expected </tag_name>, got </close>],
    whose text holds the two names (the closing one as written) and no
    line or column. *)
Theorem closing_tag_is_checked_against_open_name (fuel : nat)
    (tag_name : string) (node : PyxmNode.t) (st : PyxmParser.t)
    (t0 t1 t2 : Token) :
  PyxmParser.tokens st !! PyxmParser.pos st = Some t0 →
  tok_type t0 = TAG_END_OPEN →
  PyxmParser.tokens st !! S (PyxmParser.pos st) = Some t1 →
  tok_type t1 = TAG_NAME →
  PyxmParser.tokens st !! S (S (PyxmParser.pos st)) = Some t2 →
  tok_type t2 = TAG_CLOSE →
  PyxmParser.element_loop (S fuel) tag_name node st
  = if String.eqb (PyStr.lower (tok_value t1)) tag_name
    then PyxmParser.Done node
           (PyxmParser.mk (PyxmParser.tokens st) (S (S (S (PyxmParser.pos st))))
              (PyxmParser.ast st))
    else PyxmParser.Fail
           (SyntaxError ("Mismatched tags: expected </" +:+ tag_name
                         +:+ ">, got </" +:+ tok_value t1 +:+ ">")).
Proof.
  intros H0 Ht0 H1 Ht1 H2 Ht2.
  cbn [PyxmParser.element_loop].
  rewrite (bind_Done _ _ _ _ _ (is_at_end_false st t0 H0 ltac:(congruence))).
  rewrite (bind_Done _ _ _ _ _ (current_Done st t0 H0)).
  rewrite Ht0. destruct (decide (TAG_END_OPEN = TAG_END_OPEN)) as [_|]; [|done].
  rewrite (bind_Done _ _ _ _ _ (advance_Done st t0 H0)).
  rewrite (bind_Done _ _ _ _ _
             (expect_Done TAG_NAME (PyxmParser.mk _ _ _) t1 H1 Ht1)).
  rewrite (bind_Done _ _ _ _ _
             (expect_Done TAG_CLOSE (PyxmParser.mk _ _ _) t2 H2 Ht2)).
  destruct (String.eqb (PyStr.lower (tok_value t1)) tag_name); reflexivity.
Qed.

Lemma closing_tag_is_checked_against_open_name_witness :
  PyxmParser.element_loop 1 "div"
    (PyxmNode.new NodeType.ELEMENT) (PyxmParser.mk mismatch_tokens 3 None)
  = PyxmParser.Fail
      (SyntaxError "Mismatched tags: expected </div>, got </span>")
  ∧ PyxmParser.element_loop 1 "span"
      (PyxmNode.new NodeType.ELEMENT) (PyxmParser.mk mismatch_tokens 3 None)
    = PyxmParser.Done (PyxmNode.new NodeType.ELEMENT)
        (PyxmParser.mk mismatch_tokens 6 None).
Proof.
  split.
  - exact (closing_tag_is_checked_against_open_name 0 "div"
             (PyxmNode.new NodeType.ELEMENT) (PyxmParser.mk mismatch_tokens 3 None)
             (mkToken TAG_END_OPEN "</" 3 6) (mkToken TAG_NAME "span" 3 8)
             (mkToken TAG_CLOSE ">" 3 12)
             eq_refl eq_refl eq_refl eq_refl eq_refl eq_refl).
  - exact (closing_tag_is_checked_against_open_name 0 "span"
             (PyxmNode.new NodeType.ELEMENT) (PyxmParser.mk mismatch_tokens 3 None)
             (mkToken TAG_END_OPEN "</" 3 6) (mkToken TAG_NAME "span" 3 8)
             (mkToken TAG_CLOSE ">" 3 12)
             eq_refl eq_refl eq_refl eq_refl eq_refl eq_refl).
Defined.

(** * Rendering, read on the generated code *)

(** ** Expressions and the safe filter *)

Lemma lstrip_idem s : PyStr.lstrip (PyStr.lstrip s) = PyStr.lstrip s.
Proof.
  induction s as [|c s IH]; [done|]. cbn [PyStr.lstrip].
  destruct (PyStr.isspace c) eqn:E; [exact IH|]. cbn [PyStr.lstrip]. by rewrite E.
Qed.

Lemma rstrip_idem s : PyStr.rstrip (PyStr.rstrip s) = PyStr.rstrip s.
Proof.
  induction s as [|c s IH]; [done|]. cbn [PyStr.rstrip].
  destruct (PyStr.rstrip s) as [|d r] eqn:E.
  - destruct (PyStr.isspace c) eqn:Ec; [done|]. cbn [PyStr.rstrip]. by rewrite Ec.
  - cbn [PyStr.rstrip]. cbn [PyStr.rstrip] in IH. by rewrite IH.
Qed.

Lemma lstrip_rstrip t : PyStr.lstrip t = t → PyStr.lstrip (PyStr.rstrip t) = PyStr.rstrip t.
Proof.
  destruct t as [|c t]; [done|]. cbn [PyStr.lstrip].
  destruct (PyStr.isspace c) eqn:E.
  - intros H. exfalso. apply (f_equal String.length) in H. cbn [String.length] in H.
    assert (Hle : ∀ u, (String.length (PyStr.lstrip u) ≤ String.length u)%nat).
    { intros u. induction u as [|a u IHu]; [done|]. cbn [PyStr.lstrip].
      destruct (PyStr.isspace a); cbn [String.length]; lia. }
    specialize (Hle t). lia.
  - intros _. cbn [PyStr.rstrip].
    destruct (PyStr.rstrip t); rewrite ?E; cbn [PyStr.lstrip]; by rewrite E.
Qed.

Lemma strip_idem s : PyStr.strip (PyStr.strip s) = PyStr.strip s.
Proof.
  unfold PyStr.strip.
  rewrite (lstrip_rstrip (PyStr.lstrip s) (lstrip_idem s)). apply rstrip_idem.
Qed.

(** C1 (the code departs from the claim): the [safe] filter does not
    switch escaping off. A source [{{body}}] whose body is not blank,
    holds neither [{{] nor [}}] and does not end with a closing brace
    parses to one expression node, and the code
    generated for it appends [_escape(str(e))], where [e] is the stripped
    body with its filter chain rewritten into calls, unless [e] contains
    the text [safe(]; the test for a [|safe] suffix is made on [e], which
    never ends that way. So [{{ "<script>" }}] is escaped, and so is
    [{{ "<b>" | safe }}], whose line is
    [_append(_escape(str(_filters['safe']("<b>"))))]. *)
Theorem safe_filter_does_not_switch_escaping_off (fuel : nat) (body : string)
    (self : PyxmParser.t) :
  PyStr.contains "{{" body = false →
  PyStr.contains "}}" (body +:+ "}") = false →
  PyStr.strip body ≠ EmptyString →
  let expr := PyStr.strip body in
  let compiled := if PyStr.contains "|" expr
                  then PyxmCompiler._compile_filters expr else expr in
  ∃ (ast : PyxmAST.t) (st : PyxmParser.t),
    PyxmParser.parse (S (S fuel)) ("{{" +:+ body +:+ "}}") self
    = PyxmParser.Done ast st ∧
    PyStr.endswith "|safe" compiled = false ∧
    PyxmCompiler.render_code_of ast
    = PyStr.join (String "010" "")
        ["async def _render(_ctx):";
         "    _output = []";
         "    _append = _output.append";
         "    _escape = __builtins_escape__";
         "    ";
         "    " +:+
           (if PyStr.contains "safe(" compiled
            then "_append(str(" +:+ compiled +:+ "))"
            else "_append(_escape(str(" +:+ compiled +:+ ")))");
         "    ";
         "    return ''.join(_output)"].
Proof.
  intros H1 H2 Hne expr compiled.
  set (src := "{{" +:+ body +:+ "}}").
  set (st0 := PyxmLexer.init src).
  assert (Hr : PyxmLexer.rest st0 = "{{" +:+ body +:+ "}}") by reflexivity.
  destruct (tokenize_expression_run st0 body "}}" Hr H1 (or_intror (conj eq_refl H2)))
    as (Ht & Hrest & _).
  change (PyStr.drop 2 "}}") with EmptyString in Hrest.
  set (e := PyxmLexer._advance (2 + String.length body) st0) in *.
  set (r := PyxmLexer._tokenize_expression st0) in *.
  assert (Hlex : ∀ f, PyxmLexer.tokenize (S f) st0
                 = Some [mkToken EXPR_OPEN "{{" 1 1;
                         mkToken EXPR_CONTENT expr (PyxmLexer.line e) (PyxmLexer.column e);
                         mkToken EXPR_CLOSE "}}" (PyxmLexer.line e) (PyxmLexer.column e);
                         mkToken EOF "" (PyxmLexer.line r) (PyxmLexer.column r)]).
  { intros f. unfold PyxmLexer.tokenize. cbn [PyxmLexer.tokenize_loop].
    change (PyxmLexer.pos st0 <? PyxmLexer.len_source st0)%nat with true. cbv iota.
    rewrite (next_token_expression _ _ Hr). fold r.
    rewrite (tokenize_loop_end f _ Hrest).
    unfold PyxmLexer._add_token. cbn [PyxmLexer.tokens]. rewrite Ht. reflexivity. }
  set (node := PyxmNode.with_pos (PyxmLexer.line e) (PyxmLexer.column e)
                 (PyxmNode.with_content (Some expr)
                    (PyxmNode.new NodeType.EXPRESSION))).
  exists (PyxmParser._analyze_ast
            (PyxmNode.add_child node (PyxmNode.new NodeType.ROOT)) []).
  assert (Hce : ∀ c, PyStr.endswith "|safe" compiled = false ∧
            PyxmCompiler._compile_expression node c
            = CompilerContext.emit
                (if PyStr.contains "safe(" compiled
                 then "_append(str(" +:+ compiled +:+ "))"
                 else "_append(_escape(str(" +:+ compiled +:+ ")))") c).
  { intros c. pose proof (compile_expression_emits node c expr eq_refl Hne) as H.
    cbv zeta in H. subst expr. rewrite strip_idem in H. exact H. }
  eexists. split; [|split].
  - unfold PyxmParser.parse. fold src. fold st0. rewrite (Hlex (S fuel)). reflexivity.
  - exact (proj1 (Hce CompilerContext.init)).
  - assert (Hroot : ∀ c, PyxmCompiler._compile_node
                           (PyxmNode.add_child node (PyxmNode.new NodeType.ROOT)) c
                         = PyxmCompiler._compile_expression node c) by reflexivity.
    unfold PyxmCompiler.render_code_of, PyxmParser._analyze_ast.
    cbn [PyxmAST.root PyxmAST.python_blocks fold_left]. cbv zeta.
    rewrite Hroot, (proj2 (Hce _)).
    reflexivity.
Qed.

Lemma safe_filter_does_not_switch_escaping_off_witness :
  ∃ ast st,
    PyxmParser.parse 2 ("{{" +:+ safe_filter_body +:+ "}}") PyxmParser.init
    = PyxmParser.Done ast st ∧
    PyxmCompiler.render_code_of ast
    = PyStr.join (String "010" "")
        ["async def _render(_ctx):";
         "    _output = []";
         "    _append = _output.append";
         "    _escape = __builtins_escape__";
         "    ";
         "    _append(_escape(str(_filters['safe']("
           +:+ String PyStr.dquote ("<b>" +:+ String PyStr.dquote "))))");
         "    ";
         "    return ''.join(_output)"].
Proof.
  destruct (safe_filter_does_not_switch_escaping_off 0 safe_filter_body PyxmParser.init
              eq_refl eq_refl ltac:(discriminate))
    as (ast & st & Hp & _ & Hcode).
  exists ast, st. split; [exact Hp|exact Hcode].
Defined.

(** ** Loops and chains of conditions *)

Lemma parse_at_least f source ast st :
  PyxmParser.parse f source PyxmParser.init = PyxmParser.Done ast st →
  ∀ fuel self, ∃ st', PyxmParser.parse (f + fuel) source self = PyxmParser.Done ast st'.
Proof.
  intros H fuel self.
  exact (proj1 (parse_second_run f (f + fuel) source PyxmParser.init self ast st H)
           ltac:(lia)).
Qed.

(** C2 (the code departs from the claim): the code generated for
    [{% for x in [1,2,3] %}{{ loop.first }}-{{ loop.last }}{% endfor %}],
    for every fuel from 12 on and every state of the parser instance.
    The loop metadata is a dictionary named [_loop1], assigned afresh as
    the first statement of every pass, so [index] is 0 and [first] is
    true in each pass and [last] is never true; the two updates at the end
    of the body are overwritten by the next pass. The name [loop] that the
    template reads is defined nowhere in the generated function. *)
Theorem for_loop_metadata_is_reset_each_pass (fuel : nat) (self : PyxmParser.t) :
  ∃ (ast : PyxmAST.t) (st : PyxmParser.t),
    PyxmParser.parse (12 + fuel) for_loop_source self = PyxmParser.Done ast st ∧
    PyxmCompiler.render_code_of ast
    = PyStr.join (String "010" "")
        ["async def _render(_ctx):";
         "    _output = []";
         "    _append = _output.append";
         "    _escape = __builtins_escape__";
         "    ";
         "    for x in [1,2,3]:";
         "        _loop1 = {'index': 0, 'first': True, 'last': False}";
         "        _append(_escape(str(loop.first)))";
         "        _append('-')";
         "        _append(_escape(str(loop.last)))";
         "        _loop1['index'] += 1";
         "        _loop1['first'] = False";
         "    ";
         "    return ''.join(_output)"].
Proof.
  destruct (PyxmParser.parse 12 for_loop_source PyxmParser.init)
    as [ast st| |] eqn:E; [|vm_compute in E; discriminate..].
  destruct (parse_at_least 12 for_loop_source ast st E fuel self) as [st' Hp].
  exists ast, st'. split; [exact Hp|].
  vm_compute in E. injection E as <- _. vm_compute. reflexivity.
Qed.

(** C3 (the code departs from the claim): the code generated for
    [{% if False %}A{% elif False %}B{% else %}C{% endif %}], for every
    fuel from 12 on and every state of the parser instance. It has the
    [if] and the [elif] branch and no [else] branch: the parser hangs the
    ELSE node under the ELIF node, and [_compile_if] leaves out the ELIF
    and ELSE children of an ELIF node. With both conditions false the
    function appends nothing, so the output does not contain [C]. *)
Theorem else_after_elif_is_not_compiled (fuel : nat) (self : PyxmParser.t) :
  ∃ (ast : PyxmAST.t) (st : PyxmParser.t),
    PyxmParser.parse (12 + fuel) if_chain_source self = PyxmParser.Done ast st ∧
    PyxmCompiler.render_code_of ast
    = PyStr.join (String "010" "")
        ["async def _render(_ctx):";
         "    _output = []";
         "    _append = _output.append";
         "    _escape = __builtins_escape__";
         "    ";
         "    if False:";
         "        _append('A')";
         "    elif False:";
         "        _append('B')";
         "    ";
         "    return ''.join(_output)"].
Proof.
  destruct (PyxmParser.parse 12 if_chain_source PyxmParser.init)
    as [ast st| |] eqn:E; [|vm_compute in E; discriminate..].
  destruct (parse_at_least 12 if_chain_source ast st E fuel self) as [st' Hp].
  exists ast, st'. split; [exact Hp|].
  vm_compute in E. injection E as <- _. vm_compute. reflexivity.
Qed.

(** ** Lexer: delimiters left open *)



